(** * docker-nexus: a shallow embedding of [src/app.js]

    The development follows the layout of the source file: the three
    "essences" ([go], [rust], [linux]), the [DockerModule] base class, the
    isolation, image and runtime modules, and the [DockerNexusEngine]
    router.  Definitions come first, theorems afterwards.

    Conventions.
    - A JavaScript exception is a value of [JsError]; an evaluation that
      may throw returns a [Completion].
    - Methods that mutate [this] are state transformers; objects shared
      through several references (the handles made by [rust.own]) live in
      an explicit store.
    - Randomness ([Math.random], [randomBytes]), the clock ([Date.now],
      [new Date()]) and the file system are inputs of the operations that
      read them.
    - Strings are byte strings; [toUpperCase] and [trim] act on the ASCII
      range, as they do on ASCII source text.
    - Console output ([console.log], [chalk]) and [EventEmitter] signals
      have no effect on the modelled state and are left out. *)

From Stdlib Require Import ZArith Lia Ascii String.
From stdpp Require Import base option list strings gmap pretty.

Local Open Scope string_scope.
Local Open Scope Z_scope.
Local Open Scope list_scope.

(* ===================================================================== *)
(** * Exceptions and completions *)
(* ===================================================================== *)

(** [new Error(msg)] and the engine-raised [TypeError]. *)
Inductive JsError : Type :=
| Error (msg : string)
| TypeError (msg : string).

Definition message (e : JsError) : string :=
  match e with
  | Error m => m
  | TypeError m => m
  end.

(** Result of evaluating a piece of code: a value, or a thrown error.  For
    a promise: fulfilled with a value, or rejected with a reason. *)
Inductive Completion (A : Type) : Type :=
| Normal (a : A)
| Throw (e : JsError).
Arguments Normal {A} a.
Arguments Throw {A} e.

Definition is_normal {A} (c : Completion A) : bool :=
  match c with
  | Normal _ => true
  | Throw _ => false
  end.

(** Stateful code that may throw. *)
Definition M (St A : Type) : Type := St -> Completion A * St.

Definition ret {St A} (a : A) : M St A := fun s => (Normal a, s).
Definition throw {St A} (e : JsError) : M St A := fun s => (Throw e, s).
Definition bind {St A B} (m : M St A) (k : A -> M St B) : M St B :=
  fun s =>
    match m s with
    | (Normal a, s') => k a s'
    | (Throw e, s') => (Throw e, s')
    end.
Definition try_catch {St A} (m : M St A) (handler : JsError -> M St A) : M St A :=
  fun s =>
    match m s with
    | (Normal a, s') => (Normal a, s')
    | (Throw e, s') => handler e s'
    end.
Definition get {St} : M St St := fun s => (Normal s, s).
Definition modify {St} (f : St -> St) : M St unit := fun s => (Normal tt, f s).
Definition lift_completion {St A} (c : Completion A) : M St A := fun s => (c, s).

(** [xs.map(f)] for an [f] that may throw: stops at the first exception. *)
Fixpoint mapM_completion {A B} (f : A -> Completion B) (xs : list A)
  : Completion (list B) :=
  match xs with
  | [] => Normal []
  | x :: xs' =>
      match f x with
      | Throw e => Throw e
      | Normal y =>
          match mapM_completion f xs' with
          | Throw e => Throw e
          | Normal ys => Normal (y :: ys)
          end
      end
  end.

Declare Scope js_scope.
Delimit Scope js_scope with js.
Notation "'let*' x ':=' m 'in' k" := (bind m (fun x => k))
  (at level 10, x pattern, m at level 100, k at level 200) : js_scope.
Notation "'do*' m 'in' k" := (bind m (fun _ => k))
  (at level 10, m at level 100, k at level 200) : js_scope.

(* ===================================================================== *)
(** * JavaScript numbers *)
(* ===================================================================== *)

Module JsNumber.

(** An IEEE 754 binary64 value.  [Finite m e] is the number [m * 2^e];
    the two zeros are one value here (their sign is not observable
    through [JSON.stringify], [toString] or [||]). *)
Inductive number : Type :=
| NaN
| Infinity (negative : bool)
| Finite (m e : Z).

(** Number of trailing zero bits of a positive integer. *)
Definition ctz (a : Z) : Z := Z.log2 (Z.land a (- a)).

(** Canonical form: odd mantissa, or [Finite 0 0]. *)
Definition canon (m e : Z) : number :=
  if m =? 0 then Finite 0 0
  else let t := ctz (Z.abs m) in Finite (Z.shiftr m t) (e + t).

(** Round [a * 2^e], [a >= 0], to the nearest integer multiple of
    [2^q], ties to even; the result is the multiplier. *)
Definition round_at (a e q : Z) : Z :=
  if q <=? e then Z.shiftl a (e - q)
  else
    let s := q - e in
    let quot := Z.shiftr a s in
    let rem := Z.land a (Z.ones s) in
    let half := Z.shiftl 1 (s - 1) in
    if (half <? rem) || ((rem =? half) && Z.odd quot) then quot + 1 else quot.

(** Exponent of the unit in the last place of the binade of [a * 2^e],
    [a > 0]: 53 significant bits, and no finer than [2^-1074]. *)
Definition ulp_exponent (a e : Z) : Z := Z.max (e + Z.log2 a - 52) (-1074).

(** The binary64 value nearest to [m * 2^e]. *)
Definition round (m e : Z) : number :=
  if m =? 0 then Finite 0 0
  else
    let a := Z.abs m in
    let q := ulp_exponent a e in
    let r := round_at a e q in
    if 1024 <=? Z.log2 r + q then Infinity (m <? 0)
    else canon (Z.sgn m * r) q.

Definition of_Z (z : Z) : number := round z 0.

Definition is_negative (x : number) : bool :=
  match x with
  | NaN => false
  | Infinity neg => neg
  | Finite m _ => m <? 0
  end.

Definition is_zero (x : number) : bool :=
  match x with
  | Finite m _ => m =? 0
  | _ => false
  end.

Definition mul (x y : number) : number :=
  match x, y with
  | NaN, _ | _, NaN => NaN
  | Finite m1 e1, Finite m2 e2 => round (m1 * m2) (e1 + e2)
  | _, _ =>
      if is_zero x || is_zero y then NaN
      else Infinity (xorb (is_negative x) (is_negative y))
  end.

Definition add (x y : number) : number :=
  match x, y with
  | NaN, _ | _, NaN => NaN
  | Infinity n1, Infinity n2 => if Bool.eqb n1 n2 then x else NaN
  | Infinity _, Finite _ _ => x
  | Finite _ _, Infinity _ => y
  | Finite m1 e1, Finite m2 e2 =>
      let e := Z.min e1 e2 in
      round (Z.shiftl m1 (e1 - e) + Z.shiftl m2 (e2 - e)) e
  end.

Definition div (x y : number) : number :=
  match x, y with
  | NaN, _ | _, NaN => NaN
  | Infinity _, Infinity _ => NaN
  | Infinity n, Finite m _ => Infinity (xorb n (m <? 0))
  | Finite _ _, Infinity _ => Finite 0 0
  | Finite m1 e1, Finite m2 e2 =>
      if m2 =? 0 then (if m1 =? 0 then NaN else Infinity (m1 <? 0))
      else if m1 =? 0 then Finite 0 0
      else
        let a := Z.abs m1 in
        let b := Z.abs m2 in
        let k := Z.max 0 (Z.log2 b - Z.log2 a + 56) in
        let q := Z.shiftl a k / b in
        let sticky := if Z.shiftl a k mod b =? 0 then 0 else 1 in
        round (Z.sgn m1 * Z.sgn m2 * (2 * q + sticky)) (e1 - e2 - k - 1)
  end.

(** [Math.floor]. *)
Definition floor (x : number) : number :=
  match x with
  | Finite m e => if 0 <=? e then x else canon (Z.shiftr m (- e)) 0
  | _ => x
  end.

(** [ToBoolean] of a number. *)
Definition truthy (x : number) : bool :=
  match x with
  | NaN => false
  | Infinity _ => true
  | Finite m _ => negb (m =? 0)
  end.

(** ** [Number::toString], radix 10 *)

(** A positive rational [num / den], [den > 0]. *)
Definition le_frac (n1 d1 n2 d2 : Z) : bool := n1 * d2 <=? n2 * d1.
Definition lt_frac (n1 d1 n2 d2 : Z) : bool := n1 * d2 <? n2 * d1.

(** [10^p] as a fraction. *)
Definition pow10_num (p : Z) : Z := if 0 <=? p then 10 ^ p else 1.
Definition pow10_den (p : Z) : Z := if 0 <=? p then 1 else 10 ^ (- p).

(** The integer [n] with [10^(n-1) <= num/den < 10^n], searched from
    the guess [n]. *)
Fixpoint decimal_exponent (fuel : nat) (num den n : Z) : Z :=
  match fuel with
  | O => n
  | S fuel' =>
      if le_frac (pow10_num n) (pow10_den n) num den
      then decimal_exponent fuel' num den (n + 1)
      else if lt_frac num den (pow10_num (n - 1)) (pow10_den (n - 1))
      then decimal_exponent fuel' num den (n - 1)
      else n
  end.

(** The digits [s] and exponent [n] of step 5 of [Number::toString]:
    the least [k] for which some [k]-digit [s] has [s * 10^(n-k)]
    inside the rounding interval [lo, hi] of the number (bounds
    included when [closed]), and for that [k] the [s] nearest to the
    number.  All of [v], [lo], [hi] share the denominator [den]. *)
Definition inside (closed : bool) (lo hi den cn cd : Z) : bool :=
  if closed then le_frac lo den cn cd && le_frac cn cd hi den
  else lt_frac lo den cn cd && lt_frac cn cd hi den.

Fixpoint shortest (fuel : nat) (closed : bool) (v lo hi den n k : Z) : Z * Z * Z :=
  let p := n - k in
  let pn := pow10_num p in
  let pd := pow10_den p in
  (* floor (v/den / (pn/pd)) *)
  let s1 := (v * pd) / (den * pn) in
  let s2 := s1 + 1 in
  let ok1 := inside closed lo hi den (s1 * pn) pd in
  let ok2 := inside closed lo hi den (s2 * pn) pd in
  (* distances to v, over the denominator den * pd *)
  let d1 := v * pd - s1 * pn * den in
  let d2 := s2 * pn * den - v * pd in
  let pick (s : Z) := if s =? 10 ^ k then (10 ^ (k - 1), n + 1, k) else (s, n, k) in
  match fuel with
  | O => pick s1
  | S fuel' =>
      if ok1 && ok2 then
        if d1 <? d2 then pick s1
        else if d2 <? d1 then pick s2
        else if Z.even s1 then pick s1 else pick s2
      else if ok1 then pick s1
      else if ok2 then pick s2
      else shortest fuel' closed v lo hi den n (k + 1)
  end.

Fixpoint zeros (n : nat) : string :=
  match n with
  | O => EmptyString
  | S n' => "0" +:+ zeros n'
  end.

Definition format_digits (s n k : Z) : string :=
  let digits := pretty s in
  if (k <=? n) && (n <=? 21) then digits +:+ zeros (Z.to_nat (n - k))
  else if (0 <? n) && (n <=? 21) then
    String.substring 0 (Z.to_nat n) digits +:+ "." +:+
    String.substring (Z.to_nat n) (Z.to_nat (k - n)) digits
  else if (-6 <? n) && (n <=? 0) then
    "0." +:+ zeros (Z.to_nat (- n)) +:+ digits
  else
    let e := n - 1 in
    let sign := if e <? 0 then "-" else "+" in
    let mant :=
      if k =? 1 then digits
      else String.substring 0 1 digits +:+ "." +:+
           String.substring 1 (Z.to_nat (k - 1)) digits in
    mant +:+ "e" +:+ sign +:+ pretty (Z.abs e).

(** [a * 2^e] with [a > 0]. *)
Definition positive_to_string (a e : Z) : string :=
  let q := ulp_exponent a e in
  (* the predecessor is half as far when the number is a power of two
     above the subnormal range *)
  let low_gap := if (a =? Z.shiftl 1 (Z.log2 a)) && (-1074 <? q) then 1 else 2 in
  let b := q - 2 in
  let v0 := Z.shiftl a (e - b) in
  let scale := if 0 <=? b then Z.shiftl 1 b else 1 in
  let den := if 0 <=? b then 1 else Z.shiftl 1 (- b) in
  let v := v0 * scale in
  let lo := (v0 - low_gap) * scale in
  let hi := (v0 + 2) * scale in
  let closed := Z.even (Z.shiftr a (q - e)) in
  let guess := ((e + Z.log2 a) * 30103) / 100000 in
  let n := decimal_exponent 8 v den guess in
  let '(s, n', k) := shortest 17 closed v lo hi den n 1 in
  format_digits s n' k.

Definition to_string (x : number) : string :=
  match x with
  | NaN => "NaN"
  | Infinity neg => if neg then "-Infinity" else "Infinity"
  | Finite m e =>
      if m =? 0 then "0"
      else if m <? 0 then "-" +:+ positive_to_string (- m) e
      else positive_to_string m e
  end.

End JsNumber.

(* ===================================================================== *)
(** * JavaScript strings *)
(* ===================================================================== *)

(** Strings are taken in the ASCII range: one [ascii] stands for one
    UTF-16 code unit below 128.  [trim], [toUpperCase] and [parseInt] are
    those of JavaScript on such strings; the white space and the letters
    that Unicode has beyond that range are outside of this model. *)
Module JsString.

Definition code (c : ascii) : Z := Z.of_N (Ascii.N_of_ascii c).
Definition char (z : Z) : ascii := Ascii.ascii_of_N (Z.to_N z).

(** White space and line terminators of the ASCII range, as skipped by
    [trim] and [parseInt]. *)
Definition is_white (c : ascii) : bool :=
  let z := code c in ((9 <=? z) && (z <=? 13)) || (z =? 32).

Fixpoint trim_start (s : string) : string :=
  match s with
  | String c s' => if is_white c then trim_start s' else s
  | EmptyString => EmptyString
  end.

Definition trim_end (s : string) : string :=
  String.rev (trim_start (String.rev s)).

Definition trim (s : string) : string := trim_end (trim_start s).

Definition upper_char (c : ascii) : ascii :=
  let z := code c in
  if (97 <=? z) && (z <=? 122) then char (z - 32) else c.

Fixpoint toUpperCase (s : string) : string :=
  match s with
  | String c s' => String (upper_char c) (toUpperCase s')
  | EmptyString => EmptyString
  end.

Definition startsWith (s prefix : string) : bool := String.prefix prefix s.

(** [s.split(sep)] for a one-character separator; [cur] is the piece
    being read, reversed. *)
Fixpoint split_go (sep : ascii) (cur : string) (s : string) : list string :=
  match s with
  | EmptyString => [String.rev cur]
  | String c s' =>
      if Ascii.eqb c sep then String.rev cur :: split_go sep EmptyString s'
      else split_go sep (String c cur) s'
  end.

Definition split (sep : ascii) (s : string) : list string :=
  split_go sep EmptyString s.

(** [pieces.join(sep)]. *)
Fixpoint join (sep : string) (pieces : list string) : string :=
  match pieces with
  | [] => EmptyString
  | [p] => p
  | p :: rest => p +:+ sep +:+ join sep rest
  end.

(** [s.substring(0, n)]. *)
Definition substring0 (n : nat) (s : string) : string := String.substring 0 n s.

(** ** [parseInt(s)] with no radix argument *)

Definition digit_value (radix : Z) (c : ascii) : option Z :=
  let z := code c in
  let d :=
    if (48 <=? z) && (z <=? 57) then z - 48
    else if (97 <=? z) && (z <=? 122) then z - 87
    else if (65 <=? z) && (z <=? 90) then z - 55
    else 36 in
  if d <? radix then Some d else None.

(** Reads the longest prefix of digits; [None] when there is none. *)
Fixpoint digits_prefix (radix : Z) (acc : option Z) (s : string) : option Z :=
  match s with
  | EmptyString => acc
  | String c s' =>
      match digit_value radix c with
      | Some d => digits_prefix radix (Some (default 0 acc * radix + d)) s'
      | None => acc
      end
  end.

Definition parseInt (s : string) : JsNumber.number :=
  let s1 := trim_start s in
  let '(negative, s2) :=
    match s1 with
    | String "-"%char r => (true, r)
    | String "+"%char r => (false, r)
    | _ => (false, s1)
    end in
  let '(radix, s3) :=
    match s2 with
    | String "0"%char (String "x"%char r) => (16, r)
    | String "0"%char (String "X"%char r) => (16, r)
    | _ => (10, s2)
    end in
  match digits_prefix radix None s3 with
  | None => JsNumber.NaN
  | Some z => JsNumber.of_Z (if negative then - z else z)
  end.

End JsString.

(* ===================================================================== *)
(** * JavaScript values and [JSON.stringify] *)
(* ===================================================================== *)

(** The values the modelled code passes around as plain data: payloads,
    options, layers.  An object is its list of own properties in
    insertion order. *)
#[warnings="-register-all"] Inductive JsVal : Type :=
| JUndefined
| JNull
| JBool (b : bool)
| JNum (n : JsNumber.number)
| JStr (s : string)
| JArr (items : list JsVal)
| JObj (props : list (string * JsVal)).

Module Js.

(** [ToBoolean]. *)
Definition truthy (v : JsVal) : bool :=
  match v with
  | JUndefined | JNull => false
  | JBool b => b
  | JNum n => JsNumber.truthy n
  | JStr s => negb (String.eqb s EmptyString)
  | JArr _ | JObj _ => true
  end.

(** [a || b]. *)
Definition or (a b : JsVal) : JsVal := if truthy a then a else b.

Fixpoint lookup_prop (k : string) (props : list (string * JsVal)) : option JsVal :=
  match props with
  | [] => None
  | (k', v) :: rest => if String.eqb k k' then Some v else lookup_prop k rest
  end.

Definition describe (v : JsVal) : string :=
  match v with
  | JNull => "null"
  | _ => "undefined"
  end.

(** [v.k] for a property name [k] that no prototype defines: a
    [TypeError] on [undefined] and [null], the own property of an
    object, [undefined] otherwise. *)
Definition get_prop (v : JsVal) (k : string) : Completion JsVal :=
  match v with
  | JUndefined | JNull =>
      Throw (TypeError ("Cannot read properties of " +:+ describe v +:+
                        " (reading '" +:+ k +:+ "')"))
  | JObj props => Normal (default JUndefined (lookup_prop k props))
  | _ => Normal JUndefined
  end.

(** A parameter with a default value: [undefined] takes the default. *)
Definition default_arg (v d : JsVal) : JsVal :=
  match v with
  | JUndefined => d
  | _ => v
  end.

(** [obj[k] = v]: replaces the value of an own property, or adds the
    property at the end. *)
Fixpoint set_prop (k : string) (v : JsVal) (props : list (string * JsVal))
  : list (string * JsVal) :=
  match props with
  | [] => [(k, v)]
  | (k', v') :: rest =>
      if String.eqb k k' then (k, v) :: rest else (k', v') :: set_prop k v rest
  end.

Definition indexed (items : list JsVal) : list (string * JsVal) :=
  imap (fun i x => (pretty i, x)) items.

(** The value of a text of decimal digits. *)
Fixpoint digits_value (s : string) (acc : N) : option N :=
  match s with
  | EmptyString => Some acc
  | String c s' =>
      let z := Ascii.N_of_ascii c in
      if ((48 <=? z) && (z <=? 57))%N then digits_value s' (10 * acc + (z - 48))%N
      else None
  end.

(** An array index: the canonical decimal text of an integer from [0]
    to [2^32 - 2]. *)
Definition array_index (k : string) : option N :=
  match k with
  | EmptyString => None
  | _ =>
      match digits_value k 0 with
      | Some n => if (n <=? 4294967294)%N && String.eqb (pretty n) k then Some n else None
      | None => None
      end
  end.

Fixpoint insert_index (n : N) (kv : string * JsVal)
    (sorted : list (N * (string * JsVal))) : list (N * (string * JsVal)) :=
  match sorted with
  | [] => [(n, kv)]
  | (m, kv') :: rest =>
      if (n <=? m)%N then (n, kv) :: sorted else (m, kv') :: insert_index n kv rest
  end.

(** [OrdinaryOwnPropertyKeys] of an object whose properties were
    created in the order of [props]: the array indices in ascending
    order, then the other keys in order of creation. *)
Definition own_keys_order (props : list (string * JsVal)) : list (string * JsVal) :=
  let indices :=
    foldr (fun kv sorted =>
             match array_index (fst kv) with
             | Some n => insert_index n kv sorted
             | None => sorted
             end) [] props in
  List.map snd indices
  ++ List.filter (fun kv => match array_index (fst kv) with
                            | Some _ => false
                            | None => true
                            end) props.

(** [{ ...base, ...v }]: the own enumerable properties of [v] are
    copied over [base] in their order; a string or an array contributes
    its indexed elements, other primitives nothing.  The properties of
    the new object are listed as [own_keys_order] has them. *)
Definition spread (base : list (string * JsVal)) (v : JsVal) : list (string * JsVal) :=
  let own :=
    match v with
    | JObj props => props
    | JArr items => indexed items
    | JStr s => indexed (List.map (fun c => JStr (String c EmptyString))
                                  (list_ascii_of_string s))
    | _ => []
    end in
  own_keys_order (fold_left (fun acc kv => set_prop (fst kv) (snd kv) acc) own base).

Definition hex_digit (z : Z) : ascii :=
  JsString.char (if z <? 10 then 48 + z else 87 + z).

(** [QuoteJSONString], one character. *)
Definition escape_char (c : ascii) : string :=
  let z := JsString.code c in
  if z =? 34 then "\" +:+ String c EmptyString
  else if z =? 92 then "\\"
  else if z =? 8 then "\b"
  else if z =? 9 then "\t"
  else if z =? 10 then "\n"
  else if z =? 12 then "\f"
  else if z =? 13 then "\r"
  else if z <? 32 then
    "\u00" +:+ String (hex_digit (z / 16)) (String (hex_digit (z mod 16)) EmptyString)
  else String c EmptyString.

Fixpoint escape (s : string) : string :=
  match s with
  | EmptyString => EmptyString
  | String c s' => escape_char c +:+ escape s'
  end.

Definition quote (s : string) : string :=
  String (JsString.char 34) (escape s) +:+ String (JsString.char 34) EmptyString.

Definition number_to_json (n : JsNumber.number) : string :=
  match n with
  | JsNumber.Finite _ _ => JsNumber.to_string n
  | _ => "null"
  end.

(** [JSON.stringify(v)]; [None] is the result [undefined]. *)
Fixpoint stringify (v : JsVal) : option string :=
  match v with
  | JUndefined => None
  | JNull => Some "null"
  | JBool b => Some (if b then "true" else "false")
  | JNum n => Some (number_to_json n)
  | JStr s => Some (quote s)
  | JArr items =>
      Some ("[" +:+
            JsString.join "," (List.map (fun x => default "null" (stringify x)) items)
            +:+ "]")
  | JObj props =>
      Some ("{" +:+
            JsString.join ","
              (omap (fun kv => (fun t => quote (fst kv) +:+ ":" +:+ t) <$> stringify (snd kv))
                    props)
            +:+ "}")
  end.

End Js.

(* ===================================================================== *)
(** * [createHash('sha256')] *)
(* ===================================================================== *)

Module SHA256.

Definition w32 (x : Z) : Z := Z.land x 0xffffffff.
Definition add32 (x y : Z) : Z := w32 (x + y).
Definition rotr (n x : Z) : Z := w32 (Z.lor (Z.shiftr x n) (Z.shiftl x (32 - n))).
Definition shr (n x : Z) : Z := Z.shiftr x n.

Definition Ch (x y z : Z) : Z := Z.lxor (Z.land x y) (Z.land (w32 (Z.lnot x)) z).
Definition Maj (x y z : Z) : Z :=
  Z.lxor (Z.lxor (Z.land x y) (Z.land x z)) (Z.land y z).
Definition Sigma0 (x : Z) : Z := Z.lxor (Z.lxor (rotr 2 x) (rotr 13 x)) (rotr 22 x).
Definition Sigma1 (x : Z) : Z := Z.lxor (Z.lxor (rotr 6 x) (rotr 11 x)) (rotr 25 x).
Definition sigma0 (x : Z) : Z := Z.lxor (Z.lxor (rotr 7 x) (rotr 18 x)) (shr 3 x).
Definition sigma1 (x : Z) : Z := Z.lxor (Z.lxor (rotr 17 x) (rotr 19 x)) (shr 10 x).

(** The first [n] primes, by trial division. *)
Fixpoint primes_from (fuel n : nat) (candidate : Z) (found : list Z) : list Z :=
  match fuel, n with
  | O, _ | _, O => found
  | S fuel', S n' =>
      if forallb (fun p => negb (candidate mod p =? 0)) found
      then primes_from fuel' n' (candidate + 1) (found ++ [candidate])
      else primes_from fuel' n (candidate + 1) found
  end.

Definition primes (n : nat) : list Z := primes_from 400 n 2 [].

(** Integer part of the cube root, by bisection on [lo, hi). *)
Fixpoint cube_root (fuel : nat) (lo hi x : Z) : Z :=
  match fuel with
  | O => lo
  | S fuel' =>
      let mid := (lo + hi) / 2 in
      if hi - lo <=? 1 then lo
      else if mid * mid * mid <=? x then cube_root fuel' mid hi x
      else cube_root fuel' lo mid x
  end.

(** The first 32 bits of the fractional part of the cube root, and of
    the square root, of [p]. *)
Definition cube_root_bits (p : Z) : Z := w32 (cube_root 64 0 (Z.shiftl 1 36) (Z.shiftl p 96)).
Definition square_root_bits (p : Z) : Z := w32 (Z.sqrt (Z.shiftl p 64)).

(** The round constants and the initial hash value, from the first 64
    and the first 8 primes. *)
Definition K : list Z := Eval vm_compute in List.map cube_root_bits (primes 64).

Definition H0 : list Z := Eval vm_compute in List.map square_root_bits (primes 8).

(** Message padding: a [1] bit, zeros up to 56 bytes modulo 64, and the
    bit length on 8 bytes. *)
Definition pad (msg : list Z) : list Z :=
  let len := Z.of_nat (length msg) in
  let zeros := Z.to_nat ((55 - len) mod 64) in
  let bits := 8 * len in
  msg ++ [128] ++ replicate zeros 0 ++
  List.map (fun i => Z.land (Z.shiftr bits (8 * (7 - Z.of_nat i))) 255) (seq 0 8).

(** Big-endian 32-bit words. *)
Fixpoint words (bytes : list Z) : list Z :=
  match bytes with
  | a :: b :: c :: d :: rest =>
      (Z.shiftl a 24 + Z.shiftl b 16 + Z.shiftl c 8 + d) :: words rest
  | _ => []
  end.

Fixpoint blocks (fuel : nat) (ws : list Z) : list (list Z) :=
  match fuel, ws with
  | S fuel', _ :: _ => take 16 ws :: blocks fuel' (drop 16 ws)
  | _, _ => []
  end.

(** Message schedule; [recent] holds the words so far, latest first. *)
Fixpoint expand (n : nat) (recent : list Z) : list Z :=
  match n with
  | O => recent
  | S n' =>
      let w := add32 (add32 (sigma1 (nth 1 recent 0)) (nth 6 recent 0))
                     (add32 (sigma0 (nth 14 recent 0)) (nth 15 recent 0)) in
      expand n' (w :: recent)
  end.

Definition schedule (block : list Z) : list Z := rev (expand 48 (rev block)).

Definition round (st : list Z) (kw : Z * Z) : list Z :=
  match st with
  | [a; b; c; d; e; f; g; h] =>
      let t1 := add32 (add32 (add32 h (Sigma1 e)) (add32 (Ch e f g) (fst kw))) (snd kw) in
      let t2 := add32 (Sigma0 a) (Maj a b c) in
      [add32 t1 t2; a; b; c; add32 d t1; e; f; g]
  | _ => st
  end.

Definition compress (h : list Z) (block : list Z) : list Z :=
  zip_with add32 h (fold_left round (zip K (schedule block)) h).

Definition digest (msg : list Z) : list Z :=
  let ws := words (pad msg) in
  fold_left compress (blocks (length ws) ws) H0.

Definition hex32 (x : Z) : string :=
  fold_right (fun i acc => String (Js.hex_digit (Z.land (Z.shiftr x (4 * (7 - Z.of_nat i))) 15)) acc)
             EmptyString (seq 0 8).

Definition bytes_of (s : string) : list Z :=
  List.map JsString.code (list_ascii_of_string s).

(** [createHash('sha256').update(s).digest('hex')]. *)
Definition sha256_hex (s : string) : string :=
  fold_right (fun w acc => hex32 w +:+ acc) EmptyString (digest (bytes_of s)).

End SHA256.

(* ===================================================================== *)
(** * Rust essence: [rust.own] and [rust.result] *)
(* ===================================================================== *)

Module Rust.

(** The object literal returned by [rust.own(resource, lifetime)].  The
    handle and the resource it wraps are one shared object: whoever got
    [resource] from [borrow] mutates the field in place. *)
Record Owned (T : Type) : Type := mkOwned {
  resource : T;
  lifetime : string;
  borrowed : bool;
  dropped : bool
}.
Arguments mkOwned {T}.
Arguments resource {T}.
Arguments lifetime {T}.
Arguments borrowed {T}.
Arguments dropped {T}.

Definition own {T} (res : T) (life : string) : Owned T :=
  {| resource := res; lifetime := life; borrowed := false; dropped := false |}.

(** Default argument [lifetime = 'scoped']. *)
Definition own_scoped {T} (res : T) : Owned T := own res "scoped".

Definition borrow_error : JsError :=
  Error "Cannot borrow: resource already borrowed or dropped".

Definition borrow {T} : M (Owned T) T :=
  fun h =>
    if borrowed h || dropped h then (Throw borrow_error, h)
    else (Normal (resource h),
          {| resource := resource h; lifetime := lifetime h;
             borrowed := true; dropped := dropped h |}).

(** [drop()] has no return value and never throws. *)
Definition drop {T} (h : Owned T) : Owned T :=
  if dropped h then h
  else {| resource := resource h; lifetime := lifetime h;
          borrowed := false; dropped := true |}.

(** Write through the reference obtained from [borrow]. *)
Definition update {T} (f : T -> T) (h : Owned T) : Owned T :=
  {| resource := f (resource h); lifetime := lifetime h;
     borrowed := borrowed h; dropped := dropped h |}.

(** [rust.result(value, error = null)]: [error] is a message or [null];
    [isOk = !error], so an empty message counts as no error. *)
Record Result (V : Type) : Type := mkResult {
  isOk : bool;
  isErr : bool;
  value : V;
  error : option string
}.
Arguments mkResult {V}.
Arguments isOk {V}.
Arguments isErr {V}.
Arguments value {V}.
Arguments error {V}.

Definition truthy_message (e : option string) : bool :=
  match e with
  | None => false
  | Some EmptyString => false
  | Some _ => true
  end.

Definition result {V} (v : V) (e : option string) : Result V :=
  {| isOk := negb (truthy_message e); isErr := truthy_message e;
     value := v; error := e |}.

Definition ok {V} (v : V) : Result V := result v None.

(** [unwrap()]: [throw new Error(this.error)] when [isErr]. *)
Definition unwrap {V} (r : Result V) : Completion V :=
  if isErr r then Throw (Error (default EmptyString (error r))) else Normal (value r).

End Rust.

(* ===================================================================== *)
(** * Go essence: [go.goroutine] and [go.concurrent] *)
(* ===================================================================== *)

Module Go.

(** What the event loop does with the goroutines of one
    [go.concurrent] call: the [setImmediate] callback of goroutine [i]
    runs ([Start i]), and later the promise of goroutine [i] settles
    ([Settle i]). *)
Inductive Event : Type :=
| Start (i : nat)
| Settle (i : nat).

Section Concurrent.
Context {St V : Type}.

(** A zero-argument task acting on the state shared with its caller. *)
Definition Task : Type := M St V.

(** [go.goroutine(fn)]: the returned promise is resolved with the
    value of [await fn()] and rejected with what it throws, so it
    settles as [fn] completes. *)
Definition goroutine (fn : Task) : Task := fn.

(** State of one [Promise.all] call: the [values] array, the count of
    elements not yet fulfilled and the settlement of the aggregate
    promise. *)
Record AllState : Type := mkAll {
  values : list (option V);
  remaining : nat;
  outcome : option (Completion (list V))
}.

(** Resolving or rejecting an already settled promise does nothing. *)
Definition settle (o : Completion (list V)) (a : AllState) : AllState :=
  match outcome a with
  | Some _ => a
  | None => {| values := values a; remaining := remaining a; outcome := Some o |}
  end.

(** The reaction [Promise.all] attaches to element [i]: on fulfilment
    store the value at index [i] and resolve the aggregate once every
    element is in; on rejection reject the aggregate at once. *)
Definition on_settled (i : nat) (c : Completion V) (a : AllState) : AllState :=
  match c with
  | Normal v =>
      let vals := <[i := Some v]> (values a) in
      let a' := {| values := vals; remaining := pred (remaining a);
                   outcome := outcome a |} in
      if Nat.eqb (remaining a') 0
      then match mapM id vals with
           | Some vs => settle (Normal vs) a'
           | None => a'
           end
      else a'
  | Throw e => settle (Throw e) a
  end.

Definition all_init (n : nat) : AllState :=
  {| values := replicate n None; remaining := n;
     outcome := if Nat.eqb n 0 then Some (Normal []) else None |}.

(** A [go.concurrent] call in flight. *)
Record Run : Type := mkRun {
  settled_as : list (option (Completion V));
  all : AllState;
  shared : St
}.

Definition run_init (n : nat) (s : St) : Run :=
  {| settled_as := replicate n None; all := all_init n; shared := s |}.

Definition step (tasks : list Task) (ev : Event) (r : Run) : Run :=
  match ev with
  | Start i =>
      match tasks !! i with
      | Some t =>
          let '(c, s') := goroutine t (shared r) in
          {| settled_as := <[i := Some c]> (settled_as r);
             all := all r; shared := s' |}
      | None => r
      end
  | Settle i =>
      match settled_as r !! i with
      | Some (Some c) =>
          {| settled_as := settled_as r;
             all := on_settled i c (all r); shared := shared r |}
      | _ => r
      end
  end.

(** The caller of [await go.concurrent(tasks)] resumes as soon as the
    aggregate promise is settled; the events still to come are
    returned with the state it resumes in. *)
Fixpoint run (tasks : list Task) (evs : list Event) (r : Run) : Run * list Event :=
  match outcome (all r) with
  | Some _ => (r, evs)
  | None =>
      match evs with
      | [] => (r, [])
      | ev :: evs' => run tasks evs' (step tasks ev r)
      end
  end.

(** [go.concurrent(tasks)] under the schedule [evs]: the settlement
    of [Promise.all] ([None]: still pending when the events are
    over), the shared state at that moment, and the events left. *)
Definition concurrent (evs : list Event) (tasks : list Task) (s : St)
  : option (Completion (list V)) * St * list Event :=
  let '(r, rest) := run tasks evs (run_init (length tasks) s) in
  (outcome (all r), shared r, rest).

(** The shared state once the goroutines that [evs] starts have run,
    whoever is waiting: those started before the caller resumed, and
    those still queued then, whose results nobody looks at. *)
Fixpoint background (tasks : list Task) (evs : list Event) (s : St) : St :=
  match evs with
  | [] => s
  | Start i :: evs' =>
      match tasks !! i with
      | Some t => background tasks evs' (snd (goroutine t s))
      | None => background tasks evs' s
      end
  | Settle _ :: evs' => background tasks evs' s
  end.

(** Running the tasks one after the other, in list order. *)
Fixpoint spawn_all (tasks : list Task) (s : St) : list (Completion V) * St :=
  match tasks with
  | [] => ([], s)
  | t :: ts =>
      let '(c, s') := t s in
      let '(cs, s'') := spawn_all ts s' in
      (c :: cs, s'')
  end.

End Concurrent.

Arguments Task : clear implicits.
Arguments AllState : clear implicits.
Arguments Run : clear implicits.

(** Schedules the event loop can produce for [n] goroutines:
    [setImmediate] callbacks run in the order they were queued, and a
    goroutine settles once, after it has started.  [k] goroutines have
    started and those in [done] have settled. *)
Fixpoint schedule_from (n k : nat) (done : list nat) (evs : list Event) : bool :=
  match evs with
  | [] => Nat.eqb k n && Nat.eqb (length done) n
  | Start i :: evs' =>
      Nat.eqb i k && Nat.ltb k n && schedule_from n (S k) done evs'
  | Settle i :: evs' =>
      Nat.ltb i k && negb (bool_decide (i ∈ done))
      && schedule_from n k (i :: done) evs'
  end.

Definition schedule (n : nat) (evs : list Event) : bool :=
  schedule_from n 0 [] evs.

(** Tasks whose body has no suspension point settle in the turn they
    start in. *)
Definition sync_schedule (n : nat) : list Event :=
  flat_map (fun i => [Start i; Settle i]) (seq 0 n).

(** The first rejection in settlement order. *)
Fixpoint first_rejection {V} (evs : list Event) (cs : list (Completion V))
  : option (nat * JsError) :=
  match evs with
  | [] => None
  | Start _ :: evs' => first_rejection evs' cs
  | Settle i :: evs' =>
      match cs !! i with
      | Some (Throw e) => Some (i, e)
      | _ => first_rejection evs' cs
      end
  end.

(** Where the caller resumes when a goroutine rejects: the number of
    goroutines started by then ([k] counts those started so far) and
    the events still to come. *)
Fixpoint resume {V} (evs : list Event) (cs : list (Completion V)) (k : nat)
  : nat * list Event :=
  match evs with
  | [] => (k, [])
  | Start _ :: evs' => resume evs' cs (S k)
  | Settle i :: evs' =>
      match cs !! i with
      | Some (Throw _) => (k, evs')
      | _ => resume evs' cs k
      end
  end.

(** The value of a fulfilled promise. *)
Definition fulfilled {V} (c : Completion V) : option V :=
  match c with
  | Normal v => Some v
  | Throw _ => None
  end.

(** The [values] array once the goroutines in [done] have been
    fulfilled. *)
Definition slots {V} (cs : list (Completion V)) (n : nat) (done : list nat)
  : list (option V) :=
  (fun j => if bool_decide (j ∈ done) then cs !! j ≫= fulfilled else None)
    <$> seq 0 n.

(** Invariant of a run that has started the first [k] goroutines and
    seen those in [done] fulfilled, none rejected. *)
Record RunInv {St V} (tasks : list (Task St V)) (s0 : St)
    (cs : list (Completion V)) (k : nat) (done : list nat) (r : Run St V)
  : Prop := mkRunInv {
  inv_shared : shared r = (spawn_all (take k tasks) s0).2;
  inv_settled_as :
    settled_as r = (Some <$> take k cs) ++ replicate (length tasks - k) None;
  inv_values : values (all r) = slots cs (length tasks) done;
  inv_remaining : remaining (all r) = (length tasks - length done)%nat;
  inv_outcome : outcome (all r) = None;
  inv_started : (k <= length tasks)%nat;
  inv_nodup : NoDup done;
  inv_done : forall i, i ∈ done -> (i < k)%nat /\ exists v, cs !! i = Some (Normal v);
  inv_pending : (length done < length tasks)%nat
}.

End Go.


(* ===================================================================== *)
(** * [Date] *)
(* ===================================================================== *)

Module JsDate.

(** Decimal digits of [z >= 0], padded with zeros to [width]. *)
Definition pad (width : nat) (z : Z) : string :=
  let digits := pretty z in
  JsNumber.zeros (width - String.length digits) +:+ digits.

(** Year, month and day of the proleptic Gregorian calendar, from the
    day number counted from 1970-01-01. *)
Definition civil (day : Z) : Z * Z * Z :=
  let z := day + 719468 in
  let era := z / 146097 in
  let doe := z - era * 146097 in
  let yoe := (doe - doe / 1460 + doe / 36524 - doe / 146096) / 365 in
  let doy := doe - (365 * yoe + yoe / 4 - yoe / 100) in
  let mp := (5 * doy + 2) / 153 in
  let d := doy - (153 * mp + 2) / 5 + 1 in
  let m := if mp <? 10 then mp + 3 else mp - 9 in
  let y := yoe + era * 400 + (if m <=? 2 then 1 else 0) in
  (y, m, d).

(** [new Date(t).toISOString()] for a time value [t] in milliseconds. *)
Definition toISOString (t : Z) : string :=
  let '(y, m, d) := civil (t / 86400000) in
  let ms := t mod 86400000 in
  let year :=
    if (0 <=? y) && (y <=? 9999) then pad 4 y
    else (if y <? 0 then "-" else "+") +:+ pad 6 (Z.abs y) in
  year +:+ "-" +:+ pad 2 m +:+ "-" +:+ pad 2 d +:+ "T" +:+
  pad 2 (ms / 3600000) +:+ ":" +:+ pad 2 (ms / 60000 mod 60) +:+ ":" +:+
  pad 2 (ms / 1000 mod 60) +:+ "." +:+ pad 3 (ms mod 1000) +:+ "Z".

End JsDate.

(* ===================================================================== *)
(** * The outside world *)
(* ===================================================================== *)

(** [process.pid], [process.arch], [process.platform]. *)
Record Host : Type := mkHost {
  process_pid : Z;
  process_arch : string;
  process_platform : string
}.

(** What one operation reads from outside the engine: the [k]-th reading
    of the clock in milliseconds ([Date.now()], [new Date()]), the
    [k]-th [Math.random()], the hex form of the [k]-th
    [randomBytes(32)], and [fs.readFile(path, 'utf8')]. *)
Record Inputs : Type := mkInputs {
  host : Host;
  now : nat -> Z;
  random : nat -> JsNumber.number;
  randomBytes : nat -> string;
  readFile : string -> Completion string
}.

(** An [async] method: [None] when the promise it returns never
    settles. *)
Definition Async (St A : Type) : Type := St -> option (Completion A * St).

(* ===================================================================== *)
(** * Linux essence: [linux.namespace], [linux.cgroup], [linux.mount] *)
(* ===================================================================== *)

Module Linux.

(** A [Set] of process ids, in insertion order. *)
Definition set_add (pid : Z) (s : list Z) : list Z :=
  if bool_decide (pid ∈ s) then s else s ++ [pid].
Definition set_delete (pid : Z) (s : list Z) : list Z :=
  filter (fun p => p <> pid) s.

Record Namespace : Type := mkNamespace {
  ns_type : string;
  ns_processes : list Z;
  ns_isolated : bool
}.

Definition namespace (type : string) : Namespace :=
  {| ns_type := type; ns_processes := []; ns_isolated := true |}.

Definition enter (pid : Z) (ns : Namespace) : Namespace :=
  {| ns_type := ns_type ns; ns_processes := set_add pid (ns_processes ns);
     ns_isolated := ns_isolated ns |}.
Definition leave (pid : Z) (ns : Namespace) : Namespace :=
  {| ns_type := ns_type ns; ns_processes := set_delete pid (ns_processes ns);
     ns_isolated := ns_isolated ns |}.
(** [list()]; [list] is taken in Rocq. *)
Definition list_processes (ns : Namespace) : list Z := ns_processes ns.

Record Cgroup : Type := mkCgroup {
  cg_name : string;
  cg_limits : list (string * JsVal);
  cg_processes : list Z
}.

(** [limits: { memory: '512m', cpu: '1.0', ...limits }]. *)
Definition cgroup (name : string) (limits : JsVal) : Cgroup :=
  {| cg_name := name;
     cg_limits := Js.spread [("memory", JStr "512m"); ("cpu", JStr "1.0")] limits;
     cg_processes := [] |}.

Definition enforceResources (pid : Z) (cg : Cgroup) : bool := true.

Definition addProcess (pid : Z) (cg : Cgroup) : bool * Cgroup :=
  let cg' := {| cg_name := cg_name cg; cg_limits := cg_limits cg;
                cg_processes := set_add pid (cg_processes cg) |} in
  (enforceResources pid cg', cg').

Record Mount : Type := mkMount {
  mnt_source : string;
  mnt_target : string;
  mnt_type : string;
  mounted : bool
}.

Definition mount (source target type : string) : Mount :=
  {| mnt_source := source; mnt_target := target; mnt_type := type; mounted := true |}.

Definition unmount (m : Mount) : Mount :=
  {| mnt_source := mnt_source m; mnt_target := mnt_target m;
     mnt_type := mnt_type m; mounted := false |}.

End Linux.

(* ===================================================================== *)
(** * [class DockerModule] *)
(* ===================================================================== *)

Module DockerModule.

(** [this.stats]. *)
Record Stats : Type := mkStats {
  operations : Z;
  errors : Z;
  lastOperation : option string
}.

(** The fields every module inherits ([cache] is never used). *)
Record Base : Type := mkBase {
  name : string;
  stats : Stats;
  isActive : bool
}.

(** [constructor(name)]. *)
Definition new (module_name : string) : Base :=
  {| name := module_name;
     stats := {| operations := 0; errors := 0; lastOperation := None |};
     isActive := true |}.

Definition count_operation (operation : string) (b : Base) : Base :=
  {| name := name b;
     stats := {| operations := operations (stats b) + 1; errors := errors (stats b);
                 lastOperation := Some operation |};
     isActive := isActive b |}.

Definition count_error (b : Base) : Base :=
  {| name := name b;
     stats := {| operations := operations (stats b); errors := errors (stats b) + 1;
                 lastOperation := lastOperation (stats b) |};
     isActive := isActive b |}.

Definition shutdown (b : Base) : Base :=
  {| name := name b; stats := stats b; isActive := false |}.

(** A subclass: its state holds the inherited fields and it overrides
    [_handleOperation(operation, data, options)]. *)
Class Impl (St R : Type) : Type := mkImpl {
  base : St -> Base;
  set_base : Base -> St -> St;
  handleOperation : Inputs -> string -> JsVal -> JsVal -> Async St R
}.

(** [async process(operation, data, options = {})]. *)
Definition process {St R} `{Impl St R} (w : Inputs) (operation : string)
    (data options : JsVal) : Async St R :=
  fun s =>
    if negb (isActive (base s)) then
      Some (Throw (Error ("Module " +:+ name (base s) +:+ " is not active")), s)
    else
      let s1 := set_base (count_operation operation (base s)) s in
      match handleOperation w operation data (Js.default_arg options (JObj [])) s1 with
      | Some (Normal result, s2) => Some (Normal result, s2)
      | Some (Throw error, s2) => Some (Throw error, set_base (count_error (base s2)) s2)
      | None => None
      end.

Definition getStats (b : Base) : Stats * string := (stats b, name b).

End DockerModule.

(* ===================================================================== *)
(** * [class IsolationModule] *)
(* ===================================================================== *)

Module IsolationModule.

(** The record wrapped by [rust.own] in [isolateContainer]. *)
Record Container : Type := mkContainer {
  id : string;
  config : JsVal;
  namespaces : list JsVal;
  cgroups : list JsVal;
  filesystem : JsVal;
  network : JsVal;
  pid : JsVal
}.

Record State : Type := mkState {
  base : DockerModule.Base;
  (* linuxEssence, rustEssence, goEssence: the three essences above *)
  namespaces_map : gmap string Linux.Namespace;
  cgroups_map : gmap string Linux.Cgroup;
  containers : gmap string (Rust.Owned Container)
}.

(** [constructor()]. *)
Definition new : State :=
  {| base := DockerModule.new "Isolation";
     namespaces_map := ∅; cgroups_map := ∅; containers := ∅ |}.

Definition createNamespace (h : Host) (type name : string)
  : M State (Rust.Result JsVal) :=
  fun s =>
    let namespace := Linux.namespace type in
    (Normal (Rust.ok (JObj [("namespace", JStr name); ("type", JStr type);
                            ("pid", JNum (JsNumber.of_Z (process_pid h)));
                            ("isolated", JBool true)])),
     {| base := base s;
        namespaces_map := <[name := namespace]> (namespaces_map s);
        cgroups_map := cgroups_map s; containers := containers s |}).

Definition createCgroup (name : string) (limits : JsVal)
  : M State (Rust.Result JsVal) :=
  fun s =>
    let cgroup := Linux.cgroup name limits in
    (Normal (Rust.ok (JObj [("cgroup", JStr name); ("limits", limits);
                            ("enforced", JBool true)])),
     {| base := base s; namespaces_map := namespaces_map s;
        cgroups_map := <[name := cgroup]> (cgroups_map s);
        containers := containers s |}).

(** [const isolationTasks = [...]]. *)
Definition isolationTasks (h : Host) (containerId : string) (config : JsVal)
  : list (Go.Task State (Rust.Result JsVal)) :=
  [ createNamespace h "pid" (containerId +:+ "_pid");
    createNamespace h "net" (containerId +:+ "_net");
    createNamespace h "mnt" (containerId +:+ "_mnt");
    (let* resources := lift_completion (Js.get_prop config "resources") in
     createCgroup containerId (Js.or resources (JObj [])))%js ].

(** [const containerResource = rust.own({...}, 'container_lifetime')];
    nothing else refers to it before it is registered. *)
Definition containerResource (containerId : string) (config : JsVal)
  : Rust.Owned Container :=
  Rust.own {| id := containerId; config := config; namespaces := [];
              cgroups := []; filesystem := JNull; network := JNull;
              pid := JNull |} "container_lifetime".

(** The part of [isolateContainer] after [await]: borrow the record,
    unwrap the results into it, register the handle. *)
Definition register (containerId : string) (config : JsVal)
    (results : list (Rust.Result JsVal)) : M State (Rust.Result JsVal) :=
  fun s =>
    match Rust.borrow (containerResource containerId config) with
    | (Throw e, _) => (Throw e, s)
    | (Normal _, borrowedResource) =>
        match mapM_completion Rust.unwrap (take 3 results) with
        | Throw e => (Throw e, s)
        | Normal nss =>
            match results !! 3%nat with
            | None =>
                (Throw (TypeError "Cannot read properties of undefined (reading 'unwrap')"), s)
            | Some r3 =>
                match Rust.unwrap r3 with
                | Throw e => (Throw e, s)
                | Normal cg =>
                    let stored :=
                      Rust.update (fun c =>
                        {| id := id c; config := IsolationModule.config c;
                           namespaces := nss; cgroups := [cg];
                           filesystem := filesystem c; network := network c;
                           pid := pid c |}) borrowedResource in
                    (Normal (Rust.ok (JObj
                       [("containerId", JStr containerId);
                        ("isolated", JBool true);
                        ("namespaces", JNum (JsNumber.of_Z (Z.of_nat (length nss))));
                        ("resources_limited", JBool true);
                        ("security_context", JStr "restricted")])),
                     {| base := base s; namespaces_map := namespaces_map s;
                        cgroups_map := cgroups_map s;
                        containers := <[containerId := stored]> (containers s) |})
                end
            end
        end
    end.

(** [async isolateContainer(containerId, config)].  The four tasks have
    no suspension point, so each goroutine settles in the turn it
    starts in; an exception leaves the method at the [await]. *)
Definition isolateContainer (h : Host) (containerId : string) (config : JsVal)
  : Async State (Rust.Result JsVal) :=
  fun s =>
    let tasks := isolationTasks h containerId config in
    match Go.concurrent (Go.sync_schedule (length tasks)) tasks s with
    | (None, _, _) => None
    | (Some (Throw e), s1, rest) => Some (Throw e, Go.background tasks rest s1)
    | (Some (Normal results), s1, rest) =>
        let '(c, s2) := register containerId config results s1 in
        Some (c, Go.background tasks rest s2)
    end.

End IsolationModule.

(* ===================================================================== *)
(** * [Map] with string keys *)
(* ===================================================================== *)

(** A [Map] keeps its entries in insertion order; [set] on a key already
    present replaces the value where it stands. *)
Module JsMap.

Fixpoint set {V} (k : string) (v : V) (m : list (string * V)) : list (string * V) :=
  match m with
  | [] => [(k, v)]
  | (k', v') :: rest =>
      if String.eqb k k' then (k, v) :: rest else (k', v') :: set k v rest
  end.

Fixpoint get {V} (k : string) (m : list (string * V)) : option V :=
  match m with
  | [] => None
  | (k', v') :: rest => if String.eqb k k' then Some v' else get k rest
  end.

Definition has {V} (k : string) (m : list (string * V)) : bool :=
  match get k m with
  | Some _ => true
  | None => false
  end.

Definition values {V} (m : list (string * V)) : list V := List.map snd m.

Definition size {V} (m : list (string * V)) : nat := length m.

End JsMap.

(* ===================================================================== *)
(** * [class ImageModule] *)
(* ===================================================================== *)

Module ImageModule.

(** An element of the array returned by [parseDockerfile]. *)
Record Instruction : Type := mkInstruction {
  command : string;
  args : string;
  original : string
}.

(** The object wrapped by [rust.own] in [buildImage]. *)
Record Context : Type := mkContext {
  ctx_name : string;
  ctx_instructions : list Instruction;
  ctx_layers : list JsVal;
  ctx_metadata : JsVal
}.

Record Image : Type := mkImage {
  id : string;
  name : string;
  tag : string;
  layers : list JsVal;
  metadata : JsVal;
  size : JsNumber.number
}.

Record State : Type := mkState {
  base : DockerModule.Base;
  images : list (string * Image);
  layers_map : list (string * JsVal);
  registries : list (string * JsVal)
}.

(** [constructor()]. *)
Definition new : State :=
  {| base := DockerModule.new "Image";
     images := [];
     layers_map := [];
     registries :=
       JsMap.set "docker.io"
         (JObj [("url", JStr "https://registry.hub.docker.com"); ("auth", JNull)]) [] |}.

Definition set_images (f : list (string * Image) -> list (string * Image))
    (s : State) : State :=
  {| base := base s; images := f (images s);
     layers_map := layers_map s; registries := registries s |}.

Definition newline : ascii := JsString.char 10.

(** [line => line.trim() && !line.startsWith('#')]. *)
Definition is_instruction_line (line : string) : bool :=
  negb (String.eqb (JsString.trim line) EmptyString)
  && negb (JsString.startsWith line "#").

(** [const [command, ...args] = line.trim().split(' ')]. *)
Definition parse_line (line : string) : Instruction :=
  let pieces := JsString.split " " (JsString.trim line) in
  let command := hd EmptyString pieces in
  let args := tl pieces in
  {| command := JsString.toUpperCase command;
     args := JsString.join " " args;
     original := JsString.trim line |}.

Definition parseDockerfile (content : string) : list Instruction :=
  List.map parse_line
    (List.filter is_instruction_line (JsString.split newline content)).

Definition kib : JsNumber.number := JsNumber.of_Z 1024.

(** [x * 1024 * 1024]. *)
Definition mebi (x : JsNumber.number) : JsNumber.number :=
  JsNumber.mul (JsNumber.mul x kib) kib.

(** The object returned by [buildLayer], case by case of its [switch].
    [Math.random()] is read by the [RUN], [COPY] and [ADD] cases; the
    draw of the instruction at [index] is [random w index]. *)
Definition layer (w : Inputs) (instruction : Instruction) (index : nat) : JsVal :=
  let command := command instruction in
  let args := args instruction in
  let text := JStr (command +:+ " " +:+ args) in
  if String.eqb command "FROM" then
    JObj [("type", JStr "base"); ("instruction", text);
          ("baseImage", JStr args);
          ("size", JNum (mebi (JsNumber.of_Z 100)))]
  else if String.eqb command "RUN" then
    JObj [("type", JStr "run"); ("instruction", text);
          ("command", JStr args);
          ("size", JNum (mebi (JsNumber.mul (random w index) (JsNumber.of_Z 50))))]
  else if String.eqb command "COPY" || String.eqb command "ADD" then
    let pieces := JsString.split " " args in
    JObj [("type", JStr "copy"); ("instruction", text);
          ("source", JStr (hd EmptyString pieces));
          ("destination",
           match tl pieces with
           | dst :: _ => JStr dst
           | [] => JUndefined
           end);
          ("size", JNum (mebi (JsNumber.mul (random w index) (JsNumber.of_Z 10))))]
  else if String.eqb command "ENV" then
    let pieces := JsString.split "=" args in
    JObj [("type", JStr "env"); ("instruction", text);
          ("variable", JStr (hd EmptyString pieces));
          ("value", JStr (hd EmptyString (tl pieces)));
          ("size", JNum kib)]
  else if String.eqb command "EXPOSE" then
    JObj [("type", JStr "expose"); ("instruction", text);
          ("port", JNum (JsString.parseInt args));
          ("size", JNum kib)]
  else if String.eqb command "CMD" || String.eqb command "ENTRYPOINT" then
    JObj [("type", JStr "entrypoint"); ("instruction", text);
          ("command", JStr args);
          ("size", JNum kib)]
  else
    JObj [("type", JStr "unknown"); ("instruction", text);
          ("size", JNum kib)].

(** [async buildLayer(instruction, index, context)]: every case
    returns, none throws. *)
Definition buildLayer (w : Inputs) (instruction : Instruction) (index : nat)
    (context : Context) : Completion JsVal :=
  Normal (layer w instruction index).


(** [generateImageId(name, layers)], with [t] the value of
    [Date.now()]: a time value is an integer of magnitude at most
    8.64e15, which a template literal prints in plain decimal. *)
Definition image_id_content (t : Z) (name : string) (layers : list JsVal) : string :=
  name +:+ ":" +:+ default "undefined" (Js.stringify (JArr layers)) +:+ ":" +:+ pretty t.

Definition generateImageId (t : Z) (name : string) (layers : list JsVal) : string :=
  SHA256.sha256_hex (image_id_content t name layers).

(** The [for] loop of [buildImage]: [await layerTasks[i]()] then
    [context.layers.push(layerResult)], in Dockerfile order. *)
Fixpoint buildLayers (w : Inputs) (instructions : list Instruction) (index : nat)
    (context : Context) : Completion Context :=
  match instructions with
  | [] => Normal context
  | instruction :: rest =>
      match buildLayer w instruction index context with
      | Throw e => Throw e
      | Normal layerResult =>
          buildLayers w rest (S index)
            {| ctx_name := ctx_name context;
               ctx_instructions := ctx_instructions context;
               ctx_layers := ctx_layers context ++ [layerResult];
               ctx_metadata := ctx_metadata context |}
      end
  end.

(** [layer.size || 0]; every layer carries a number as its size. *)
Definition size_or_zero (layer : JsVal) : JsNumber.number :=
  match Js.get_prop layer "size" with
  | Normal (JNum n) => if JsNumber.truthy n then n else JsNumber.of_Z 0
  | _ => JsNumber.of_Z 0
  end.

(** [layers.reduce((sum, layer) => sum + (layer.size || 0), 0)]. *)
Definition total_size (layers : list JsVal) : JsNumber.number :=
  fold_left (fun sum layer => JsNumber.add sum (size_or_zero layer)) layers
            (JsNumber.of_Z 0).

(** The [try] block of [buildImage].  The clock is read for
    [metadata.created] and then by [generateImageId]. *)
Definition build (w : Inputs) (name dockerfile : string)
  : M State (Rust.Result JsVal) :=
  (let* dockerfileContent := lift_completion (readFile w dockerfile) in
   let instructions := parseDockerfile dockerfileContent in
   let buildContext :=
     Rust.own {| ctx_name := name; ctx_instructions := instructions;
                 ctx_layers := [];
                 ctx_metadata :=
                   JObj [("created", JStr (JsDate.toISOString (now w 0)));
                         ("author", JStr "docker-nexus");
                         ("architecture", JStr (process_arch (host w)));
                         ("os", JStr (process_platform (host w)))] |}
              "build_lifetime" in
   let* context := lift_completion (fst (Rust.borrow buildContext)) in
   let* context := lift_completion (buildLayers w instructions 0 context) in
   let imageId := generateImageId (now w 1) name (ctx_layers context) in
   let image :=
     {| id := imageId; name := name; tag := "latest";
        layers := ctx_layers context; metadata := ctx_metadata context;
        size := total_size (ctx_layers context) |} in
   do* modify (set_images (JsMap.set (name +:+ ":latest") image)) in
   ret (Rust.ok (JObj [("imageId", JStr imageId); ("name", JStr name);
                       ("tag", JStr "latest");
                       ("layers", JNum (JsNumber.of_Z
                                          (Z.of_nat (length (ctx_layers context)))));
                       ("size", JNum (size image))])))%js.

(** [async buildImage(name, dockerfile, contextPath = '.')]; the body
    does not use [contextPath]. *)
Definition buildImage (w : Inputs) (name dockerfile : string)
  : M State (Rust.Result JsVal) :=
  try_catch (build w name dockerfile)
            (fun error => ret (Rust.result JNull (Some (message error)))).

(** [async pullImage(name, tag = 'latest')]. *)
Definition pullImage (w : Inputs) (name tag : string)
  : M State (Rust.Result JsVal) :=
  let image :=
    {| id := generateImageId (now w 0) name [];
       name := name; tag := tag;
       layers := [JObj [("type", JStr "base");
                        ("size", JNum (mebi (JsNumber.of_Z 200)));
                        ("digest", JStr ("sha256:" +:+ randomBytes w 0))]];
       metadata := JObj [("created", JStr (JsDate.toISOString (now w 1)));
                         ("author", JStr "docker.io");
                         ("architecture", JStr (process_arch (host w)))];
       size := mebi (JsNumber.of_Z 200) |} in
  (do* modify (set_images (JsMap.set (name +:+ ":" +:+ tag) image)) in
   ret (Rust.ok (JObj [("imageId", JStr (id image)); ("name", JStr name);
                       ("tag", JStr tag); ("size", JNum (size image));
                       ("pulled", JBool true)])))%js.

(** The [kind] that the specification gives the layer of each verb. *)
Definition spec_kind_of_verb (verb : string) : string :=
  if String.eqb verb "FROM" then "base"
  else if String.eqb verb "RUN" then "run"
  else if String.eqb verb "COPY" || String.eqb verb "ADD" then "copy"
  else if String.eqb verb "ENV" then "env"
  else if String.eqb verb "EXPOSE" then "expose"
  else if String.eqb verb "CMD" || String.eqb verb "ENTRYPOINT" then "entrypoint"
  else "unknown".

(** [layer.type]. *)
Definition layer_type (layer : JsVal) : option JsVal :=
  match layer with
  | JObj props => Js.lookup_prop "type" props
  | _ => None
  end.

End ImageModule.

(* ===================================================================== *)
(** * [class RuntimeModule] *)
(* ===================================================================== *)

Module RuntimeModule.

(** The record wrapped by [rust.own] in [runContainer]; [started] and
    [error] are added to it later. *)
Record Container : Type := mkContainer {
  id : string;
  image : JsVal;
  command : JsVal;
  status : string;
  created : string;
  ports : JsVal;
  environment : JsVal;
  volumes : JsVal;
  interactive : JsVal;
  tty : JsVal;
  detached : bool;
  pid : JsVal;
  exitCode : JsVal;
  logs : list JsVal;
  started : option string;
  error : option string
}.

Definition set_status (st : string) (c : Container) : Container :=
  {| id := id c; image := image c; command := command c; status := st;
     created := created c; ports := ports c; environment := environment c;
     volumes := volumes c; interactive := interactive c; tty := tty c;
     detached := detached c; pid := pid c; exitCode := exitCode c;
     logs := logs c; started := started c; error := error c |}.

Definition set_started (t : string) (c : Container) : Container :=
  {| id := id c; image := image c; command := command c; status := status c;
     created := created c; ports := ports c; environment := environment c;
     volumes := volumes c; interactive := interactive c; tty := tty c;
     detached := detached c; pid := pid c; exitCode := exitCode c;
     logs := logs c; started := Some t; error := error c |}.

Definition set_error (msg : string) (c : Container) : Container :=
  {| id := id c; image := image c; command := command c; status := status c;
     created := created c; ports := ports c; environment := environment c;
     volumes := volumes c; interactive := interactive c; tty := tty c;
     detached := detached c; pid := pid c; exitCode := exitCode c;
     logs := logs c; started := started c; error := Some msg |}.

Definition set_pid (p : JsVal) (c : Container) : Container :=
  {| id := id c; image := image c; command := command c; status := status c;
     created := created c; ports := ports c; environment := environment c;
     volumes := volumes c; interactive := interactive c; tty := tty c;
     detached := detached c; pid := p; exitCode := exitCode c;
     logs := logs c; started := started c; error := error c |}.

Definition push_log (entry : JsVal) (c : Container) : Container :=
  {| id := id c; image := image c; command := command c; status := status c;
     created := created c; ports := ports c; environment := environment c;
     volumes := volumes c; interactive := interactive c; tty := tty c;
     detached := detached c; pid := pid c; exitCode := exitCode c;
     logs := logs c ++ [entry]; started := started c; error := error c |}.

(** The value of a [goEssence] property. *)
Inductive GoEssence : Type := go.

(** A callback queued by [setTimeout] in [simulateContainerLogs]: it
    appends [message] to the logs of the container it closed over. *)
Record Timer : Type := mkTimer {
  timer_container : nat;
  timer_message : string;
  timer_delay : Z
}.

(** The fields of a [RuntimeModule].  The handles made by [rust.own]
    are shared objects (the local variable of [runContainer], the
    [containers] map, the queued goroutines and timers all point to
    the same one): they are kept in [store] and referred to by
    position.  [goEssence] is the property read by [runContainer]. *)
Record State : Type := mkState {
  base : DockerModule.Base;
  goEssence : option GoEssence;
  containers : list (string * nat);
  processes : list (string * JsVal);
  networks : list (string * JsVal);
  store : list (Rust.Owned Container);
  timers : list Timer
}.

(** [constructor()]: it defines [containers], [processes] and
    [networks], and no [goEssence]. *)
Definition new : State :=
  {| base := DockerModule.new "Runtime"; goEssence := None;
     containers := []; processes := []; networks := [];
     store := []; timers := [] |}.

Definition set_store (f : list (Rust.Owned Container) -> list (Rust.Owned Container))
    (s : State) : State :=
  {| base := base s; goEssence := goEssence s; containers := containers s;
     processes := processes s; networks := networks s;
     store := f (store s); timers := timers s |}.

Definition set_containers (f : list (string * nat) -> list (string * nat))
    (s : State) : State :=
  {| base := base s; goEssence := goEssence s; containers := f (containers s);
     processes := processes s; networks := networks s;
     store := store s; timers := timers s |}.

Definition set_processes (f : list (string * JsVal) -> list (string * JsVal))
    (s : State) : State :=
  {| base := base s; goEssence := goEssence s; containers := containers s;
     processes := f (processes s); networks := networks s;
     store := store s; timers := timers s |}.

Definition set_networks (f : list (string * JsVal) -> list (string * JsVal))
    (s : State) : State :=
  {| base := base s; goEssence := goEssence s; containers := containers s;
     processes := processes s; networks := f (networks s);
     store := store s; timers := timers s |}.

Definition add_timers (ts : list Timer) (s : State) : State :=
  {| base := base s; goEssence := goEssence s; containers := containers s;
     processes := processes s; networks := networks s;
     store := store s; timers := timers s ++ ts |}.

(** Mutation of the container behind the handle at [ref]. *)
Definition update_container (ref : nat) (f : Container -> Container) (s : State) : State :=
  set_store (fun st =>
               match st !! ref with
               | Some h => <[ref := Rust.update f h]> st
               | None => st
               end) s.

(** [generateContainerId()]. *)
Definition generateContainerId (w : Inputs) : string := randomBytes w 0.

(** [Math.floor(Math.random() * range) + offset]. *)
Definition random_int (r : JsNumber.number) (range offset : Z) : JsNumber.number :=
  JsNumber.add (JsNumber.floor (JsNumber.mul r (JsNumber.of_Z range)))
               (JsNumber.of_Z offset).

(** [async setupContainerNetwork(containerId, options)]. *)
Definition setupContainerNetwork (w : Inputs) (containerId : string) (options : JsVal)
  : M State JsVal :=
  (let* ports := lift_completion (Js.get_prop options "ports") in
   let network :=
     JObj [("containerId", JStr containerId);
           ("bridge", JStr "docker-nexus0");
           ("ip", JStr ("172.17.0." +:+
                        JsNumber.to_string (random_int (random w 0) 254 2)));
           ("ports", Js.or ports (JArr []))] in
   do* modify (set_networks (JsMap.set containerId network)) in
   ret network)%js.

(** [volume => { const [host, container] = volume.split(':'); ... }]. *)
Definition mount_volume (volume : JsVal) : Completion JsVal :=
  match volume with
  | JStr s =>
      let pieces := JsString.split ":" s in
      Normal (JObj [("host", JStr (hd EmptyString pieces));
                    ("container",
                     match tl pieces with
                     | c :: _ => JStr c
                     | [] => JUndefined
                     end);
                    ("mounted", JBool true)])
  | JUndefined | JNull =>
      Throw (TypeError ("Cannot read properties of " +:+ Js.describe volume +:+
                        " (reading 'split')"))
  | _ =>
      Throw (TypeError
               "volume.split is not a function or its return value is not iterable")
  end.

(** [async setupContainerVolumes(containerId, options)]. *)
Definition setupContainerVolumes (containerId : string) (options : JsVal)
  : M State JsVal :=
  (let* volumes := lift_completion (Js.get_prop options "volumes") in
   match Js.or volumes (JArr []) with
   | JArr items =>
       let* mounted := lift_completion (mapM_completion mount_volume items) in
       ret (JArr mounted)
   | _ => throw (TypeError "(options.volumes || []).map is not a function")
   end)%js.

Definition logMessages : list string :=
  [ "Container initialization complete";
    "Starting application...";
    "Application is ready to accept connections";
    "Listening on port 8080" ].

(** [simulateContainerLogs(container)]: one timer per message, due
    after [(index + 1) * 1000] milliseconds. *)
Definition simulateContainerLogs (ref : nat) : M State unit :=
  modify (add_timers
            (imap (fun index msg =>
                     {| timer_container := ref; timer_message := msg;
                        timer_delay := (Z.of_nat index + 1) * 1000 |})
                  logMessages)).

(** A timer of [simulateContainerLogs] fires at time [t]. *)
Definition fire (t : Z) (timer : Timer) (s : State) : State :=
  update_container (timer_container timer)
    (push_log (JObj [("timestamp", JStr (JsDate.toISOString t));
                     ("stream", JStr "stdout");
                     ("message", JStr (timer_message timer))])) s.

(** [async startContainerProcess(container)], [container] being the
    record behind the handle at [ref]. *)
Definition startContainerProcess (w : Inputs) (ref : nat) : M State JsVal :=
  fun s =>
    match store s !! ref with
    | None => (Throw (TypeError "Cannot read properties of undefined (reading 'command')"), s)
    | Some h =>
        let container := Rust.resource h in
        let mockProcess :=
          JObj [("pid", JNum (random_int (random w 1) 30000 1000));
                ("command", command container);
                ("started", JNum (JsNumber.of_Z (now w 1)));
                ("status", JStr "running")] in
        let s1 := update_container ref
                    (set_pid (JNum (random_int (random w 1) 30000 1000))) s in
        let s2 := set_processes (JsMap.set (id container) mockProcess) s1 in
        let '(_, s3) := simulateContainerLogs ref s2 in
        (Normal mockProcess, s3)
    end.

(** The object literal passed to [rust.own]; reading a property of
    [options] throws when [options] is [null]. *)
Definition new_container (w : Inputs) (containerId : string)
    (imageName command options : JsVal) : Completion Container :=
  match Js.get_prop options "ports", Js.get_prop options "env",
        Js.get_prop options "volumes", Js.get_prop options "interactive",
        Js.get_prop options "tty", Js.get_prop options "detached" with
  | Normal ports, Normal env, Normal volumes, Normal interactive, Normal tty,
    Normal detached =>
      Normal {| id := containerId;
                image := imageName;
                command := Js.or command (JStr "/bin/sh");
                status := "created";
                created := JsDate.toISOString (now w 0);
                ports := Js.or ports (JArr []);
                environment := Js.or env (JArr []);
                volumes := Js.or volumes (JArr []);
                interactive := Js.or interactive (JBool false);
                tty := Js.or tty (JBool false);
                detached := match detached with
                            | JBool false => false
                            | _ => true
                            end;
                pid := JNull;
                exitCode := JNull;
                logs := [];
                started := None;
                error := None |}
  | Throw e, _, _, _, _, _ => Throw e
  | _, Throw e, _, _, _, _ => Throw e
  | _, _, Throw e, _, _, _ => Throw e
  | _, _, _, Throw e, _, _ => Throw e
  | _, _, _, _, Throw e, _ => Throw e
  | _, _, _, _, _, Throw e => Throw e
  end.

(** [const startupTasks = [...]]. *)
Definition startupTasks (w : Inputs) (containerId : string) (options : JsVal)
    (ref : nat) : list (Go.Task State JsVal) :=
  [ setupContainerNetwork w containerId options;
    setupContainerVolumes containerId options;
    startContainerProcess w ref ].

(** The [catch (error)] block of [runContainer]. *)
Definition failed (ref : nat) (e : JsError) : M State (Rust.Result JsVal) :=
  (do* modify (update_container ref (set_status "failed")) in
   do* modify (update_container ref (set_error (message e))) in
   ret (Rust.result JNull (Some (message e))))%js.

(** [async attachToContainer(containerId)]: throws for an id that is
    not registered; otherwise it opens a [readline] interface on the
    terminal, registers its listeners and returns.  The terminal is no
    part of the module: nothing of [this] is written. *)
Definition attachToContainer (containerId : string) : M State unit :=
  (let* s := get in
   match JsMap.get containerId (containers s) with
   | None => throw (Error ("Container " +:+ containerId +:+ " not found"))
   | Some _ => ret tt
   end)%js.

(** The [try] block of [runContainer] after [await]. *)
Definition running (w : Inputs) (containerId : string) (imageName options : JsVal)
    (ref : nat) : M State (Rust.Result JsVal) :=
  (do* modify (update_container ref (set_status "running")) in
   do* modify (update_container ref (set_started (JsDate.toISOString (now w 2)))) in
   do* modify (set_containers (JsMap.set containerId ref)) in
   let* interactive := lift_completion (Js.get_prop options "interactive") in
   do* (if Js.truthy interactive then attachToContainer containerId else ret tt) in
   let* s := get in
   match store s !! ref with
   | None => throw (TypeError "Cannot read properties of undefined (reading 'command')")
   | Some h =>
       ret (Rust.ok (JObj [("containerId", JStr containerId);
                           ("status", JStr "running");
                           ("image", imageName);
                           ("command", command (Rust.resource h));
                           ("ports", ports (Rust.resource h))]))
   end)%js.

(** [async runContainer(imageName, command, options = {})].  The
    record is built and borrowed before [try]; [this.goEssence] is read
    inside it. *)
Definition runContainer (w : Inputs) (imageName command options : JsVal)
  : Async State (Rust.Result JsVal) :=
  fun s =>
    let containerId := generateContainerId w in
    let options := Js.default_arg options (JObj []) in
    match new_container w containerId imageName command options with
    | Throw e => Some (Throw e, s)
    | Normal record =>
        let ref := length (store s) in
        let '(_, containerResource) := Rust.borrow (Rust.own_scoped record) in
        let s0 := set_store (fun st => st ++ [containerResource]) s in
        match goEssence s0 with
        | None =>
            Some (failed ref
                    (TypeError "Cannot read properties of undefined (reading 'concurrent')")
                    s0)
        | Some go =>
            let tasks := startupTasks w containerId options ref in
            match Go.concurrent (Go.sync_schedule (length tasks)) tasks s0 with
            | (None, _, _) => None
            | (Some (Throw e), s1, rest) =>
                let '(c, s2) := failed ref e s1 in
                Some (c, Go.background tasks rest s2)
            | (Some (Normal results), s1, rest) =>
                let '(c, s2) :=
                  try_catch (running w containerId imageName options ref) (failed ref) s1 in
                Some (c, Go.background tasks rest s2)
            end
        end
    end.

(** [containerResource.borrow()] on the handle at [ref]. *)
Definition borrow_at (ref : nat) : M State Container :=
  fun s =>
    match store s !! ref with
    | None => (Throw (TypeError "Cannot read properties of undefined (reading 'borrow')"), s)
    | Some h =>
        let '(c, h') := Rust.borrow h in
        (c, set_store (fun st => <[ref := h']> st) s)
    end.

(** The callback of [.map] in [listContainers]. *)
Definition summary (container : Container) : JsVal :=
  JObj [("containerId", JStr (JsString.substring0 12 (id container)));
        ("image", image container);
        ("command", command container);
        ("created", JStr (created container));
        ("status", JStr (status container));
        ("ports", ports container);
        ("names", JArr [JStr ("nexus_" +:+ JsString.substring0 8 (id container))])].

Fixpoint summaries (refs : list nat) : M State (list JsVal) :=
  match refs with
  | [] => ret []
  | ref :: rest =>
      (let* container := borrow_at ref in
       let* others := summaries rest in
       ret (summary container :: others))%js
  end.

(** [c => c.status === 'running']. *)
Definition is_running (c : JsVal) : bool :=
  match Js.get_prop c "status" with
  | Normal (JStr st) => String.eqb st "running"
  | _ => false
  end.

(** [async listContainers(showAll = false)]. *)
Definition listContainers (showAll : JsVal) : M State (Rust.Result JsVal) :=
  (let* s := get in
   let* all := summaries (JsMap.values (containers s)) in
   let filtered :=
     if Js.truthy (Js.default_arg showAll (JBool false)) then all
     else List.filter is_running all in
   ret (Rust.ok (JArr filtered)))%js.

(** [this.containers.get(containerId)]: the keys are strings. *)
Definition lookup_container (containerId : JsVal) (s : State) : option nat :=
  match containerId with
  | JStr k => JsMap.get k (containers s)
  | _ => None
  end.

(** [async getContainerLogs(containerId)]. *)
Definition getContainerLogs (containerId : JsVal) : M State (Rust.Result JsVal) :=
  (let* s := get in
   match lookup_container containerId s with
   | None => ret (Rust.result JNull (Some "Container not found"))
   | Some ref =>
       let* containerData := borrow_at ref in
       ret (Rust.ok (JObj [("containerId", containerId);
                           ("logs", JArr (logs containerData))]))
   end)%js.

(** What identifies the standing of a handle: its two flags, and the
    [status] and [error] of the container behind it. *)
Definition marks (h : Rust.Owned Container)
  : bool * bool * string * option string :=
  (Rust.borrowed h, Rust.dropped h, status (Rust.resource h), error (Rust.resource h)).

(** What the startup tasks and the timers leave alone: the
    [containers] map, the [goEssence] property and the marks of every
    handle. *)
Definition frame (s s' : State) : Prop :=
  containers s' = containers s /\
  goEssence s' = goEssence s /\
  marks <$> store s' = marks <$> store s.

(** A handle that is borrowed is still there, and borrowed. *)
Definition keeps_borrowed (s s' : State) : Prop :=
  forall ref h,
    store s !! ref = Some h -> Rust.borrowed h = true ->
    exists h', store s' !! ref = Some h' /\ Rust.borrowed h' = true.

(** Every entry of [containers] refers to a handle, and the handle is
    borrowed: the state in which [runContainer] puts every container
    it registers. *)
Definition all_borrowed (s : State) : Prop :=
  Forall (fun entry =>
            exists h, store s !! entry.2 = Some h /\ Rust.borrowed h = true)
         (containers s).

(** What can happen to a runtime module, for histories of calls:
    the three operations it implements, and a log timer firing.
    ([start_container], [stop_container] and [exec_container] name
    methods the class does not define: they throw and change
    nothing.) *)
Inductive Call : Type :=
| run_container (w : Inputs) (imageName command options : JsVal)
| list_containers (showAll : JsVal)
| logs_container (containerId : JsVal)
| timer_fires (t : Z) (timer : Timer).

Definition call (c : Call) (s : State) : option State :=
  match c with
  | run_container w imageName command options =>
      snd <$> runContainer w imageName command options s
  | list_containers showAll => Some (snd (listContainers showAll s))
  | logs_container containerId => Some (snd (getContainerLogs containerId s))
  | timer_fires t timer => Some (fire t timer s)
  end.

Fixpoint calls (cs : list Call) (s : State) : option State :=
  match cs with
  | [] => Some s
  | c :: rest =>
      match call c s with
      | Some s' => calls rest s'
      | None => None
      end
  end.

End RuntimeModule.

(* ===================================================================== *)
(** * Modules as [DockerModule] implementations *)
(* ===================================================================== *)

(** A module that does not override [_handleOperation]. *)
Definition not_implemented (operation : string) (b : DockerModule.Base) : JsError :=
  Error ("Operation " +:+ operation +:+ " not implemented in " +:+ DockerModule.name b).

#[export] Instance DockerModule_Impl : DockerModule.Impl DockerModule.Base (Rust.Result JsVal) :=
  {| DockerModule.base := fun b => b;
     DockerModule.set_base := fun b _ => b;
     DockerModule.handleOperation :=
       fun _ operation _ _ b => Some (Throw (not_implemented operation b), b) |}.

Module RuntimeDispatch.

Definition set_base (b : DockerModule.Base) (s : RuntimeModule.State)
  : RuntimeModule.State :=
  {| RuntimeModule.base := b;
     RuntimeModule.goEssence := RuntimeModule.goEssence s;
     RuntimeModule.containers := RuntimeModule.containers s;
     RuntimeModule.processes := RuntimeModule.processes s;
     RuntimeModule.networks := RuntimeModule.networks s;
     RuntimeModule.store := RuntimeModule.store s;
     RuntimeModule.timers := RuntimeModule.timers s |}.

(** A call [this.method(data.field)] of a method the class does not
    define: the argument is evaluated, then the call fails. *)
Definition undefined_method (method field : string) (data : JsVal)
  : Async RuntimeModule.State (Rust.Result JsVal) :=
  fun s =>
    match Js.get_prop data field with
    | Throw e => Some (Throw e, s)
    | Normal _ => Some (Throw (TypeError ("this." +:+ method +:+ " is not a function")), s)
    end.

Definition sync {A} (m : M RuntimeModule.State A) : Async RuntimeModule.State A :=
  fun s => Some (m s).

(** [async _handleOperation(operation, data, options)] of
    [RuntimeModule]. *)
Definition handleOperation (w : Inputs) (operation : string) (data options : JsVal)
  : Async RuntimeModule.State (Rust.Result JsVal) :=
  fun s =>
    if String.eqb operation "run_container" then
      match Js.get_prop data "image", Js.get_prop data "command",
            Js.get_prop data "options" with
      | Normal image, Normal command, Normal opts =>
          RuntimeModule.runContainer w image command opts s
      | Throw e, _, _ | _, Throw e, _ | _, _, Throw e => Some (Throw e, s)
      end
    else if String.eqb operation "start_container" then
      undefined_method "startContainer" "containerId" data s
    else if String.eqb operation "stop_container" then
      undefined_method "stopContainer" "containerId" data s
    else if String.eqb operation "list_containers" then
      match Js.get_prop data "all" with
      | Normal all => sync (RuntimeModule.listContainers all) s
      | Throw e => Some (Throw e, s)
      end
    else if String.eqb operation "exec_container" then
      match Js.get_prop data "containerId", Js.get_prop data "command" with
      | Normal _, Normal _ =>
          Some (Throw (TypeError "this.execInContainer is not a function"), s)
      | Throw e, _ | _, Throw e => Some (Throw e, s)
      end
    else if String.eqb operation "logs_container" then
      match Js.get_prop data "containerId" with
      | Normal containerId => sync (RuntimeModule.getContainerLogs containerId) s
      | Throw e => Some (Throw e, s)
      end
    else Some (Throw (Error ("Unknown runtime operation: " +:+ operation)), s).

End RuntimeDispatch.

#[export] Instance RuntimeModule_Impl
  : DockerModule.Impl RuntimeModule.State (Rust.Result JsVal) :=
  {| DockerModule.base := RuntimeModule.base;
     DockerModule.set_base := RuntimeDispatch.set_base;
     DockerModule.handleOperation := RuntimeDispatch.handleOperation |}.

(* ===================================================================== *)
(** * [class DockerNexusEngine] *)
(* ===================================================================== *)

Module DockerNexusEngine.

(** A module object: the state of some [DockerModule] subclass together
    with its methods. *)
Record ModuleObject : Type := mkModule {
  mod_state : Type;
  mod_impl : DockerModule.Impl mod_state (Rust.Result JsVal);
  mod_this : mod_state
}.

Definition module_base (m : ModuleObject) : DockerModule.Base :=
  @DockerModule.base _ _ (mod_impl m) (mod_this m).

(** [module.process(operation, data, options)], with the module as it
    is afterwards. *)
Definition module_process (w : Inputs) (operation : string) (data options : JsVal)
    (m : ModuleObject) : option (Completion (Rust.Result JsVal) * ModuleObject) :=
  match @DockerModule.process _ _ (mod_impl m) w operation data options (mod_this m) with
  | Some (c, this') =>
      Some (c, {| mod_state := mod_state m; mod_impl := mod_impl m; mod_this := this' |})
  | None => None
  end.

(** An entry of [this.metrics.modules]. *)
Record ModuleMetrics : Type := mkModuleMetrics {
  operations : Z;
  totalTime : Z;
  avgTime : JsNumber.number
}.

(** [this.metrics]; [modules] is not defined before the first
    [updateStats]. *)
Record Metrics : Type := mkMetrics {
  commands : Z;
  uptime : Z;
  errors : Z;
  modules_metrics : option (list (string * ModuleMetrics))
}.

(** [this.modules] is the object literal of the constructor; [info]
    and [cache] play no part in dispatch. *)
Record State : Type := mkState {
  modules : list (string * ModuleObject);
  metrics : Metrics
}.

(** [constructor()], given the five modules it creates and the time. *)
Definition new (isolation image runtime network storage : ModuleObject) (t : Z) : State :=
  {| modules := [("isolation", isolation); ("image", image); ("runtime", runtime);
                 ("network", network); ("storage", storage)];
     metrics := {| commands := 0; uptime := t; errors := 0; modules_metrics := None |} |}.

(** [const operationMap = {...}], key by key as written. *)
Definition operationMap : list (string * string) :=
  fold_left (fun acc kv => JsMap.set (fst kv) (snd kv) acc)
    [ ("build_image", "image"); ("pull_image", "image"); ("push_image", "image");
      ("list_images", "image"); ("remove_image", "image"); ("inspect_image", "image");
      ("run_container", "runtime"); ("start_container", "runtime");
      ("stop_container", "runtime"); ("list_containers", "runtime");
      ("exec_container", "runtime"); ("logs_container", "runtime");
      ("create_network", "network"); ("list_networks", "network");
      ("connect_container", "network");
      ("create_volume", "storage"); ("list_volumes", "storage");
      ("remove_volume", "storage");
      ("create_volume", "storage"); ("list_volumes", "storage");
      ("remove_volume", "storage");
      ("isolate_container", "isolation"); ("setup_filesystem", "isolation");
      ("start_server", "webserver"); ("stop_server", "webserver");
      ("health_check_web", "webserver") ]
    [].

(** [selectModule(operation)].  [operationMap[operation]] is an entry
    of the table or, for the name of a member of [Object.prototype],
    that member, which names no module; either way
    [this.modules[...]] is a module of the constructor or
    [undefined]. *)
Definition selectModule (operation : string) (s : State) : option ModuleObject :=
  match JsMap.get operation operationMap with
  | Some moduleName => JsMap.get moduleName (modules s)
  | None => None
  end.

(** The key of [this.modules] under which [selectModule] found the
    module. *)
Definition route (operation : string) : option string :=
  JsMap.get operation operationMap.

(** [updateStats(moduleName, operation, executionTime)]. *)
Definition updateStats (moduleName operation : string) (executionTime : Z)
    (m : Metrics) : Metrics :=
  let table := default [] (modules_metrics m) in
  let moduleStats :=
    default {| operations := 0; totalTime := 0; avgTime := JsNumber.of_Z 0 |}
            (JsMap.get moduleName table) in
  let ops := operations moduleStats + 1 in
  let total := totalTime moduleStats + executionTime in
  {| commands := commands m; uptime := uptime m; errors := errors m;
     modules_metrics :=
       Some (JsMap.set moduleName
               {| operations := ops; totalTime := total;
                  avgTime := JsNumber.div (JsNumber.of_Z total) (JsNumber.of_Z ops) |}
               table) |}.

(** The object returned by [execute]. *)
Record Outcome : Type := mkOutcome {
  success : bool;
  module : option string;
  operation : string;
  result : option (Rust.Result JsVal);
  error : option string;
  executionTime : Z
}.

Definition count_command (m : Metrics) : Metrics :=
  {| commands := commands m + 1; uptime := uptime m; errors := errors m;
     modules_metrics := modules_metrics m |}.

Definition count_error (m : Metrics) : Metrics :=
  {| commands := commands m; uptime := uptime m; errors := errors m + 1;
     modules_metrics := modules_metrics m |}.

(** The [catch (error)] block of [execute]. *)
Definition failure (op : string) (e : JsError) (startTime endTime : Z) (s : State)
  : Outcome * State :=
  ({| success := false; module := None; operation := op; result := None;
      error := Some (message e); executionTime := endTime - startTime |},
   {| modules := modules s; metrics := count_error (metrics s) |}).

(** [async execute(operation, data, options = {})]: [startTime] and
    [endTime] are the two readings of [Date.now()], [w] is what the
    module reads in between. *)
Definition execute (startTime endTime : Z) (w : Inputs) (op : string)
    (data options : JsVal) (s : State) : option (Outcome * State) :=
  let s0 := {| modules := modules s; metrics := count_command (metrics s) |} in
  match selectModule op s0 with
  | None =>
      Some (failure op (Error ("No module found for operation: " +:+ op))
                    startTime endTime s0)
  | Some m =>
      match module_process w op data (Js.default_arg options (JObj [])) m with
      | None => None
      | Some (c, m') =>
          let s1 :=
            {| modules :=
                 match route op with
                 | Some key => JsMap.set key m' (modules s0)
                 | None => modules s0
                 end;
               metrics := metrics s0 |} in
          match c with
          | Throw e => Some (failure op e startTime endTime s1)
          | Normal r =>
              let moduleName := DockerModule.name (module_base m') in
              Some ({| success := true; module := Some moduleName; operation := op;
                       result := Some r; error := None;
                       executionTime := endTime - startTime |},
                    {| modules := modules s1;
                       metrics := updateStats moduleName op (endTime - startTime)
                                              (metrics s1) |})
          end
      end
  end.

(** The per-module counters a dispatch may touch: [stats.operations]
    of each module and [operations] of each entry of
    [metrics.modules]. *)
Definition module_counters (s : State) : list (string * Z) :=
  List.map (fun km => (fst km, DockerModule.operations (DockerModule.stats (module_base (snd km)))))
           (modules s).

Definition metric_counters (s : State) : list (string * Z) :=
  List.map (fun km => (fst km, operations (snd km)))
           (default [] (modules_metrics (metrics s))).

End DockerNexusEngine.

(* ===================================================================== *)
(** * Sample inputs *)
(* ===================================================================== *)

Module Samples.

Definition host0 : Host :=
  {| process_pid := 4242; process_arch := "x64"; process_platform := "linux" |}.

Definition line (s rest : string) : string := s +:+ String ImageModule.newline rest.

(** The build file of the specification's example. *)
Definition dockerfile : string :=
  line "FROM alpine" (line "RUN apk add curl" "EXPOSE 8080").

(** A build file with no [RUN], [COPY] or [ADD]. *)
Definition plain_dockerfile : string :=
  line "FROM alpine" (line "ENV MODE=production" (line "EXPOSE 8080" "CMD node server.js")).

Definition files (path : string) : Completion string :=
  if String.eqb path "Dockerfile" then Normal dockerfile
  else if String.eqb path "Dockerfile.plain" then Normal plain_dockerfile
  else Throw (Error ("ENOENT: no such file or directory, open '" +:+ path +:+ "'")).

Definition container_id : string :=
  "9f86d081884c7d659a2feaa0c55ad015a3bf4f1b2b0b822cd15d6c15b0f00a08".

(** A world in which [Math.random()] always returns [r]. *)
Definition world (r : JsNumber.number) : Inputs :=
  {| host := host0;
     now := fun k => 1700000000000 + Z.of_nat k;
     random := fun _ => r;
     randomBytes := fun _ => container_id;
     readFile := files |}.

(** 0.5 and 0.25. *)
Definition half : JsNumber.number := JsNumber.Finite 1 (-1).
Definition quarter : JsNumber.number := JsNumber.Finite 1 (-2).

Definition w0 : Inputs := world half.
Definition w1 : Inputs := world quarter.

(** Three tasks counting their runs in the shared state; the second
    one fails. *)
Definition counted (c : Completion Z) : Go.Task nat Z := fun n => (c, S n).
Definition tasks_failing : list (Go.Task nat Z) :=
  [counted (Normal 1); counted (Throw (Error "boom")); counted (Normal 3)].
Definition tasks_ok : list (Go.Task nat Z) :=
  [counted (Normal 1); counted (Normal 2); counted (Normal 3)].

(** The first goroutine is the last to settle. *)
Definition shuffled : list Go.Event :=
  [Go.Start 0; Go.Start 1; Go.Settle 1; Go.Start 2; Go.Settle 2; Go.Settle 0].

(** A runtime module on which somebody has set [goEssence]. *)
Definition runtime_with_go : RuntimeModule.State :=
  {| RuntimeModule.base := RuntimeModule.base RuntimeModule.new;
     RuntimeModule.goEssence := Some RuntimeModule.go;
     RuntimeModule.containers := []; RuntimeModule.processes := [];
     RuntimeModule.networks := []; RuntimeModule.store := [];
     RuntimeModule.timers := [] |}.

Definition bare (module_name : string) : DockerNexusEngine.ModuleObject :=
  {| DockerNexusEngine.mod_state := DockerModule.Base;
     DockerNexusEngine.mod_impl := DockerModule_Impl;
     DockerNexusEngine.mod_this := DockerModule.new module_name |}.

(** An engine with the runtime module above; the four modules whose
    [_handleOperation] is not given in this file stand as plain
    [DockerModule] objects. *)
Definition engine : DockerNexusEngine.State :=
  DockerNexusEngine.new
    (bare "Isolation") (bare "Image")
    {| DockerNexusEngine.mod_state := RuntimeModule.State;
       DockerNexusEngine.mod_impl := RuntimeModule_Impl;
       DockerNexusEngine.mod_this := RuntimeModule.new |}
    (bare "Network") (bare "Storage") 1700000000000.

End Samples.

(* ===================================================================== *)
(** * Go essence: [go.channel] *)
(* ===================================================================== *)

Module Channel.

(** The object returned by [go.channel(buffer)].  [maxSize] is the
    [buffer] argument, an integer compared with [buffer.length];
    [closed] is no property of the object until [close()] sets it. *)
Record Chan (T : Type) : Type := mkChan {
  buffer : list T;
  maxSize : Z;
  closed : bool
}.
Arguments mkChan {T}.
Arguments buffer {T}.
Arguments maxSize {T}.
Arguments closed {T}.

Definition channel {T} (size : Z) : Chan T :=
  {| buffer := []; maxSize := size; closed := false |}.

(** Default argument [buffer = 0]. *)
Definition channel_default {T} : Chan T := channel 0.

(** [send(data)]: the answer and the channel afterwards. *)
Definition send {T} (data : T) (c : Chan T) : bool * Chan T :=
  if (Z.of_nat (length (buffer c)) <? maxSize c) || (maxSize c =? 0)
  then (true, {| buffer := buffer c ++ [data]; maxSize := maxSize c;
                 closed := closed c |})
  else (false, c).

(** [receive()]: [buffer.shift()], [None] being [undefined]. *)
Definition receive {T} (c : Chan T) : option T * Chan T :=
  match buffer c with
  | [] => (None, c)
  | data :: rest =>
      (Some data, {| buffer := rest; maxSize := maxSize c; closed := closed c |})
  end.

Definition close {T} (c : Chan T) : Chan T :=
  {| buffer := buffer c; maxSize := maxSize c; closed := true |}.

(** A use of a channel, and what a sequence of uses leaves behind: the
    values whose [send] answered [true], the values handed out by
    [receive], and the channel. *)
Inductive Use (T : Type) : Type :=
| Send (data : T)
| Receive
| Close.
Arguments Send {T} data.
Arguments Receive {T}.
Arguments Close {T}.

Record Trace (T : Type) : Type := mkTrace {
  accepted : list T;
  received : list T;
  chan : Chan T
}.
Arguments mkTrace {T}.
Arguments accepted {T}.
Arguments received {T}.
Arguments chan {T}.

Definition use {T} (u : Use T) (t : Trace T) : Trace T :=
  match u with
  | Send data =>
      let '(answer, c) := send data (chan t) in
      {| accepted := if answer then accepted t ++ [data] else accepted t;
         received := received t; chan := c |}
  | Receive =>
      let '(got, c) := receive (chan t) in
      {| accepted := accepted t;
         received := match got with
                     | Some data => received t ++ [data]
                     | None => received t
                     end;
         chan := c |}
  | Close => {| accepted := accepted t; received := received t; chan := close (chan t) |}
  end.

Definition uses {T} (us : list (Use T)) (c : Chan T) : Trace T :=
  fold_left (fun t u => use u t) us {| accepted := []; received := []; chan := c |}.

(** What a trace keeps: the values handed out, followed by those still
    buffered, are the values accepted, in the order of acceptance. *)
Definition in_order {T} (t : Trace T) : Prop :=
  received t ++ buffer (chan t) = accepted t.



End Channel.

(* ===================================================================== *)
(** * Linux essence: processes coming and going *)
(* ===================================================================== *)

Module Namespaces.

(** A process entering or leaving a namespace: a call of [enter(pid)]
    or of [leave(pid)]. *)
Inductive Move : Type :=
| Enter (pid : Z)
| Leave (pid : Z).

Definition move (m : Move) (ns : Linux.Namespace) : Linux.Namespace :=
  match m with
  | Enter pid => Linux.enter pid ns
  | Leave pid => Linux.leave pid ns
  end.

Definition moves (ms : list Move) (ns : Linux.Namespace) : Linux.Namespace :=
  fold_left (fun ns m => move m ns) ms ns.

End Namespaces.

(** Entries kept by index, each under the index of its key, as
    [Js.own_keys_order] collects them. *)
Definition indexed_by_key (sorted : list (N * (string * JsVal))) : Prop :=
  Forall (fun entry => Js.array_index entry.2.1 = Some entry.1) sorted.

(* ===================================================================== *)
(** * The inherited fields of a module *)
(* ===================================================================== *)

(** The fields a runtime module inherits from [DockerModule] are the
    same in both states. *)
Definition same_base (s s' : RuntimeModule.State) : Prop :=
  RuntimeModule.base s' = RuntimeModule.base s.

(** [shutdown()] on an instance of a subclass. *)
Definition shutdown_module {St R : Type} {I : DockerModule.Impl St R} (s : St) : St :=
  DockerModule.set_base (DockerModule.shutdown (DockerModule.base s)) s.

(* ===================================================================== *)
(** * [getCapabilities()] *)
(* ===================================================================== *)

(** The array each class returns from [getCapabilities()]. *)
Module Capabilities.

Definition base : list string := [].

Definition isolation : list string :=
  ["create_namespace"; "create_cgroup"; "isolate_container"; "setup_filesystem"].

Definition image : list string :=
  ["build_image"; "pull_image"; "push_image"; "list_images"; "remove_image";
   "inspect_image"].

Definition runtime : list string :=
  ["run_container"; "start_container"; "stop_container"; "list_containers";
   "exec_container"; "logs_container"].

Definition network : list string :=
  ["create_network"; "list_networks"; "connect_container"; "disconnect_container";
   "port_forward"].

Definition storage : list string :=
  ["create_volume"; "list_volumes"; "remove_volume"; "mount_volume"].

Definition webserver : list string :=
  ["start_server"; "stop_server"; "health_check_web"].

(** The capabilities of the module that the constructor of the engine
    stores under [key]. *)
Definition of_module (key : string) : list string :=
  if String.eqb key "isolation" then isolation
  else if String.eqb key "image" then image
  else if String.eqb key "runtime" then runtime
  else if String.eqb key "network" then network
  else if String.eqb key "storage" then storage
  else [].

End Capabilities.

(** The capabilities that [selectModule] routes nowhere. *)
Definition unrouted_capabilities : list string :=
  ["create_namespace"; "create_cgroup"; "disconnect_container"; "port_forward";
   "mount_volume"].

(* ===================================================================== *)
(** * [class DockerNexusEngine]: the Docker-compatible methods *)
(* ===================================================================== *)

Module EngineApi.

Import DockerNexusEngine.

(** Each of these methods is one call [this.execute(operation, {...})],
    with no [options] argument. *)
Definition buildImage (startTime endTime : Z) (w : Inputs) (name dockerfile context : JsVal)
  : State -> option (Outcome * State) :=
  execute startTime endTime w "build_image"
    (JObj [("name", name); ("dockerfile", dockerfile); ("context", context)]) JUndefined.

Definition runContainer (startTime endTime : Z) (w : Inputs) (image command options : JsVal)
  : State -> option (Outcome * State) :=
  execute startTime endTime w "run_container"
    (JObj [("image", image); ("command", command); ("options", options)]) JUndefined.

(** [async listContainers(all = false)]. *)
Definition listContainers (startTime endTime : Z) (w : Inputs) (all : JsVal)
  : State -> option (Outcome * State) :=
  execute startTime endTime w "list_containers"
    (JObj [("all", Js.default_arg all (JBool false))]) JUndefined.

Definition listImages (startTime endTime : Z) (w : Inputs)
  : State -> option (Outcome * State) :=
  execute startTime endTime w "list_images" (JObj []) JUndefined.

(** [async pullImage(name, tag = 'latest')]. *)
Definition pullImage (startTime endTime : Z) (w : Inputs) (name tag : JsVal)
  : State -> option (Outcome * State) :=
  execute startTime endTime w "pull_image"
    (JObj [("name", name); ("tag", Js.default_arg tag (JStr "latest"))]) JUndefined.

(** [async createNetwork(name, driver = 'bridge')]. *)
Definition createNetwork (startTime endTime : Z) (w : Inputs) (name driver : JsVal)
  : State -> option (Outcome * State) :=
  execute startTime endTime w "create_network"
    (JObj [("name", name); ("driver", Js.default_arg driver (JStr "bridge"))]) JUndefined.

(** [async createVolume(name, options = {})]. *)
Definition createVolume (startTime endTime : Z) (w : Inputs) (name options : JsVal)
  : State -> option (Outcome * State) :=
  execute startTime endTime w "create_volume"
    (JObj [("name", name); ("options", Js.default_arg options (JObj []))]) JUndefined.

(** [this.modules.webserver.process(operation, {})], for
    [startWebServer()] and [stopWebServer()]: not through [execute],
    so nothing catches what it throws. *)
Definition webserver_process (w : Inputs) (operation : string) (s : State)
  : option (Completion (Rust.Result JsVal) * State) :=
  match JsMap.get "webserver" (modules s) with
  | None =>
      Some (Throw (TypeError "Cannot read properties of undefined (reading 'process')"), s)
  | Some m =>
      match module_process w operation (JObj []) JUndefined m with
      | None => None
      | Some (c, m') =>
          Some (c, {| modules := JsMap.set "webserver" m' (modules s);
                      metrics := metrics s |})
      end
  end.

Definition startWebServer (w : Inputs) : State -> option (Completion (Rust.Result JsVal) * State) :=
  webserver_process w "start_server".

Definition stopWebServer (w : Inputs) : State -> option (Completion (Rust.Result JsVal) * State) :=
  webserver_process w "stop_server".

(** One call of [execute] with what it reads, and a history of calls
    awaited one after the other. *)
Record Request : Type := mkRequest {
  req_start : Z;
  req_end : Z;
  req_inputs : Inputs;
  req_operation : string;
  req_data : JsVal;
  req_options : JsVal
}.

Definition serve (r : Request) (s : State) : option (Outcome * State) :=
  execute (req_start r) (req_end r) (req_inputs r) (req_operation r) (req_data r)
          (req_options r) s.

Fixpoint executes (rs : list Request) (s : State) : option (list Outcome * State) :=
  match rs with
  | [] => Some ([], s)
  | r :: rest =>
      match serve r s with
      | None => None
      | Some (out, s1) =>
          match executes rest s1 with
          | None => None
          | Some (outs, s2) => Some (out :: outs, s2)
          end
      end
  end.

Definition succeeded (outs : list Outcome) : list Outcome :=
  List.filter success outs.

Definition failed (outs : list Outcome) : list Outcome :=
  List.filter (fun out => negb (success out)) outs.

(** The operations counted in [metrics.modules], all modules
    together. *)
Definition counted_operations (s : State) : Z :=
  foldr (fun entry total => DockerNexusEngine.operations (snd entry) + total) 0
        (default [] (modules_metrics (metrics s))).

(** The time counted in [metrics.modules], all modules together. *)
Definition counted_time (s : State) : Z :=
  foldr (fun entry total => totalTime (snd entry) + total) 0
        (default [] (modules_metrics (metrics s))).

End EngineApi.

(* ===================================================================== *)
(** * Hexadecimal text *)
(* ===================================================================== *)

(** One of [0-9a-f]. *)
Definition lower_hex (c : ascii) : bool :=
  let z := JsString.code c in
  ((48 <=? z) && (z <=? 57)) || ((97 <=? z) && (z <=? 102)).

(** A string of [n] characters, each one of [0-9a-f]. *)
Definition hex_text (n : nat) (s : string) : Prop :=
  String.length s = n /\ forallb lower_hex (list_ascii_of_string s) = true.

(** The character [sep] does not occur in [s]. *)
Definition free_of (sep : ascii) (s : string) : Prop :=
  sep ∉ list_ascii_of_string s.

(* ===================================================================== *)
(** * [class NetworkModule] *)
(* ===================================================================== *)

Module NetworkModule.

(** A value of the [networks] map.  [containers] is a [Set] that no
    method fills; [options] is no property of the default bridge. *)
Record Network : Type := mkNetwork {
  name : string;
  driver : JsVal;
  subnet : JsVal;
  gateway : JsVal;
  containers : list JsVal;
  created : string;
  options : option JsVal
}.

(** [bridges] and [portMappings] are created empty and never used. *)
Record State : Type := mkState {
  base : DockerModule.Base;
  networks : list (string * Network);
  bridges : list (string * JsVal);
  portMappings : list (string * JsVal)
}.

Definition set_networks (f : list (string * Network) -> list (string * Network))
    (s : State) : State :=
  {| base := base s; networks := f (networks s);
     bridges := bridges s; portMappings := portMappings s |}.

(** The object literal of [createDefaultBridge()], made at time [t]. *)
Definition defaultBridge (t : Z) : Network :=
  {| name := "docker-nexus0";
     driver := JStr "bridge";
     subnet := JStr "172.17.0.0/16";
     gateway := JStr "172.17.0.1";
     containers := [];
     created := JsDate.toISOString t;
     options := None |}.

Definition createDefaultBridge (t : Z) (s : State) : State :=
  set_networks (JsMap.set "bridge" (defaultBridge t)) s.

(** [constructor()], at time [t]. *)
Definition new (t : Z) : State :=
  createDefaultBridge t
    {| base := DockerModule.new "Network";
       networks := []; bridges := []; portMappings := [] |}.

(** [generateSubnet()], reading [Math.random()]. *)
Definition generateSubnet (w : Inputs) : string :=
  let thirdOctet := JsNumber.floor (JsNumber.mul (random w 0) (JsNumber.of_Z 255)) in
  "172." +:+ JsNumber.to_string thirdOctet +:+ ".0.0/16".

(** [parts[i]] inside a template literal. *)
Definition part (parts : list string) (i : nat) : string :=
  default "undefined" (parts !! i).

(** [generateGateway(subnet)]; only a string has a [split] method. *)
Definition generateGateway (subnet : JsVal) : Completion string :=
  if negb (Js.truthy subnet) then Normal "172.17.0.1"
  else
    match subnet with
    | JStr text =>
        let parts := JsString.split "." text in
        Normal (part parts 0 +:+ "." +:+ part parts 1 +:+ ".0.1")
    | _ => Throw (TypeError "subnet.split is not a function")
    end.

(** [async createNetwork(name, driver = 'bridge', options = {})], for
    a name that is a string.  The clock is read for [created] and then
    for the network id. *)
Definition createNetwork (w : Inputs) (name : string) (driver options : JsVal)
  : M State (Rust.Result JsVal) :=
  fun s =>
    if JsMap.has name (networks s) then
      (Normal (Rust.result JNull (Some ("Network " +:+ name +:+ " already exists"))), s)
    else
      let driver := Js.default_arg driver (JStr "bridge") in
      let options := Js.default_arg options (JObj []) in
      match Js.get_prop options "subnet" with
      | Throw e => (Throw e, s)
      | Normal optionsSubnet =>
          let subnet :=
            if Js.truthy optionsSubnet then optionsSubnet
            else JStr (generateSubnet w) in
          match Js.get_prop options "gateway" with
          | Throw e => (Throw e, s)
          | Normal optionsGateway =>
              match (if Js.truthy optionsGateway then Normal optionsGateway
                     else match generateGateway optionsSubnet with
                          | Normal text => Normal (JStr text)
                          | Throw e => Throw e
                          end) with
              | Throw e => (Throw e, s)
              | Normal gateway =>
                  let network :=
                    {| name := name; driver := driver; subnet := subnet;
                       gateway := gateway; containers := [];
                       created := JsDate.toISOString (now w 0);
                       options := Some options |} in
                  (Normal (Rust.ok (JObj
                     [("networkId",
                       JStr (JsString.substring0 12
                               (SHA256.sha256_hex (name +:+ pretty (now w 1)))));
                      ("name", JStr name);
                      ("driver", driver);
                      ("subnet", subnet)])),
                   set_networks (JsMap.set name network) s)
              end
          end
      end.

(** The callback of [.map] in [listNetworks]. *)
Definition summary (network : Network) : JsVal :=
  JObj [("name", JStr (name network));
        ("driver", driver network);
        ("subnet", subnet network);
        ("gateway", gateway network);
        ("containers", JNum (JsNumber.of_Z (Z.of_nat (length (containers network)))));
        ("created", JStr (created network))].

(** [async listNetworks()]. *)
Definition listNetworks (s : State) : Rust.Result JsVal :=
  Rust.ok (JArr (List.map summary (JsMap.values (networks s)))).

(** A call of [createNetwork], and the module after a history of
    calls, each awaited before the next. *)
Record Creation : Type := mkCreation {
  cr_inputs : Inputs;
  cr_name : string;
  cr_driver : JsVal;
  cr_options : JsVal
}.

Definition create (c : Creation) (s : State) : State :=
  snd (createNetwork (cr_inputs c) (cr_name c) (cr_driver c) (cr_options c) s).

Definition creations (cs : list Creation) (s : State) : State :=
  fold_left (fun s c => create c s) cs s.

End NetworkModule.

(* ===================================================================== *)
(** * [class StorageModule] *)
(* ===================================================================== *)

(** What [createVolume] asks of the platform: the path
    [join(os.tmpdir(), 'docker-nexus', 'volumes', name)], and
    [fs.mkdir(path, { recursive: true })], which returns or throws. *)
Record FileSystem : Type := mkFileSystem {
  volumePath : string -> string;
  mkdir : string -> Completion unit
}.

Module StorageModule.

(** A value of the [volumes] map. *)
Record Volume : Type := mkVolume {
  name : string;
  driver : JsVal;
  mountpoint : string;
  created : string;
  labels : JsVal;
  options : JsVal
}.

(** [mounts] is created empty and never used. *)
Record State : Type := mkState {
  base : DockerModule.Base;
  volumes : list (string * Volume);
  mounts : list (string * JsVal);
  storageDriver : string
}.

(** [constructor()]. *)
Definition new : State :=
  {| base := DockerModule.new "Storage"; volumes := []; mounts := [];
     storageDriver := "overlay2" |}.

Definition set_volumes (f : list (string * Volume) -> list (string * Volume))
    (s : State) : State :=
  {| base := base s; volumes := f (volumes s); mounts := mounts s;
     storageDriver := storageDriver s |}.

(** The [try] block of [createVolume], after [mkdir] has returned. *)
Definition register (w : Inputs) (name volumePath : string) (options : JsVal)
  : M State (Rust.Result JsVal) :=
  (let* optionsDriver := lift_completion (Js.get_prop options "driver") in
   let* optionsLabels := lift_completion (Js.get_prop options "labels") in
   let volume :=
     {| name := name;
        driver := Js.or optionsDriver (JStr "local");
        mountpoint := volumePath;
        created := JsDate.toISOString (now w 0);
        labels := Js.or optionsLabels (JObj []);
        options := options |} in
   do* modify (set_volumes (JsMap.set name volume)) in
   ret (Rust.ok (JObj [("name", JStr name);
                       ("driver", driver volume);
                       ("mountpoint", JStr (mountpoint volume));
                       ("created", JStr (created volume))])))%js.

(** [async createVolume(name, options = {})], for a name that is a
    string. *)
Definition createVolume (fs : FileSystem) (w : Inputs) (name : string) (options : JsVal)
  : M State (Rust.Result JsVal) :=
  fun s =>
    if JsMap.has name (volumes s) then
      (Normal (Rust.result JNull (Some ("Volume " +:+ name +:+ " already exists"))), s)
    else
      let options := Js.default_arg options (JObj []) in
      let path := volumePath fs name in
      try_catch
        (let* _ := lift_completion (mkdir fs path) in
         register w name path options)%js
        (fun error =>
           ret (Rust.result JNull
                  (Some ("Failed to create volume: " +:+ message error))))
        s.

(** The callback of [.map] in [listVolumes]. *)
Definition summary (volume : Volume) : JsVal :=
  JObj [("name", JStr (name volume));
        ("driver", driver volume);
        ("mountpoint", JStr (mountpoint volume));
        ("created", JStr (created volume))].

(** [async listVolumes()]. *)
Definition listVolumes (s : State) : Rust.Result JsVal :=
  Rust.ok (JArr (List.map summary (JsMap.values (volumes s)))).

(** A call of [createVolume], and the module after a history of calls,
    each awaited before the next. *)
Record Creation : Type := mkCreation {
  cr_fs : FileSystem;
  cr_inputs : Inputs;
  cr_name : string;
  cr_options : JsVal
}.

Definition create (c : Creation) (s : State) : State :=
  snd (createVolume (cr_fs c) (cr_inputs c) (cr_name c) (cr_options c) s).

Definition creations (cs : list Creation) (s : State) : State :=
  fold_left (fun s c => create c s) cs s.

End StorageModule.

(** The [networks] map of a network module made at time [t], as every
    history of [createNetwork] calls keeps it: the default bridge under
    the key [bridge], then the networks created, each under its own
    name and with no container, no key twice. *)
Definition networks_shape (t : Z) (s : NetworkModule.State) : Prop :=
  exists rest,
    NetworkModule.networks s = ("bridge", NetworkModule.defaultBridge t) :: rest /\
    NoDup ("bridge" :: rest.*1) /\
    Forall (fun entry => NetworkModule.name entry.2 = entry.1 /\
                         NetworkModule.containers entry.2 = []) rest.

(** The [volumes] map of a storage module: each volume under its own
    name, no name twice. *)
Definition volumes_shape (s : StorageModule.State) : Prop :=
  NoDup (StorageModule.volumes s).*1 /\
  Forall (fun entry => StorageModule.name entry.2 = entry.1) (StorageModule.volumes s).

(* ===================================================================== *)
(** * More sample inputs *)
(* ===================================================================== *)

Module Scenarios.

(** Three calls of [execute]: a run, an operation whose method is
    missing, and an operation that the routing table does not name. *)
Definition requests : list EngineApi.Request :=
  [ {| EngineApi.req_start := 1700000000100; EngineApi.req_end := 1700000000107;
       EngineApi.req_inputs := Samples.w0; EngineApi.req_operation := "run_container";
       EngineApi.req_data := JObj [("image", JStr "alpine")];
       EngineApi.req_options := JUndefined |};
    {| EngineApi.req_start := 1700000000200; EngineApi.req_end := 1700000000203;
       EngineApi.req_inputs := Samples.w0; EngineApi.req_operation := "stop_container";
       EngineApi.req_data := JObj [("containerId", JStr "abc")];
       EngineApi.req_options := JUndefined |};
    {| EngineApi.req_start := 1700000000300; EngineApi.req_end := 1700000000301;
       EngineApi.req_inputs := Samples.w0; EngineApi.req_operation := "create_namespace";
       EngineApi.req_data := JObj [("type", JStr "pid"); ("name", JStr "box")];
       EngineApi.req_options := JUndefined |} ].

(** A stand-in for a module: its [_handleOperation] resolves with the
    payload it was given. *)
Definition echo_impl : DockerModule.Impl DockerModule.Base (Rust.Result JsVal) :=
  {| DockerModule.base := fun b => b;
     DockerModule.set_base := fun b _ => b;
     DockerModule.handleOperation :=
       fun _ _ data _ b => Some (Normal (Rust.ok data), b) |}.

Definition echo (module_name : string) : DockerNexusEngine.ModuleObject :=
  {| DockerNexusEngine.mod_state := DockerModule.Base;
     DockerNexusEngine.mod_impl := echo_impl;
     DockerNexusEngine.mod_this := DockerModule.new module_name |}.

End Scenarios.

(* ===================================================================== *)
(** * Proof steps used more than once *)
(* ===================================================================== *)

(** Membership in a list of literals. *)
Ltac in_list := repeat first [apply list_elem_of_here | apply list_elem_of_further].
Ltac not_in_list :=
  let H := fresh in
  intros H; repeat (apply elem_of_cons in H as [H|H]; [discriminate H|]);
  now apply elem_of_nil in H.

(** Reading the fields of the states and outcomes that [execute] builds. *)
Ltac engine_fields :=
  cbn [DockerNexusEngine.commands DockerNexusEngine.uptime DockerNexusEngine.errors
       DockerNexusEngine.modules_metrics DockerNexusEngine.metrics
       DockerNexusEngine.modules DockerNexusEngine.success DockerNexusEngine.module
       DockerNexusEngine.operation DockerNexusEngine.executionTime
       DockerNexusEngine.result DockerNexusEngine.error DockerNexusEngine.updateStats
       DockerNexusEngine.count_command DockerNexusEngine.count_error
       DockerNexusEngine.failure fst snd];
  repeat match goal with
         | |- context [default ?d (Some ?x)] => change (default d (Some x)) with x
         end.

(* ===================================================================== *)
(** * Theorems *)
(* ===================================================================== *)

Section RustOwnership.
Context {T : Type}.
Implicit Types h : Rust.Owned T.

Lemma borrow_borrowed h :
  Rust.borrowed h = true -> Rust.borrow h = (Throw Rust.borrow_error, h).
Proof. intros Hb. unfold Rust.borrow. now rewrite Hb. Qed.

Lemma borrow_dropped h :
  Rust.dropped h = true -> Rust.borrow h = (Throw Rust.borrow_error, h).
Proof. intros Hd. unfold Rust.borrow. rewrite Hd. now rewrite orb_true_r. Qed.

Lemma borrow_sets_borrowed h r h' :
  Rust.borrow h = (Normal r, h') -> Rust.borrowed h' = true /\ r = Rust.resource h.
Proof.
  unfold Rust.borrow. destruct (Rust.borrowed h || Rust.dropped h); [discriminate|].
  intros [= <- <-]. auto.
Qed.

Lemma drop_dropped h : Rust.dropped (Rust.drop h) = true.
Proof. unfold Rust.drop. destruct (Rust.dropped h) eqn:E; [exact E | reflexivity]. Qed.

End RustOwnership.

Section GoConcurrent.
Context {St V : Type}.
Implicit Types (tasks : list (Go.Task St V)) (cs : list (Completion V)).
Implicit Types (evs : list Go.Event) (s : St) (done : list nat).

Lemma spawn_all_length tasks : forall s, length (Go.spawn_all tasks s).1 = length tasks.
Proof.
  induction tasks as [|t ts IH]; intros s; simpl; [reflexivity|].
  destruct (t s) as [c s1]. specialize (IH s1).
  destruct (Go.spawn_all ts s1) as [cs s2]. simpl in *. now rewrite IH.
Qed.

Lemma spawn_all_app tasks1 tasks2 s :
  Go.spawn_all (tasks1 ++ tasks2) s =
  let '(cs1, s1) := Go.spawn_all tasks1 s in
  let '(cs2, s2) := Go.spawn_all tasks2 s1 in
  (cs1 ++ cs2, s2).
Proof.
  revert s. induction tasks1 as [|t ts IH]; intros s; simpl.
  - now destruct (Go.spawn_all tasks2 s).
  - destruct (t s) as [c s1]. rewrite IH.
    destruct (Go.spawn_all ts s1) as [cs1 s2].
    now destruct (Go.spawn_all tasks2 s2).
Qed.

(** The goroutines started so far are a prefix of the task list. *)
Lemma spawn_all_take tasks s cs s' k :
  Go.spawn_all tasks s = (cs, s') ->
  (Go.spawn_all (take k tasks) s).1 = take k cs.
Proof.
  intros Hall. rewrite <- (take_drop k tasks) in Hall.
  rewrite spawn_all_app in Hall.
  pose proof (spawn_all_length (take k tasks) s) as Hlen.
  pose proof (spawn_all_length (drop k tasks) (Go.spawn_all (take k tasks) s).2) as Hlen2.
  destruct (Go.spawn_all (take k tasks) s) as [cs1 s1]. simpl in *.
  destruct (Go.spawn_all (drop k tasks) s1) as [cs2 s2].
  injection Hall as <- <-. simpl in *.
  rewrite length_take in Hlen. rewrite length_drop in Hlen2.
  destruct (decide (k <= length tasks)%nat).
  - rewrite take_app_length'; [reflexivity | lia].
  - destruct cs2; [|simpl in Hlen2; lia].
    rewrite app_nil_r. rewrite take_ge; [reflexivity | lia].
Qed.

Lemma spawn_all_step tasks s cs s' k t :
  Go.spawn_all tasks s = (cs, s') ->
  tasks !! k = Some t ->
  exists c,
    cs !! k = Some c /\
    t (Go.spawn_all (take k tasks) s).2 = (c, (Go.spawn_all (take (S k) tasks) s).2).
Proof.
  intros Hall Ht.
  pose proof (spawn_all_take _ _ _ _ (S k) Hall) as HS.
  pose proof (spawn_all_take _ _ _ _ k Hall) as Hk.
  rewrite (take_S_r tasks k t Ht) in HS |- *.
  rewrite spawn_all_app in HS |- *.
  destruct (Go.spawn_all (take k tasks) s) as [cs1 s1]. simpl in *.
  destruct (t s1) as [c s2]. simpl in *.
  exists c. split; [|reflexivity].
  assert (Hlt : (k < length cs)%nat).
  { pose proof (spawn_all_length tasks s) as Hl. rewrite Hall in Hl. simpl in Hl.
    rewrite Hl. now apply lookup_lt_Some in Ht. }
  destruct (lookup_lt_is_Some_2 cs k Hlt) as [c' Hc'].
  rewrite (take_S_r _ _ _ Hc') in HS. subst cs1.
  apply app_inj_tail in HS. destruct HS as [_ ->]. exact Hc'.
Qed.

Lemma spawn_all_full tasks s cs s' :
  Go.spawn_all tasks s = (cs, s') ->
  (Go.spawn_all (take (length tasks) tasks) s).2 = s'.
Proof. intros H. rewrite firstn_all. now rewrite H. Qed.

Lemma slots_lookup cs (n : nat) done (j : nat) :
  (j < n)%nat ->
  Go.slots cs n done !! j =
  Some (if bool_decide (j ∈ done) then cs !! j ≫= Go.fulfilled else None).
Proof.
  intros Hj. unfold Go.slots. rewrite list_lookup_fmap.
  rewrite lookup_seq_lt by exact Hj. reflexivity.
Qed.

Lemma slots_length cs (n : nat) done : length (Go.slots cs n done) = n.
Proof. unfold Go.slots. now rewrite length_fmap, length_seq. Qed.

Lemma slots_insert cs (n : nat) done (i : nat) v :
  (i < n)%nat -> cs !! i = Some (Normal v) ->
  <[i := Some v]> (Go.slots cs n done) = Go.slots cs n (i :: done).
Proof.
  intros Hi Hc. apply list_eq. intros j.
  destruct (decide (j < n)%nat) as [Hj|Hj].
  - rewrite (slots_lookup _ _ (i :: done)) by exact Hj.
    destruct (decide (i = j)) as [->|Hne].
    + rewrite list_lookup_insert_eq by (rewrite slots_length; exact Hj).
      rewrite bool_decide_eq_true_2 by apply list_elem_of_here. now rewrite Hc.
    + rewrite list_lookup_insert_ne by exact Hne.
      rewrite slots_lookup by exact Hj.
      f_equal. apply (f_equal (fun b : bool => if b then _ else _)).
      apply bool_decide_ext. rewrite elem_of_cons. intuition congruence.
  - rewrite !lookup_ge_None_2; [reflexivity | |].
    + rewrite slots_length. lia.
    + rewrite length_insert, slots_length. lia.
Qed.

(** Once [n] distinct goroutines out of [n] have settled, all have. *)
Lemma done_full (n : nat) done :
  NoDup done -> (forall i, i ∈ done -> (i < n)%nat) -> length done = n ->
  forall j, (j < n)%nat -> j ∈ done.
Proof.
  intros Hnd Hlt Hlen j Hj.
  assert (Hsub : done ⊆+ seq 0 n).
  { apply NoDup_submseteq; [exact Hnd|]. intros i Hi.
    apply elem_of_seq. specialize (Hlt i Hi). lia. }
  apply submseteq_length_Permutation in Hsub; [|rewrite length_seq; lia].
  rewrite Hsub. apply elem_of_seq. lia.
Qed.

Lemma all_normal cs :
  Forall (fun c => is_normal c = true) cs -> cs = Normal <$> omap Go.fulfilled cs.
Proof.
  intros H. induction H as [|c cs Hc _ IH]; [reflexivity|].
  destruct c; [|discriminate]. cbn. f_equal. exact IH.
Qed.

Lemma slots_full cs done :
  (forall j, (j < length cs)%nat -> j ∈ done) ->
  (forall i, i ∈ done -> exists v, cs !! i = Some (Normal v)) ->
  Forall (fun c => is_normal c = true) cs /\
  mapM id (Go.slots cs (length cs) done) = Some (omap Go.fulfilled cs).
Proof.
  intros Hfull Hdone.
  assert (Hn : Forall (fun c => is_normal c = true) cs).
  { apply Forall_lookup. intros j c Hc.
    destruct (Hdone j) as [v Hv]; [apply Hfull; now apply lookup_lt_Some in Hc|].
    rewrite Hv in Hc. now injection Hc as <-. }
  split; [exact Hn|].
  assert (Hs : Go.slots cs (length cs) done = Some <$> omap Go.fulfilled cs).
  { apply list_eq. intros j. destruct (decide (j < length cs)%nat) as [Hj|Hj].
    - rewrite slots_lookup by exact Hj.
      rewrite bool_decide_eq_true_2 by now apply Hfull.
      pose proof (f_equal (fun l => l !! j) (all_normal cs Hn)) as Hcj.
      simpl in Hcj. rewrite list_lookup_fmap in Hcj. rewrite Hcj.
      rewrite list_lookup_fmap.
      destruct (lookup_lt_is_Some_2 cs j Hj) as [c Hc]. rewrite Hc in Hcj.
      destruct (omap Go.fulfilled cs !! j); [reflexivity | discriminate].
    - rewrite !lookup_ge_None_2; [reflexivity | |].
      + rewrite length_fmap. rewrite (all_normal cs Hn) in Hj.
        rewrite length_fmap in Hj. lia.
      + rewrite slots_length. lia. }
  rewrite Hs. apply mapM_fmap_Some. reflexivity.
Qed.

Lemma run_settled tasks evs (r : Go.Run St V) o :
  Go.outcome (Go.all r) = Some o -> Go.run tasks evs r = (r, evs).
Proof. intros Ho. destruct evs; simpl; now rewrite Ho. Qed.

Section Schedule.
Variables (tasks : list (Go.Task St V)) (s0 : St).
Variables (cs : list (Completion V)) (s_fin : St).
Hypothesis Hall : Go.spawn_all tasks s0 = (cs, s_fin).

Lemma cs_length : length cs = length tasks.
Proof using Hall.
  pose proof (spawn_all_length tasks s0) as H. now rewrite Hall in H.
Qed.

Lemma settled_as_lookup k done r (i : nat) :
  Go.RunInv tasks s0 cs k done r -> (i < k)%nat ->
  Go.settled_as r !! i = Some <$> cs !! i.
Proof using Hall.
  intros Hinv Hi. destruct Hinv as [_ Hset _ _ _ Hk _ _ _]. rewrite Hset.
  rewrite lookup_app_l.
  - rewrite list_lookup_fmap. now rewrite lookup_take_lt.
  - rewrite length_fmap, length_take, cs_length. lia.
Qed.

Lemma step_start k done r :
  Go.RunInv tasks s0 cs k done r -> (k < length tasks)%nat ->
  Go.RunInv tasks s0 cs (S k) done (Go.step tasks (Go.Start k) r).
Proof using Hall.
  intros Hinv Hk.
  destruct (lookup_lt_is_Some_2 tasks k Hk) as [t Ht].
  destruct (spawn_all_step _ _ _ _ _ _ Hall Ht) as (c & Hc & Hrun).
  destruct Hinv as [Hsh Hset Hval Hrem Hout Hle Hnd Hdone Hpend].
  simpl. rewrite Ht. unfold Go.goroutine. rewrite Hsh, Hrun.
  constructor; simpl; try assumption; try lia.
  - reflexivity.
  - rewrite Hset. rewrite (take_S_r cs k c Hc).
    rewrite insert_app_r_alt by (rewrite length_fmap, length_take, cs_length; lia).
    rewrite length_fmap, length_take, cs_length.
    replace (k - k `min` length tasks)%nat with 0%nat by lia.
    replace (length tasks - k)%nat with (S (length tasks - S k)) by lia.
    simpl. rewrite fmap_app. simpl. now rewrite <- app_assoc.
  - intros i Hi. destruct (Hdone i Hi) as [Hlt Hv]. split; [lia | exact Hv].
Qed.

Lemma step_settle_reject k done r (i : nat) e :
  Go.RunInv tasks s0 cs k done r -> (i < k)%nat ->
  cs !! i = Some (Throw e) ->
  Go.outcome (Go.all (Go.step tasks (Go.Settle i) r)) = Some (Throw e).
Proof using Hall.
  intros Hinv Hi Hc. simpl.
  rewrite (settled_as_lookup _ _ _ _ Hinv Hi), Hc. simpl.
  unfold Go.settle. now rewrite (Go.inv_outcome _ _ _ _ _ _ Hinv).
Qed.

Lemma step_settle_fulfil k done r (i : nat) v :
  Go.RunInv tasks s0 cs k done r -> (i < k)%nat -> i ∉ done ->
  cs !! i = Some (Normal v) ->
  (S (length done) < length tasks)%nat ->
  Go.RunInv tasks s0 cs k (i :: done) (Go.step tasks (Go.Settle i) r).
Proof using Hall.
  intros Hinv Hi Hnew Hc Hmore. simpl.
  rewrite (settled_as_lookup _ _ _ _ Hinv Hi), Hc. simpl.
  destruct Hinv as [Hsh Hset Hval Hrem Hout Hle Hnd Hdone Hpend].
  rewrite Hrem.
  destruct (Nat.eqb_spec (Nat.pred (length tasks - length done)) 0) as [E|_]; [lia|].
  constructor; simpl; try assumption.
  - rewrite Hval. apply slots_insert; [lia | exact Hc].
  - lia.
  - now constructor.
  - intros j Hj. apply elem_of_cons in Hj as [->|Hj]; [|now apply Hdone].
    split; [exact Hi | now exists v].
Qed.

Lemma step_settle_last k done r (i : nat) v :
  Go.RunInv tasks s0 cs k done r -> (i < k)%nat -> i ∉ done ->
  cs !! i = Some (Normal v) ->
  S (length done) = length tasks ->
  Forall (fun c => is_normal c = true) cs /\
  k = length tasks /\
  Go.shared (Go.step tasks (Go.Settle i) r) = s_fin /\
  Go.outcome (Go.all (Go.step tasks (Go.Settle i) r))
  = Some (Normal (omap Go.fulfilled cs)).
Proof using Hall.
  intros Hinv Hi Hnew Hc Hlast. simpl.
  rewrite (settled_as_lookup _ _ _ _ Hinv Hi), Hc. simpl.
  destruct Hinv as [Hsh Hset Hval Hrem Hout Hle Hnd Hdone Hpend].
  rewrite Hrem.
  destruct (Nat.eqb_spec (Nat.pred (length tasks - length done)) 0) as [_|E]; [|lia].
  assert (Hfull : forall j, (j < length cs)%nat -> j ∈ i :: done).
  { rewrite cs_length. apply done_full.
    - now constructor.
    - intros j Hj. apply elem_of_cons in Hj as [->|Hj]; [lia|].
      destruct (Hdone j Hj). lia.
    - simpl. lia. }
  assert (Hok : forall j, j ∈ i :: done -> exists w, cs !! j = Some (Normal w)).
  { intros j Hj. apply elem_of_cons in Hj as [->|Hj]; [now exists v|].
    now destruct (Hdone j Hj). }
  destruct (slots_full cs (i :: done) Hfull Hok) as [Hn Hmap].
  assert (Hk : k = length tasks).
  { destruct (decide (k = length tasks)) as [|Hne]; [assumption|].
    assert (Hin : k ∈ i :: done) by (apply Hfull; rewrite cs_length; lia).
    apply elem_of_cons in Hin as [->|Hin]; [lia|].
    destruct (Hdone k Hin). lia. }
  split; [exact Hn|]. split; [exact Hk|]. split.
  - rewrite Hsh, Hk. now apply spawn_all_full with (cs := cs).
  - rewrite Hval, (slots_insert _ _ _ _ v) by (lia || exact Hc).
    rewrite <- cs_length, Hmap. unfold Go.settle. simpl. now rewrite Hout.
Qed.

Lemma first_rejection_normal evs :
  Forall (fun c => is_normal c = true) cs -> Go.first_rejection evs cs = None.
Proof.
  intros Hn. induction evs as [|[i|i] evs IH]; simpl; try assumption; [reflexivity|].
  destruct (cs !! i) as [c|] eqn:Hc; [|assumption].
  pose proof (proj1 (Forall_lookup _ _) Hn i c Hc) as Hci.
  destruct c; [assumption | discriminate].
Qed.

Lemma first_rejection_Some evs (j : nat) e :
  Go.first_rejection evs cs = Some (j, e) -> cs !! j = Some (Throw e).
Proof.
  induction evs as [|[i|i] evs IH]; simpl; try assumption; [discriminate|].
  destruct (cs !! i) as [[v|e']|] eqn:Hc; try assumption.
  now intros [= <- <-].
Qed.

Lemma schedule_over k done evs :
  NoDup done -> (forall i, i ∈ done -> (i < length tasks)%nat) ->
  length done = length tasks -> k = length tasks ->
  Go.schedule_from (length tasks) k done evs = true -> evs = [].
Proof.
  intros Hnd Hlt Hlen -> Hwf. destruct evs as [|[i|i] evs]; [reflexivity| |].
  - simpl in Hwf. apply andb_prop in Hwf as [Hwf _].
    apply andb_prop in Hwf as [_ Hwf]. apply Nat.ltb_lt in Hwf. lia.
  - simpl in Hwf. apply andb_prop in Hwf as [Hwf _].
    apply andb_prop in Hwf as [Hi Hnew]. apply Nat.ltb_lt in Hi.
    apply negb_true_iff, bool_decide_eq_false in Hnew.
    destruct Hnew. now apply (done_full (length tasks)).
Qed.

(** A run along a schedule ends with the aggregate promise settled:
    rejected by the first rejection, the caller resuming there, or
    resolved by the last fulfilment. *)
Lemma run_schedule evs : forall k done r,
  Go.RunInv tasks s0 cs k done r ->
  Go.schedule_from (length tasks) k done evs = true ->
  exists r' rest,
    Go.run tasks evs r = (r', rest) /\
    match Go.first_rejection evs cs with
    | Some (_, e) =>
        Go.outcome (Go.all r') = Some (Throw e) /\
        Go.shared r' = (Go.spawn_all (take (Go.resume evs cs k).1 tasks) s0).2 /\
        rest = (Go.resume evs cs k).2
    | None =>
        Go.outcome (Go.all r') = Some (Normal (omap Go.fulfilled cs)) /\
        Forall (fun c => is_normal c = true) cs /\
        rest = [] /\ Go.shared r' = s_fin
    end.
Proof using Hall.
  induction evs as [|ev evs IH]; intros k done r Hinv Hwf.
  - simpl in Hwf. apply andb_prop in Hwf as [_ Hd]. apply Nat.eqb_eq in Hd.
    pose proof (Go.inv_pending _ _ _ _ _ _ Hinv). lia.
  - cbn [Go.run]. rewrite (Go.inv_outcome _ _ _ _ _ _ Hinv).
    destruct ev as [i|i]; simpl in Hwf.
    + apply andb_prop in Hwf as [Hwf Hrest]. apply andb_prop in Hwf as [Hi Hk].
      apply Nat.eqb_eq in Hi as ->. apply Nat.ltb_lt in Hk.
      cbn [Go.first_rejection Go.resume].
      apply (IH (S k) done); [now apply step_start | exact Hrest].
    + apply andb_prop in Hwf as [Hwf Hrest]. apply andb_prop in Hwf as [Hi Hnew].
      apply Nat.ltb_lt in Hi.
      apply negb_true_iff, bool_decide_eq_false in Hnew.
      assert (Hlt : (i < length cs)%nat).
      { rewrite cs_length. pose proof (Go.inv_started _ _ _ _ _ _ Hinv). lia. }
      destruct (lookup_lt_is_Some_2 cs i Hlt) as [[v|e] Hc].
      * cbn [Go.first_rejection Go.resume]. rewrite Hc.
        pose proof (Go.inv_pending _ _ _ _ _ _ Hinv) as Hpend.
        destruct (decide (S (length done) < length tasks)%nat) as [Hmore|Hlast].
        -- apply (IH k (i :: done)); [|exact Hrest].
           now apply step_settle_fulfil with (v := v).
        -- destruct (step_settle_last _ _ _ _ v Hinv Hi Hnew Hc)
             as (Hn & Hk & Hsh & Hout); [lia|].
           eexists _, _. split; [eapply run_settled; exact Hout|].
           rewrite (first_rejection_normal evs Hn).
           repeat split; try assumption.
           destruct Hinv as [_ _ _ _ _ _ Hnd Hdone _].
           apply (schedule_over k (i :: done)); try assumption.
           ++ now constructor.
           ++ intros j Hj. apply elem_of_cons in Hj as [->|Hj]; [lia|].
              destruct (Hdone j Hj). lia.
           ++ simpl. lia.
      * cbn [Go.first_rejection Go.resume]. rewrite Hc.
        pose proof (step_settle_reject _ _ _ _ _ Hinv Hi Hc) as Hout.
        eexists _, _. split; [eapply run_settled; exact Hout|].
        split; [exact Hout|]. split; [|reflexivity].
        simpl. rewrite (settled_as_lookup _ _ _ _ Hinv Hi), Hc. simpl.
        exact (Go.inv_shared _ _ _ _ _ _ Hinv).
Qed.

(** The goroutines still queued run to the end of the schedule, whoever
    is waiting: the shared state ends as if all tasks had run. *)
Lemma background_schedule evs : forall k done,
  Go.schedule_from (length tasks) k done evs = true ->
  Go.background tasks evs (Go.spawn_all (take k tasks) s0).2 = s_fin.
Proof using Hall.
  induction evs as [|[i|i] evs IH]; intros k done Hwf; cbn [Go.schedule_from] in Hwf.
  - apply andb_prop in Hwf as [Hk _]. apply Nat.eqb_eq in Hk. subst k.
    simpl. now apply spawn_all_full with (cs := cs).
  - apply andb_prop in Hwf as [Hwf Hrest]. apply andb_prop in Hwf as [Hi Hk].
    apply Nat.eqb_eq in Hi. subst i. apply Nat.ltb_lt in Hk.
    destruct (lookup_lt_is_Some_2 tasks k Hk) as [t Ht].
    destruct (spawn_all_step _ _ _ _ _ _ Hall Ht) as (c & _ & Hrun).
    cbn [Go.background]. rewrite Ht. unfold Go.goroutine. rewrite Hrun. cbn [snd].
    now apply (IH (S k) done).
  - apply andb_prop in Hwf as [_ Hrest]. cbn [Go.background].
    now apply (IH k (i :: done)).
Qed.

(** Where a run is rejected: the schedule splits at the settlement of
    the first goroutine to fail; the goroutines started before that
    point have run, the others run afterwards. *)
Lemma rejection_point evs (j : nat) e : forall k done,
  Go.schedule_from (length tasks) k done evs = true ->
  Go.first_rejection evs cs = Some (j, e) ->
  exists before after,
    evs = before ++ Go.Settle j :: after /\
    cs !! j = Some (Throw e) /\
    (forall (i : nat) e0, Go.Settle i ∈ before -> cs !! i <> Some (Throw e0)) /\
    (Go.resume evs cs k).2 = after /\
    (Go.spawn_all (take (Go.resume evs cs k).1 tasks) s0).2
    = Go.background tasks before (Go.spawn_all (take k tasks) s0).2 /\
    Go.background tasks after
      (Go.background tasks before (Go.spawn_all (take k tasks) s0).2) = s_fin.
Proof using Hall.
  induction evs as [|[i|i] evs IH]; intros k done Hwf Hrej;
    cbn [Go.schedule_from Go.first_rejection Go.resume] in *.
  - discriminate Hrej.
  - apply andb_prop in Hwf as [Hwf Hrest]. apply andb_prop in Hwf as [Hi Hk].
    apply Nat.eqb_eq in Hi. subst i. apply Nat.ltb_lt in Hk.
    destruct (lookup_lt_is_Some_2 tasks k Hk) as [t Ht].
    destruct (spawn_all_step _ _ _ _ _ _ Hall Ht) as (c & _ & Hrun).
    destruct (IH (S k) done Hrest Hrej) as (before & after & -> & Hj & Hok & Hafter & Hst & Hend).
    exists (Go.Start k :: before), after.
    split; [reflexivity|]. split; [exact Hj|]. split.
    { intros i e0 Hin. apply elem_of_cons in Hin as [Hin|Hin]; [discriminate Hin|].
      now apply Hok. }
    split; [exact Hafter|].
    cbn [Go.background]. rewrite Ht. unfold Go.goroutine. rewrite Hrun. cbn [snd].
    split; [exact Hst | exact Hend].
  - apply andb_prop in Hwf as [_ Hrest].
    destruct (cs !! i) as [[v|e1]|] eqn:Hc.
    + destruct (IH k (i :: done) Hrest Hrej)
        as (before & after & -> & Hj & Hok & Hafter & Hst & Hend).
      exists (Go.Settle i :: before), after.
      split; [reflexivity|]. split; [exact Hj|]. split.
      { intros i' e0 Hin. apply elem_of_cons in Hin as [Hin|Hin]; [|now apply Hok].
        injection Hin as ->. rewrite Hc. discriminate. }
      split; [exact Hafter|]. cbn [Go.background]. split; [exact Hst | exact Hend].
    + injection Hrej as <- <-. exists [], evs.
      split; [reflexivity|]. split; [exact Hc|]. split.
      { intros i' e0 Hin. now apply elem_of_nil in Hin. }
      split; [reflexivity|]. cbn [Go.background fst]. split; [reflexivity|].
      now apply (background_schedule evs k (i :: done)).
    + destruct (IH k (i :: done) Hrest Hrej)
        as (before & after & -> & Hj & Hok & Hafter & Hst & Hend).
      exists (Go.Settle i :: before), after.
      split; [reflexivity|]. split; [exact Hj|]. split.
      { intros i' e0 Hin. apply elem_of_cons in Hin as [Hin|Hin]; [|now apply Hok].
        injection Hin as ->. rewrite Hc. discriminate. }
      split; [exact Hafter|]. cbn [Go.background]. split; [exact Hst | exact Hend].
Qed.

End Schedule.

Lemma slots_nil (cs : list (Completion V)) (n : nat) :
  Go.slots cs n [] = replicate n None.
Proof.
  apply list_eq. intros j. destruct (decide (j < n)%nat) as [Hj|Hj].
  - rewrite slots_lookup by exact Hj. now rewrite lookup_replicate_2.
  - rewrite !lookup_ge_None_2; [reflexivity | |].
    + rewrite length_replicate. lia.
    + rewrite slots_length. lia.
Qed.

Lemma run_init_inv tasks s cs s' :
  Go.spawn_all tasks s = (cs, s') -> tasks <> [] ->
  Go.RunInv tasks s cs 0 [] (Go.run_init (length tasks) s).
Proof.
  intros Hall Hne.
  assert (Hpos : (0 < length tasks)%nat) by (destruct tasks; [congruence | simpl; lia]).
  constructor; simpl; try lia.
  - reflexivity.
  - now rewrite Nat.sub_0_r.
  - now rewrite slots_nil.
  - destruct (Nat.eqb_spec (length tasks) 0); [lia | reflexivity].
  - constructor.
  - intros i Hi. now apply elem_of_nil in Hi.
Qed.

(** How [go.concurrent] settles under any schedule of the event loop,
    from the completions [cs] of the tasks run in list order. *)
Lemma concurrent_settles evs tasks s cs s' :
  Go.spawn_all tasks s = (cs, s') ->
  Go.schedule (length tasks) evs = true ->
  Go.concurrent evs tasks s =
  match Go.first_rejection evs cs with
  | Some (_, e) =>
      (Some (Throw e),
       (Go.spawn_all (take (Go.resume evs cs 0).1 tasks) s).2,
       (Go.resume evs cs 0).2)
  | None => (Some (Normal (omap Go.fulfilled cs)), s', [])
  end /\
  (Go.first_rejection evs cs = None -> Forall (fun c => is_normal c = true) cs).
Proof.
  intros Hall Hwf. destruct tasks as [|t ts].
  - simpl in Hall. injection Hall as <- <-.
    destruct evs as [|[i|i] evs];
      [| unfold Go.schedule in Hwf; simpl in Hwf; destruct (Nat.eqb i 0); discriminate Hwf
       | discriminate Hwf].
    split; [reflexivity|]. intros _. constructor.
  - destruct (run_schedule _ _ _ _ Hall evs 0%nat [] _
                (run_init_inv _ _ _ _ Hall ltac:(discriminate)) Hwf)
      as (r' & rest & Hrun & Hres).
    unfold Go.concurrent. rewrite Hrun.
    destruct (Go.first_rejection evs cs) as [[j e]|].
    + destruct Hres as (Hout & Hsh & Hrest). rewrite Hout, Hsh, Hrest.
      split; [reflexivity | discriminate].
    + destruct Hres as (Hout & Hn & Hrest & Hsh). rewrite Hout, Hrest, Hsh.
      split; [reflexivity|]. intros _. exact Hn.
Qed.

(** Awaiting tasks that have no suspension point. *)
Lemma sync_schedule_3 : Go.schedule 3 (Go.sync_schedule 3) = true.
Proof. reflexivity. Qed.

Lemma sync_schedule_4 : Go.schedule 4 (Go.sync_schedule 4) = true.
Proof. reflexivity. Qed.

End GoConcurrent.

(* --------------------------------------------------------------------- *)
(** ** The ownership handle *)
(* --------------------------------------------------------------------- *)

(** C6.  For every handle made by [rust.own]: a borrow that follows a
    borrow finds the handle borrowed and throws, leaving the handle as it
    is; a borrow that follows [drop] throws; a second [drop] changes
    nothing and throws nothing ([drop] cannot throw).  A fresh handle
    lends its resource once.  The code has one error for both refusals,
    [Error('Cannot borrow: resource already borrowed or dropped')]. *)
Theorem own_borrow_drop_discipline {T : Type} (h : Rust.Owned T) (res : T) (life : string) :
  (Rust.borrow (Rust.own res life)).1 = Normal res /\
  Rust.borrow (Rust.borrow h).2 = (Throw Rust.borrow_error, (Rust.borrow h).2) /\
  Rust.borrow (Rust.drop h) = (Throw Rust.borrow_error, Rust.drop h) /\
  Rust.drop (Rust.drop h) = Rust.drop h.
Proof.
  repeat split.
  - unfold Rust.borrow.
    destruct (Rust.borrowed h || Rust.dropped h) eqn:E; simpl.
    + now rewrite E.
    + reflexivity.
  - apply borrow_dropped, drop_dropped.
  - unfold Rust.drop at 1. now rewrite drop_dropped.
Qed.

(* --------------------------------------------------------------------- *)
(** ** The concurrent task runner *)
(* --------------------------------------------------------------------- *)

(** C1, as stated, fails: with a failing second task, [go.concurrent]
    rejects with that task's error when it settles; the caller resumes
    with no result list, and the third goroutine has not started yet. *)
Lemma concurrent_short_circuits :
  Go.schedule 3 (Go.sync_schedule 3) = true /\
  Go.concurrent (Go.sync_schedule 3) Samples.tasks_failing 0%nat
  = (Some (Throw (Error "boom")), 2%nat, [Go.Start 2; Go.Settle 2]) /\
  ~ (exists results : list Z,
       (Go.concurrent (Go.sync_schedule 3) Samples.tasks_failing 0%nat).1.1
       = Some (Normal results) /\ length results = 3%nat).
Proof.
  split; [reflexivity|]. split; [reflexivity|].
  intros (results & H & _). discriminate H.
Qed.

(** C1, amended.  Let the tasks complete as [cs] when run in list order.
    Under every schedule of the event loop: if all of them succeed,
    [go.concurrent] returns the list of their values, of the length of
    the task list and in task order whatever the order of completion,
    once all have finished, with no event left.  If one fails, the
    schedule splits at the settlement of the first task to fail in
    completion order: no task that settled before it failed, and the
    caller resumes at that very event with that task's error and no
    list, in the state left by the goroutines started [before] it, the
    events [after] it still to come.  The goroutines among them run
    afterwards, unobserved: the shared state ends as if every task had
    run. *)
Theorem concurrent_all_or_first_rejection {St V : Type}
    (evs : list Go.Event) (tasks : list (Go.Task St V)) (s : St)
    (cs : list (Completion V)) (s' : St) :
  Go.spawn_all tasks s = (cs, s') ->
  Go.schedule (length tasks) evs = true ->
  (Forall (fun c => is_normal c = true) cs ->
   exists vs, cs = Normal <$> vs /\ length vs = length tasks /\
              Go.concurrent evs tasks s = (Some (Normal vs), s', [])) /\
  (forall (i : nat) e, cs !! i = Some (Throw e) ->
   exists (j : nat) e' before after,
     evs = before ++ Go.Settle j :: after /\
     Go.first_rejection evs cs = Some (j, e') /\ cs !! j = Some (Throw e') /\
     (forall (i' : nat) e'', Go.Settle i' ∈ before -> cs !! i' <> Some (Throw e'')) /\
     Go.concurrent evs tasks s
     = (Some (Throw e'), Go.background tasks before s, after) /\
     Go.background tasks after (Go.background tasks before s) = s').
Proof.
  intros Hall Hwf.
  destruct (concurrent_settles _ _ _ _ _ Hall Hwf) as (Hrun & Hnone).
  split.
  - intros Hn. rewrite (first_rejection_normal cs evs Hn) in Hrun.
    exists (omap Go.fulfilled cs). split; [now apply all_normal|]. split; [|exact Hrun].
    rewrite <- (cs_length _ _ _ _ Hall). rewrite (all_normal cs Hn) at 2.
    now rewrite length_fmap.
  - intros i e Hi.
    destruct (Go.first_rejection evs cs) as [[j e']|] eqn:Hf.
    + destruct (rejection_point _ _ _ _ Hall evs j e' 0%nat [] Hwf Hf)
        as (before & after & Hsplit & Hj & Hok & Hafter & Hst & Hend).
      cbn [take Go.spawn_all snd] in Hst, Hend.
      exists j, e', before, after. split; [exact Hsplit|]. split; [reflexivity|].
      split; [exact Hj|]. split; [exact Hok|]. split; [|exact Hend].
      rewrite Hrun, Hst, Hafter. reflexivity.
    + pose proof (proj1 (Forall_lookup _ _) (Hnone eq_refl) i _ Hi) as Hbad.
      discriminate Hbad.
Qed.

Lemma concurrent_all_or_first_rejection_witness :
  (exists vs, [Normal 1; Normal 2; Normal 3] = Normal <$> vs /\ length vs = 3%nat /\
              Go.concurrent Samples.shuffled Samples.tasks_ok 0%nat
              = (Some (Normal vs), 3%nat, [])) /\
  (exists (j : nat) e' before after,
     Samples.shuffled = before ++ Go.Settle j :: after /\
     Go.first_rejection Samples.shuffled
       [Normal 1; Throw (Error "boom"); Normal 3] = Some (j, e') /\
     [Normal 1; Throw (Error "boom"); Normal 3] !! j = Some (Throw e') /\
     (forall (i' : nat) e'',
        Go.Settle i' ∈ before ->
        [Normal 1; Throw (Error "boom"); Normal 3] !! i' <> Some (Throw e'')) /\
     Go.concurrent Samples.shuffled Samples.tasks_failing 0%nat
     = (Some (Throw e'), Go.background Samples.tasks_failing before 0%nat, after) /\
     Go.background Samples.tasks_failing after
       (Go.background Samples.tasks_failing before 0%nat) = 3%nat).
Proof.
  split.
  - apply (concurrent_all_or_first_rejection Samples.shuffled Samples.tasks_ok 0%nat
             [Normal 1; Normal 2; Normal 3] 3%nat eq_refl eq_refl).
    repeat constructor.
  - apply (proj2 (concurrent_all_or_first_rejection Samples.shuffled Samples.tasks_failing
                    0%nat [Normal 1; Throw (Error "boom"); Normal 3] 3%nat eq_refl eq_refl)
             1%nat (Error "boom")).
    reflexivity.
Defined.

(* --------------------------------------------------------------------- *)
(** ** The isolation module *)
(* --------------------------------------------------------------------- *)

Section Isolation.
Variable h : Host.
Implicit Types (s : IsolationModule.State) (config : JsVal).

Lemma suffix_ne (containerId a b : string) :
  a <> b -> containerId +:+ a <> containerId +:+ b.
Proof. intros Hne Heq. apply Hne. now apply (String.app_inj containerId). Qed.

Lemma createNamespace_spec type name s :
  IsolationModule.createNamespace h type name s
  = (Normal (Rust.ok (JObj [("namespace", JStr name); ("type", JStr type);
                            ("pid", JNum (JsNumber.of_Z (process_pid h)));
                            ("isolated", JBool true)])),
     {| IsolationModule.base := IsolationModule.base s;
        IsolationModule.namespaces_map :=
          <[name := Linux.namespace type]> (IsolationModule.namespaces_map s);
        IsolationModule.cgroups_map := IsolationModule.cgroups_map s;
        IsolationModule.containers := IsolationModule.containers s |}).
Proof. reflexivity. Qed.

(** [createNamespace] never fails: whatever the table holds under
    [name], it answers with an Ok result and the table maps [name] to a
    fresh, empty namespace. *)
Lemma createNamespace_overwrites type name s :
  exists r s',
    IsolationModule.createNamespace h type name s = (Normal r, s') /\
    Rust.isOk r = true /\ Rust.error r = None /\
    IsolationModule.namespaces_map s' !! name = Some (Linux.namespace type).
Proof.
  eexists _, _. split; [apply createNamespace_spec|]. simpl.
  repeat split. apply lookup_insert_eq.
Qed.

End Isolation.

(** C8 meets a defect of the code.  A namespace ["box"] of type [pid]
    holds process 7; [createNamespace('net', 'box')] then returns an Ok
    result, and the table maps ["box"] to a new, empty [net] namespace:
    the call neither fails nor keeps the namespace that was there. *)
Theorem createNamespace_duplicate_replaced :
  let s0 := (IsolationModule.createNamespace Samples.host0 "pid" "box" IsolationModule.new).2 in
  let s1 :=
    {| IsolationModule.base := IsolationModule.base s0;
       IsolationModule.namespaces_map :=
         Linux.enter 7 <$> IsolationModule.namespaces_map s0;
       IsolationModule.cgroups_map := IsolationModule.cgroups_map s0;
       IsolationModule.containers := IsolationModule.containers s0 |} in
  let '(c, s2) := IsolationModule.createNamespace Samples.host0 "net" "box" s1 in
  IsolationModule.namespaces_map s1 !! "box"
  = Some {| Linux.ns_type := "pid"; Linux.ns_processes := [7]; Linux.ns_isolated := true |} /\
  (Rust.isOk <$> Go.fulfilled c) = Some true /\
  IsolationModule.namespaces_map s2 !! "box"
  = Some {| Linux.ns_type := "net"; Linux.ns_processes := []; Linux.ns_isolated := true |}.
Proof. vm_compute. repeat split. Qed.

(** C3, as stated, fails: with no [config] the control-group task
    throws, and [isolateContainer] throws in turn, a [TypeError] that
    carries no result of the three namespace tasks. *)
Lemma isolateContainer_throws :
  fst <$> IsolationModule.isolateContainer Samples.host0 "c1" JUndefined IsolationModule.new
  = Some (Throw (TypeError "Cannot read properties of undefined (reading 'resources')")) /\
  ~ (exists r s',
       IsolationModule.isolateContainer Samples.host0 "c1" JUndefined IsolationModule.new
       = Some (Normal r, s')).
Proof.
  split; [vm_compute; reflexivity|].
  intros (r & s' & H). apply (f_equal (fmap fst)) in H. vm_compute in H. discriminate H.
Qed.

Lemma isolationTasks_spawn (h : Host) (containerId : string) (config : JsVal)
    (s : IsolationModule.State) :
  let s1 := (IsolationModule.createNamespace h "pid" (containerId +:+ "_pid") s).2 in
  let s2 := (IsolationModule.createNamespace h "net" (containerId +:+ "_net") s1).2 in
  let s3 := (IsolationModule.createNamespace h "mnt" (containerId +:+ "_mnt") s2).2 in
  Go.spawn_all (IsolationModule.isolationTasks h containerId config) s =
  match Js.get_prop config "resources" with
  | Throw e =>
      ([(IsolationModule.createNamespace h "pid" (containerId +:+ "_pid") s).1;
        (IsolationModule.createNamespace h "net" (containerId +:+ "_net") s1).1;
        (IsolationModule.createNamespace h "mnt" (containerId +:+ "_mnt") s2).1;
        Throw e], s3)
  | Normal resources =>
      ([(IsolationModule.createNamespace h "pid" (containerId +:+ "_pid") s).1;
        (IsolationModule.createNamespace h "net" (containerId +:+ "_net") s1).1;
        (IsolationModule.createNamespace h "mnt" (containerId +:+ "_mnt") s2).1;
        (IsolationModule.createCgroup containerId (Js.or resources (JObj [])) s3).1],
       (IsolationModule.createCgroup containerId (Js.or resources (JObj [])) s3).2)
  end.
Proof.
  intros s1 s2 s3. unfold IsolationModule.isolationTasks.
  cbn [Go.spawn_all bind lift_completion].
  destruct (Js.get_prop config "resources") as [resources|e]; reflexivity.
Qed.

(** C3, amended.  The three namespace tasks of [isolateContainer] cannot
    fail; the control-group task fails exactly when reading
    [config.resources] throws ([config] is [undefined] or [null]).  Then
    the whole operation fails by throwing that error, with no result of
    the tasks that succeeded; the three namespaces they created stay in
    the table (no rollback), and neither a control group nor the
    container is registered.  Otherwise the operation returns an Ok
    result. *)
Theorem isolateContainer_outcome (h : Host) (containerId : string) (config : JsVal)
    (s : IsolationModule.State) :
  let s3 :=
    (IsolationModule.createNamespace h "mnt" (containerId +:+ "_mnt")
       (IsolationModule.createNamespace h "net" (containerId +:+ "_net")
          (IsolationModule.createNamespace h "pid" (containerId +:+ "_pid") s).2).2).2 in
  match Js.get_prop config "resources" with
  | Throw e =>
      IsolationModule.isolateContainer h containerId config s = Some (Throw e, s3) /\
      IsolationModule.namespaces_map s3 !! (containerId +:+ "_pid") = Some (Linux.namespace "pid") /\
      IsolationModule.namespaces_map s3 !! (containerId +:+ "_net") = Some (Linux.namespace "net") /\
      IsolationModule.namespaces_map s3 !! (containerId +:+ "_mnt") = Some (Linux.namespace "mnt") /\
      IsolationModule.cgroups_map s3 = IsolationModule.cgroups_map s /\
      IsolationModule.containers s3 = IsolationModule.containers s
  | Normal resources =>
      exists r s',
        IsolationModule.isolateContainer h containerId config s = Some (Normal r, s') /\
        Rust.isOk r = true /\
        IsolationModule.namespaces_map s' = IsolationModule.namespaces_map s3
  end.
Proof.
  intros s3.
  pose proof (isolationTasks_spawn h containerId config s) as Hs. cbv zeta in Hs.
  unfold IsolationModule.isolateContainer.
  set (tasks := IsolationModule.isolationTasks h containerId config) in *.
  change (length tasks) with 4%nat.
  destruct (Js.get_prop config "resources") as [resources|e] eqn:E.
  - destruct (concurrent_settles (Go.sync_schedule 4) tasks s _ _ Hs sync_schedule_4)
      as [Hc _]. rewrite Hc. clear Hc.
    rewrite !createNamespace_spec.
    cbn [Go.first_rejection Go.sync_schedule flat_map seq app lookup list_lookup
         Go.resume fst snd IsolationModule.createCgroup omap list_omap Go.fulfilled
         Go.background].
    eexists _, _. split; [reflexivity|]. split; reflexivity.
  - destruct (concurrent_settles (Go.sync_schedule 4) tasks s _ _ Hs sync_schedule_4)
      as [Hc _]. rewrite Hc. clear Hc.
    rewrite !createNamespace_spec.
    cbn [Go.first_rejection Go.sync_schedule flat_map seq app lookup list_lookup
         Go.resume fst snd Go.background].
    split.
    + change (take 4 tasks) with tasks. now rewrite Hs.
    + subst s3. rewrite !createNamespace_spec. simpl.
      repeat split.
      * rewrite lookup_insert_ne by (apply suffix_ne; discriminate).
        rewrite lookup_insert_ne by (apply suffix_ne; discriminate).
        apply lookup_insert_eq.
      * rewrite lookup_insert_ne by (apply suffix_ne; discriminate).
        apply lookup_insert_eq.
      * apply lookup_insert_eq.
Qed.

(* --------------------------------------------------------------------- *)
(** ** The image module *)
(* --------------------------------------------------------------------- *)

Section JsMapFacts.
Context {V : Type}.
Implicit Types (m : list (string * V)).

Lemma get_set_eq k (v : V) m : JsMap.get k (JsMap.set k v m) = Some v.
Proof.
  induction m as [|[k' v'] m IH]; simpl.
  - now rewrite String.eqb_refl.
  - destruct (String.eqb k k') eqn:E; simpl; rewrite ?String.eqb_refl, ?E; auto.
Qed.

Lemma get_set_ne k k' (v : V) m : k <> k' -> JsMap.get k' (JsMap.set k v m) = JsMap.get k' m.
Proof.
  intros Hne. induction m as [|[k0 v0] m IH]; simpl.
  - destruct (String.eqb_spec k' k); [congruence | reflexivity].
  - destruct (String.eqb_spec k k0) as [->|Hk]; simpl.
    + destruct (String.eqb_spec k' k0); [congruence | reflexivity].
    + destruct (String.eqb_spec k' k0); [reflexivity | exact IH].
Qed.

Lemma get_Some_elem k m (v : V) : JsMap.get k m = Some v -> (k, v) ∈ m.
Proof.
  induction m as [|[k0 v0] m IH]; simpl; [discriminate|].
  destruct (String.eqb_spec k k0) as [->|Hne].
  - intros [= ->]. apply list_elem_of_here.
  - intros H. apply list_elem_of_further. now apply IH.
Qed.

End JsMapFacts.

Section Image.
Implicit Types (w : Inputs) (s : ImageModule.State) (ctx : ImageModule.Context).

Lemma layer_kind w instruction (index : nat) :
  ImageModule.layer_type (ImageModule.layer w instruction index)
  = Some (JStr (ImageModule.spec_kind_of_verb (ImageModule.command instruction))).
Proof.
  unfold ImageModule.layer, ImageModule.spec_kind_of_verb.
  repeat match goal with
         | |- context [String.eqb ?a ?b] => destruct (String.eqb a b); simpl
         end; reflexivity.
Qed.

Lemma imap_layer_shift w (rest : list ImageModule.Instruction) (k : nat) :
  imap ((fun i x => ImageModule.layer w x (k + i)) ∘ S) rest
  = imap (fun i x => ImageModule.layer w x (S k + i)) rest.
Proof. apply imap_ext. intros i x _. simpl. f_equal. lia. Qed.

(** The loop pushes one layer per instruction, in order, and does not
    throw. *)
Lemma buildLayers_spec w instructions : forall (index : nat) ctx,
  ImageModule.buildLayers w instructions index ctx
  = Normal {| ImageModule.ctx_name := ImageModule.ctx_name ctx;
              ImageModule.ctx_instructions := ImageModule.ctx_instructions ctx;
              ImageModule.ctx_layers :=
                ImageModule.ctx_layers ctx ++
                imap (fun i ins => ImageModule.layer w ins (index + i)) instructions;
              ImageModule.ctx_metadata := ImageModule.ctx_metadata ctx |}.
Proof.
  induction instructions as [|ins rest IH]; intros index ctx; simpl.
  - rewrite app_nil_r. now destruct ctx.
  - unfold ImageModule.buildLayer. rewrite IH. simpl.
    rewrite <- app_assoc. simpl. rewrite Nat.add_0_r.
    now rewrite imap_layer_shift.
Qed.

(** What [buildImage] does, by the outcome of reading the build
    file. *)
Lemma buildImage_spec w name dockerfile s :
  ImageModule.buildImage w name dockerfile s =
  match readFile w dockerfile with
  | Throw e => (Normal (Rust.result JNull (Some (message e))), s)
  | Normal content =>
      let built := imap (fun i ins => ImageModule.layer w ins i)
                        (ImageModule.parseDockerfile content) in
      let imageId := ImageModule.generateImageId (now w 1) name built in
      (Normal (Rust.ok (JObj [("imageId", JStr imageId); ("name", JStr name);
                              ("tag", JStr "latest");
                              ("layers", JNum (JsNumber.of_Z (Z.of_nat (length built))));
                              ("size", JNum (ImageModule.total_size built))])),
       ImageModule.set_images
         (JsMap.set (name +:+ ":latest")
            {| ImageModule.id := imageId; ImageModule.name := name;
               ImageModule.tag := "latest"; ImageModule.layers := built;
               ImageModule.metadata :=
                 JObj [("created", JStr (JsDate.toISOString (now w 0)));
                       ("author", JStr "docker-nexus");
                       ("architecture", JStr (process_arch (host w)));
                       ("os", JStr (process_platform (host w)))];
               ImageModule.size := ImageModule.total_size built |}) s)
  end.
Proof.
  unfold ImageModule.buildImage, ImageModule.build, try_catch, bind, lift_completion.
  destruct (readFile w dockerfile) as [content|e]; [|reflexivity].
  simpl. rewrite buildLayers_spec. reflexivity.
Qed.

End Image.

Lemma imap_kinds (w : Inputs) (instructions : list ImageModule.Instruction) : forall k : nat,
  Forall2 (fun ins layer =>
             ImageModule.layer_type layer
             = Some (JStr (ImageModule.spec_kind_of_verb (ImageModule.command ins))))
          instructions
          (imap (fun i ins => ImageModule.layer w ins (k + i)) instructions).
Proof.
  induction instructions as [|ins rest IH]; intros k; simpl; constructor.
  - apply layer_kind.
  - rewrite imap_layer_shift. apply (IH (S k)).
Qed.

(** C9.  A build whose build file reads as [content] succeeds and
    registers an image with exactly one layer per parsed instruction, in
    instruction order, the [type] of each layer being the kind of its
    verb; a verb outside the known ones gives a layer of kind [unknown]
    and the build goes on.  The build file
    [FROM alpine / RUN apk add curl / EXPOSE 8080] gives three layers of
    kinds [base], [run], [expose]. *)
Theorem build_one_layer_per_instruction (w : Inputs) (name dockerfile content : string)
    (s : ImageModule.State) :
  readFile w dockerfile = Normal content ->
  (exists r s' image,
     ImageModule.buildImage w name dockerfile s = (Normal r, s') /\
     Rust.isOk r = true /\
     JsMap.get (name +:+ ":latest") (ImageModule.images s') = Some image /\
     length (ImageModule.layers image) = length (ImageModule.parseDockerfile content) /\
     Forall2 (fun ins layer =>
                ImageModule.layer_type layer
                = Some (JStr (ImageModule.spec_kind_of_verb (ImageModule.command ins))))
             (ImageModule.parseDockerfile content) (ImageModule.layers image)) /\
  (forall verb,
     verb ∉ ["FROM"; "RUN"; "COPY"; "ADD"; "ENV"; "EXPOSE"; "CMD"; "ENTRYPOINT"] ->
     ImageModule.spec_kind_of_verb verb = "unknown") /\
  List.map ImageModule.command (ImageModule.parseDockerfile Samples.dockerfile)
  = ["FROM"; "RUN"; "EXPOSE"] /\
  List.map ImageModule.layer_type
    (imap (fun i ins => ImageModule.layer w ins i)
          (ImageModule.parseDockerfile Samples.dockerfile))
  = [Some (JStr "base"); Some (JStr "run"); Some (JStr "expose")].
Proof.
  intros Hread. split; [|split; [|split]].
  - rewrite buildImage_spec, Hread. simpl.
    eexists _, _, _. split; [reflexivity|]. split; [reflexivity|].
    split; [apply get_set_eq|]. simpl. split.
    + now rewrite length_imap.
    + apply (imap_kinds w _ 0%nat).
  - intros verb Hverb. unfold ImageModule.spec_kind_of_verb.
    repeat match goal with
           | |- context [String.eqb ?a ?b] =>
               destruct (String.eqb_spec a b) as [->|?]; simpl
           end; try reflexivity; exfalso; apply Hverb; set_solver.
  - reflexivity.
  - reflexivity.
Qed.

Lemma build_one_layer_per_instruction_witness :
  exists r s' image,
    ImageModule.buildImage Samples.w0 "app" "Dockerfile" ImageModule.new = (Normal r, s') /\
    Rust.isOk r = true /\
    JsMap.get "app:latest" (ImageModule.images s') = Some image /\
    length (ImageModule.layers image) = 3%nat /\
    List.map ImageModule.layer_type (ImageModule.layers image)
    = [Some (JStr "base"); Some (JStr "run"); Some (JStr "expose")].
Proof.
  destruct (build_one_layer_per_instruction Samples.w0 "app" "Dockerfile"
              Samples.dockerfile ImageModule.new ltac:(reflexivity))
    as [(r & s' & image & Hb & Hok & Hget & Hlen & _) _].
  exists r, s', image. repeat split; try assumption.
  rewrite buildImage_spec in Hb. simpl in Hb. injection Hb as <- <-.
  simpl in Hget. injection Hget as <-. reflexivity.
Defined.

(** C7.  [buildImage] never throws: it returns a result.  When reading
    the build file fails, the result is the failure made of the error
    message and the module is left as it was, image store included.
    When the file is read, the build succeeds: processing an instruction
    cannot throw in this code, so a failed read is the only way for a
    build to fail. *)
Theorem buildImage_failure_registers_nothing (w : Inputs) (name dockerfile : string)
    (s : ImageModule.State) :
  exists r s',
    ImageModule.buildImage w name dockerfile s = (Normal r, s') /\
    match readFile w dockerfile with
    | Throw e =>
        r = Rust.result JNull (Some (message e)) /\ s' = s /\
        ImageModule.images s' = ImageModule.images s /\
        (message e <> EmptyString -> Rust.isErr r = true)
    | Normal content =>
        Rust.isOk r = true /\
        (forall (index : nat) instruction ctx,
           is_normal (ImageModule.buildLayer w instruction index ctx) = true)
    end.
Proof.
  rewrite buildImage_spec.
  destruct (readFile w dockerfile) as [content|e]; simpl.
  - eexists _, _. split; [reflexivity|]. split; reflexivity.
  - eexists _, _. split; [reflexivity|]. repeat split.
    intros Hmsg. unfold Rust.result. simpl.
    destruct (message e); [congruence | reflexivity].
Qed.







(* --------------------------------------------------------------------- *)
(** ** The runtime module *)
(* --------------------------------------------------------------------- *)

Section GoFrames.
Context {St V : Type} (R : St -> St -> Prop).
Hypothesis R_refl : forall s, R s s.
Hypothesis R_trans : forall s1 s2 s3, R s1 s2 -> R s2 s3 -> R s1 s3.
Implicit Types (tasks : list (Go.Task St V)).

(** A relation kept by every task is kept by running them all, and by
    the goroutines that run in the background. *)
Lemma spawn_all_keeps tasks :
  Forall (fun t => forall s, R s (t s).2) tasks ->
  forall s, R s (Go.spawn_all tasks s).2.
Proof using R_refl R_trans.
  induction 1 as [|t ts Ht _ IH]; intros s; simpl; [apply R_refl|].
  specialize (Ht s). destruct (t s) as [c s1]. specialize (IH s1).
  destruct (Go.spawn_all ts s1) as [cs s2]. simpl in *. eauto.
Qed.

Lemma background_keeps tasks evs :
  Forall (fun t => forall s, R s (t s).2) tasks ->
  forall s, R s (Go.background tasks evs s).
Proof using R_refl R_trans.
  intros Hall. induction evs as [|[i|i] evs IH]; intros s; simpl; [apply R_refl| |apply IH].
  destruct (tasks !! i) as [t|] eqn:Ht; [|apply IH].
  apply R_trans with (s2 := (t s).2); [|apply IH].
  exact (proj1 (Forall_lookup _ _) Hall i t Ht s).
Qed.

End GoFrames.

Section Runtime.
Implicit Types (w : Inputs) (s : RuntimeModule.State) (ref : nat).
Implicit Types (c : RuntimeModule.Container).

Lemma frame_refl s : RuntimeModule.frame s s.
Proof. now repeat split. Qed.

Lemma frame_trans s1 s2 s3 :
  RuntimeModule.frame s1 s2 -> RuntimeModule.frame s2 s3 -> RuntimeModule.frame s1 s3.
Proof. intros (A & B & C) (A' & B' & C'). repeat split; congruence. Qed.

Lemma update_container_frame ref f s :
  (forall c, RuntimeModule.status (f c) = RuntimeModule.status c /\
             RuntimeModule.error (f c) = RuntimeModule.error c) ->
  RuntimeModule.frame s (RuntimeModule.update_container ref f s).
Proof.
  intros Hf. unfold RuntimeModule.update_container, RuntimeModule.set_store.
  repeat split; simpl.
  destruct (RuntimeModule.store s !! ref) as [h|] eqn:Hh; [|reflexivity].
  rewrite list_fmap_insert. apply list_insert_id.
  rewrite list_lookup_fmap, Hh. unfold RuntimeModule.marks. simpl.
  destruct (Hf (Rust.resource h)) as [-> ->]. reflexivity.
Qed.

Lemma update_container_lookup ref f s h :
  RuntimeModule.store s !! ref = Some h ->
  RuntimeModule.store (RuntimeModule.update_container ref f s) !! ref
  = Some (Rust.update f h).
Proof.
  intros Hh. unfold RuntimeModule.update_container. simpl. rewrite Hh.
  apply list_lookup_insert_eq. now apply lookup_lt_Some in Hh.
Qed.

(** A framed state has the same handles, with the same marks. *)
Lemma frame_lookup s s' ref h :
  RuntimeModule.frame s s' -> RuntimeModule.store s !! ref = Some h ->
  exists h', RuntimeModule.store s' !! ref = Some h' /\
             RuntimeModule.marks h' = RuntimeModule.marks h.
Proof.
  intros (_ & _ & Hf) Hh.
  pose proof (f_equal (fun l => l !! ref) Hf) as Hl. simpl in Hl.
  rewrite !list_lookup_fmap, Hh in Hl.
  destruct (RuntimeModule.store s' !! ref) as [h'|]; [|discriminate].
  exists h'. split; [reflexivity|]. simpl in Hl. congruence.
Qed.

Lemma setupContainerNetwork_frame w containerId options s :
  RuntimeModule.frame s (RuntimeModule.setupContainerNetwork w containerId options s).2.
Proof.
  unfold RuntimeModule.setupContainerNetwork, bind, lift_completion.
  destruct (Js.get_prop options "ports"); simpl; now repeat split.
Qed.

Lemma setupContainerVolumes_frame containerId options s :
  (RuntimeModule.setupContainerVolumes containerId options s).2 = s.
Proof.
  unfold RuntimeModule.setupContainerVolumes, bind, lift_completion.
  destruct (Js.get_prop options "volumes") as [v|]; [|reflexivity].
  destruct (Js.or v (JArr [])); try reflexivity.
  simpl. now destruct (mapM_completion RuntimeModule.mount_volume items).
Qed.

Lemma startContainerProcess_frame w ref s :
  RuntimeModule.frame s (RuntimeModule.startContainerProcess w ref s).2.
Proof.
  unfold RuntimeModule.startContainerProcess.
  destruct (RuntimeModule.store s !! ref) as [h|]; [|apply frame_refl].
  simpl.
  apply frame_trans with
    (s2 := RuntimeModule.update_container ref
             (RuntimeModule.set_pid
                (JNum (RuntimeModule.random_int (random w 1) 30000 1000))) s).
  - apply update_container_frame. intros c. split; reflexivity.
  - now repeat split.
Qed.

Lemma startupTasks_frame w containerId options ref :
  Forall (fun t : Go.Task RuntimeModule.State JsVal =>
            forall s, RuntimeModule.frame s (t s).2)
         (RuntimeModule.startupTasks w containerId options ref).
Proof.
  constructor; [|constructor; [|constructor; [|constructor]]].
  - intros s. apply setupContainerNetwork_frame.
  - intros s. rewrite setupContainerVolumes_frame. apply frame_refl.
  - intros s. apply startContainerProcess_frame.
Qed.

(** The [catch] block marks the container failed and answers with
    the failure made of the error message. *)
Lemma failed_spec ref e s :
  RuntimeModule.failed ref e s
  = (Normal (Rust.result JNull (Some (message e))),
     RuntimeModule.update_container ref (RuntimeModule.set_error (message e))
       (RuntimeModule.update_container ref (RuntimeModule.set_status "failed") s)).
Proof. reflexivity. Qed.

Lemma failed_store ref e s h :
  RuntimeModule.store s !! ref = Some h ->
  exists h',
    RuntimeModule.store (RuntimeModule.failed ref e s).2 !! ref = Some h' /\
    RuntimeModule.marks h'
    = (Rust.borrowed h, Rust.dropped h, "failed", Some (message e)) /\
    RuntimeModule.containers (RuntimeModule.failed ref e s).2 = RuntimeModule.containers s /\
    RuntimeModule.goEssence (RuntimeModule.failed ref e s).2 = RuntimeModule.goEssence s /\
    length (RuntimeModule.store (RuntimeModule.failed ref e s).2)
    = length (RuntimeModule.store s).
Proof.
  intros Hh. rewrite failed_spec. cbn [snd]. eexists. split.
  - apply update_container_lookup. apply update_container_lookup. exact Hh.
  - split; [reflexivity|]. split; [reflexivity|]. split; [reflexivity|].
    unfold RuntimeModule.update_container. simpl.
    rewrite Hh. rewrite list_lookup_insert_eq by (now apply lookup_lt_Some in Hh).
    now rewrite !length_insert.
Qed.

Lemma result_failure (msg : string) :
  msg <> EmptyString ->
  Rust.isOk (Rust.result JNull (Some msg)) = false /\
  Rust.isErr (Rust.result JNull (Some msg)) = true.
Proof. intros H. unfold Rust.result. simpl. destruct msg; [congruence | now split]. Qed.

(** The errors of the startup tasks have a message. *)
Lemma get_prop_error v k e : Js.get_prop v k = Throw e -> message e <> EmptyString.
Proof. destruct v; simpl; intros [= <-]; discriminate. Qed.

Lemma mount_volume_error v e :
  RuntimeModule.mount_volume v = Throw e -> message e <> EmptyString.
Proof. destruct v; simpl; intros [= <-]; discriminate. Qed.

Lemma mapM_completion_error {A B} (f : A -> Completion B) xs e :
  mapM_completion f xs = Throw e -> exists x, f x = Throw e.
Proof.
  induction xs as [|x xs IH]; simpl; [discriminate|].
  destruct (f x) as [y|e'] eqn:Hx.
  - destruct (mapM_completion f xs); [discriminate|]. intros [= <-]. now apply IH.
  - intros [= <-]. now exists x.
Qed.

Lemma setupContainerNetwork_error w containerId options s e s' :
  RuntimeModule.setupContainerNetwork w containerId options s = (Throw e, s') ->
  message e <> EmptyString.
Proof.
  unfold RuntimeModule.setupContainerNetwork, bind, lift_completion.
  destruct (Js.get_prop options "ports") eqn:E; simpl; [discriminate|].
  intros [= <- _]. now apply get_prop_error in E.
Qed.

Lemma setupContainerVolumes_error containerId options s e s' :
  RuntimeModule.setupContainerVolumes containerId options s = (Throw e, s') ->
  message e <> EmptyString.
Proof.
  unfold RuntimeModule.setupContainerVolumes, bind, lift_completion.
  destruct (Js.get_prop options "volumes") as [v|e0] eqn:E; simpl.
  - destruct (Js.or v (JArr [])); simpl; try (intros [= <- _]; discriminate).
    destruct (mapM_completion RuntimeModule.mount_volume items) eqn:Em; simpl;
      [discriminate|].
    intros [= <- _]. apply mapM_completion_error in Em as [x Hx].
    now apply mount_volume_error in Hx.
  - intros [= <- _]. now apply get_prop_error in E.
Qed.

Lemma startContainerProcess_error w ref s e s' :
  RuntimeModule.startContainerProcess w ref s = (Throw e, s') ->
  message e <> EmptyString.
Proof.
  unfold RuntimeModule.startContainerProcess.
  destruct (RuntimeModule.store s !! ref); simpl; [discriminate|].
  intros [= <- _]. discriminate.
Qed.

Lemma startup_error_message w containerId options ref s0 cs s1 (j : nat) e :
  Go.spawn_all (RuntimeModule.startupTasks w containerId options ref) s0 = (cs, s1) ->
  cs !! j = Some (Throw e) -> message e <> EmptyString.
Proof.
  intros Hs Hj.
  assert (Hlt : (j < 3)%nat).
  { apply lookup_lt_Some in Hj. rewrite (cs_length _ _ _ _ Hs) in Hj. exact Hj. }
  destruct (lookup_lt_is_Some_2 (RuntimeModule.startupTasks w containerId options ref) j Hlt)
    as [t Ht].
  destruct (spawn_all_step _ _ _ _ _ _ Hs Ht) as (c & Hc & Hrun).
  rewrite Hj in Hc. injection Hc as <-.
  destruct j as [|[|[|j]]]; [| | |lia]; simpl in Ht; injection Ht as <-.
  - eapply setupContainerNetwork_error; exact Hrun.
  - eapply setupContainerVolumes_error; exact Hrun.
  - eapply startContainerProcess_error; exact Hrun.
Qed.

Lemma keeps_borrowed_refl s : RuntimeModule.keeps_borrowed s s.
Proof. intros ref h Hh Hb. eauto. Qed.

Lemma keeps_borrowed_trans s1 s2 s3 :
  RuntimeModule.keeps_borrowed s1 s2 -> RuntimeModule.keeps_borrowed s2 s3 ->
  RuntimeModule.keeps_borrowed s1 s3.
Proof.
  intros H12 H23 ref h Hh Hb. destruct (H12 ref h Hh Hb) as (h' & Hh' & Hb'). eauto.
Qed.

Lemma frame_keeps_borrowed s s' :
  RuntimeModule.frame s s' -> RuntimeModule.keeps_borrowed s s'.
Proof.
  intros Hf ref h Hh Hb. destruct (frame_lookup _ _ _ _ Hf Hh) as (h' & Hh' & Hm).
  exists h'. split; [exact Hh'|]. unfold RuntimeModule.marks in Hm. congruence.
Qed.

Lemma update_container_keeps_borrowed ref f s :
  RuntimeModule.keeps_borrowed s (RuntimeModule.update_container ref f s).
Proof.
  intros ref0 h Hh Hb. unfold RuntimeModule.update_container. simpl.
  destruct (RuntimeModule.store s !! ref) as [h1|] eqn:H1; [|eauto].
  destruct (decide (ref = ref0)) as [->|Hne].
  - rewrite list_lookup_insert_eq by (now apply lookup_lt_Some in Hh).
    eexists. split; [reflexivity|]. simpl. congruence.
  - rewrite list_lookup_insert_ne by exact Hne. eauto.
Qed.

Lemma failed_keeps_borrowed ref e s :
  RuntimeModule.keeps_borrowed s (RuntimeModule.failed ref e s).2.
Proof.
  rewrite failed_spec. cbn [snd].
  eapply keeps_borrowed_trans; apply update_container_keeps_borrowed.
Qed.

(** A record that was built read [options.interactive]. *)
Lemma new_container_interactive w containerId image command options record :
  RuntimeModule.new_container w containerId image command options = Normal record ->
  exists interactive, Js.get_prop options "interactive" = Normal interactive.
Proof.
  unfold RuntimeModule.new_container.
  destruct options; cbn; intros H; try discriminate H; eauto.
Qed.

(** The [try] block after [await], when the handle is in the store:
    the container was registered just before [attachToContainer] looks
    it up, so an interactive run returns like any other. *)
Lemma running_spec w containerId image options interactive ref s h :
  Js.get_prop options "interactive" = Normal interactive ->
  RuntimeModule.store s !! ref = Some h ->
  exists r s' h',
    RuntimeModule.running w containerId image options ref s = (Normal r, s') /\
    Rust.isOk r = true /\
    RuntimeModule.containers s' = JsMap.set containerId ref (RuntimeModule.containers s) /\
    RuntimeModule.goEssence s' = RuntimeModule.goEssence s /\
    RuntimeModule.keeps_borrowed s s' /\
    RuntimeModule.store s' !! ref = Some h' /\
    RuntimeModule.marks h' = (Rust.borrowed h, Rust.dropped h, "running",
                              RuntimeModule.error (Rust.resource h)).
Proof.
  intros Hi Hh.
  pose proof (update_container_lookup ref (RuntimeModule.set_status "running") s h Hh) as H1.
  pose proof (update_container_lookup ref
                (RuntimeModule.set_started (JsDate.toISOString (now w 2))) _ _ H1) as H2.
  unfold RuntimeModule.running, RuntimeModule.attachToContainer,
    bind, modify, get, lift_completion, ret.
  rewrite Hi.
  destruct (Js.truthy interactive); cbv beta iota;
    cbn [RuntimeModule.store RuntimeModule.containers RuntimeModule.set_containers];
    rewrite ?get_set_eq; cbv beta iota;
    cbn [RuntimeModule.store RuntimeModule.containers RuntimeModule.set_containers];
    rewrite H2; eexists _, _, _;
    (split; [reflexivity|]); (split; [reflexivity|]);
    (split; [reflexivity|]); (split; [reflexivity|]);
    (split; [|split; [exact H2 | reflexivity]]);
    intros ref0 h0 Hh0 Hb0; cbn [RuntimeModule.store RuntimeModule.set_containers];
    (eapply keeps_borrowed_trans; [apply update_container_keeps_borrowed
                                  |apply update_container_keeps_borrowed| |]; eassumption).
Qed.

(** What [runContainer] does.  Building the record may throw, before
    [try]; past that point the call returns a result: the Ok result of
    a container marked [running] and registered, which needs
    [goEssence], or the failure result of a container marked [failed]
    and not registered.  The handle is borrowed in both cases. *)
Lemma runContainer_cases w image command options s :
  let containerId := RuntimeModule.generateContainerId w in
  let ref := length (RuntimeModule.store s) in
  match RuntimeModule.new_container w containerId image command
          (Js.default_arg options (JObj [])) with
  | Throw e => RuntimeModule.runContainer w image command options s = Some (Throw e, s)
  | Normal record =>
      exists r s' h,
        RuntimeModule.runContainer w image command options s = Some (Normal r, s') /\
        RuntimeModule.goEssence s' = RuntimeModule.goEssence s /\
        RuntimeModule.keeps_borrowed s s' /\
        RuntimeModule.store s' !! ref = Some h /\
        Rust.borrowed h = true /\
        ((Rust.isOk r = true /\
          RuntimeModule.goEssence s = Some RuntimeModule.go /\
          RuntimeModule.containers s' = JsMap.set containerId ref (RuntimeModule.containers s) /\
          RuntimeModule.status (Rust.resource h) = "running")
         \/
         (Rust.isOk r = false /\ Rust.isErr r = true /\ Rust.value r = JNull /\
          RuntimeModule.containers s' = RuntimeModule.containers s /\
          RuntimeModule.status (Rust.resource h) = "failed" /\
          RuntimeModule.error (Rust.resource h) = Rust.error r))
  end.
Proof.
  intros containerId ref. unfold RuntimeModule.runContainer.
  fold containerId. fold ref.
  destruct (RuntimeModule.new_container w containerId image command
              (Js.default_arg options (JObj []))) as [record|e] eqn:Hnew; [|reflexivity].
  destruct (new_container_interactive _ _ _ _ _ _ Hnew) as [interactive Hint].
  cbn [Rust.borrow Rust.own_scoped Rust.own Rust.borrowed Rust.dropped orb
       Rust.resource Rust.lifetime].
  set (handle := {| Rust.resource := record; Rust.lifetime := "scoped";
                    Rust.borrowed := true; Rust.dropped := false |}).
  set (s0 := RuntimeModule.set_store (fun st => st ++ [handle]) s).
  assert (H0 : RuntimeModule.store s0 !! ref = Some handle).
  { unfold s0. simpl. now apply list_lookup_middle. }
  assert (K0 : RuntimeModule.keeps_borrowed s s0).
  { intros ref0 h0 Hh0 Hb0. exists h0. split; [|exact Hb0].
    unfold s0. simpl. now apply lookup_app_l_Some. }
  change (RuntimeModule.goEssence s0) with (RuntimeModule.goEssence s).
  destruct (RuntimeModule.goEssence s) as [[]|] eqn:Hgo.
  - (* goEssence is there: the tasks run *)
    set (tasks := RuntimeModule.startupTasks w containerId
                    (Js.default_arg options (JObj [])) ref).
    change (length tasks) with 3%nat.
    destruct (Go.spawn_all tasks s0) as [cs s1] eqn:Hs.
    destruct (concurrent_settles (Go.sync_schedule 3) tasks s0 cs s1 Hs sync_schedule_3)
      as [Hc _]. rewrite Hc. clear Hc.
    pose proof (startupTasks_frame w containerId (Js.default_arg options (JObj [])) ref)
      as Hframes. fold tasks in Hframes.
    destruct (Go.first_rejection (Go.sync_schedule 3) cs) as [[j e]|] eqn:Hrej.
    + (* a task failed *)
      set (k := (Go.resume (Go.sync_schedule 3) cs 0).1).
      set (rest := (Go.resume (Go.sync_schedule 3) cs 0).2).
      set (sk := (Go.spawn_all (take k tasks) s0).2).
      assert (Fk : RuntimeModule.frame s0 sk).
      { apply (spawn_all_keeps RuntimeModule.frame frame_refl frame_trans).
        now apply Forall_take. }
      destruct (frame_lookup _ _ _ _ Fk H0) as (hk & Hk & Mk).
      destruct (failed_store ref e sk hk Hk) as (hf & Hf & Mf & Cf & Gf & _).
      destruct (RuntimeModule.failed ref e sk) as [c sf] eqn:Hfailed.
      pose proof (failed_spec ref e sk) as Hfs. rewrite Hfailed in Hfs.
      injection Hfs as -> Hsf. cbn [snd] in Hf, Cf, Gf.
      pose proof (background_keeps RuntimeModule.frame frame_refl frame_trans
                    tasks rest Hframes sf) as Fb.
      destruct (frame_lookup _ _ _ _ Fb Hf) as (h' & Hh' & Mh').
      assert (Hmsg : message e <> EmptyString).
      { apply first_rejection_Some in Hrej.
        eapply startup_error_message; [exact Hs | exact Hrej]. }
      destruct (result_failure (message e) Hmsg) as [Hok Herr].
      unfold RuntimeModule.marks in Mk, Mf, Mh'. simpl in Mk.
      exists (Rust.result JNull (Some (message e))), (Go.background tasks rest sf), h'.
      split; [reflexivity|]. split.
      { destruct Fb as (_ & -> & _). rewrite Gf. now destruct Fk as (_ & -> & _). }
      split.
      { eapply keeps_borrowed_trans; [exact K0|].
        eapply keeps_borrowed_trans; [apply frame_keeps_borrowed; exact Fk|].
        eapply keeps_borrowed_trans; [|apply frame_keeps_borrowed; exact Fb].
        pose proof (failed_keeps_borrowed ref e sk) as Kf.
        now rewrite Hfailed in Kf. }
      split; [exact Hh'|]. split; [congruence|].
      right. split; [exact Hok|]. split; [exact Herr|]. split; [reflexivity|].
      split.
      { destruct Fb as (-> & _ & _). rewrite Cf. now destruct Fk as (-> & _ & _). }
      split; [congruence | simpl; congruence].
    + (* all three succeeded *)
      assert (F1 : RuntimeModule.frame s0 s1).
      { pose proof (spawn_all_keeps RuntimeModule.frame frame_refl frame_trans
                      tasks Hframes s0) as F. now rewrite Hs in F. }
      destruct (frame_lookup _ _ _ _ F1 H0) as (h1 & H1 & M1).
      destruct (running_spec w containerId image _ interactive ref s1 h1 Hint H1)
        as (r & s2 & h2 & Hrun & Hok & Hcont & Hg & Hkeep & H2 & M2).
      unfold try_catch. rewrite Hrun. cbn [Go.background].
      unfold RuntimeModule.marks in M1, M2. simpl in M1.
      exists r, s2, h2. split; [reflexivity|]. split.
      { rewrite Hg. now destruct F1 as (_ & -> & _). }
      split.
      { eapply keeps_borrowed_trans; [exact K0|].
        eapply keeps_borrowed_trans; [apply frame_keeps_borrowed; exact F1 | exact Hkeep]. }
      split; [exact H2|]. split; [congruence|].
      left. split; [exact Hok|]. split; [reflexivity|]. split; [|congruence].
      rewrite Hcont. now destruct F1 as (-> & _ & _).
  - (* no goEssence: the TypeError is caught *)
    set (e := TypeError "Cannot read properties of undefined (reading 'concurrent')").
    destruct (failed_store ref e s0 handle H0) as (hf & Hf & Mf & Cf & Gf & _).
    unfold RuntimeModule.marks in Mf.
    exists (Rust.result JNull (Some (message e))), (RuntimeModule.failed ref e s0).2, hf.
    split; [now rewrite failed_spec|]. split; [rewrite Gf; exact Hgo|]. split.
    { eapply keeps_borrowed_trans; [exact K0 | apply failed_keeps_borrowed]. }
    split; [exact Hf|]. split; [simpl in Mf; congruence|].
    right. split; [reflexivity|]. split; [reflexivity|]. split; [reflexivity|].
    split; [exact Cf|]. injection Mf as _ _ Hst Her. split; [exact Hst | exact Her].
Qed.

Lemma set_store_id s (f : list (Rust.Owned RuntimeModule.Container)
                        -> list (Rust.Owned RuntimeModule.Container)) :
  f (RuntimeModule.store s) = RuntimeModule.store s -> RuntimeModule.set_store f s = s.
Proof. intros H. unfold RuntimeModule.set_store. rewrite H. now destruct s. Qed.

(** Borrowing a handle that is borrowed throws and changes nothing. *)
Lemma borrow_at_borrowed ref s h :
  RuntimeModule.store s !! ref = Some h -> Rust.borrowed h = true ->
  RuntimeModule.borrow_at ref s = (Throw Rust.borrow_error, s).
Proof.
  intros Hh Hb. unfold RuntimeModule.borrow_at. rewrite Hh.
  rewrite (borrow_borrowed h Hb). f_equal.
  apply set_store_id. now apply list_insert_id.
Qed.

Lemma borrow_at_keeps_borrowed ref s :
  RuntimeModule.keeps_borrowed s (RuntimeModule.borrow_at ref s).2.
Proof.
  unfold RuntimeModule.borrow_at.
  destruct (RuntimeModule.store s !! ref) as [h|] eqn:Hh; [|apply keeps_borrowed_refl].
  destruct (Rust.borrow h) as [c h'] eqn:Hbw.
  intros ref0 h0 Hh0 Hb0. simpl. destruct (decide (ref = ref0)) as [->|Hne].
  - rewrite list_lookup_insert_eq by (now apply lookup_lt_Some in Hh0).
    exists h'. split; [reflexivity|]. rewrite Hh in Hh0. injection Hh0 as ->.
    rewrite (borrow_borrowed h0 Hb0) in Hbw. now injection Hbw as _ <-.
  - rewrite list_lookup_insert_ne by exact Hne. eauto.
Qed.

Lemma all_borrowed_keeps s s' :
  RuntimeModule.all_borrowed s -> RuntimeModule.keeps_borrowed s s' ->
  RuntimeModule.containers s' = RuntimeModule.containers s ->
  RuntimeModule.all_borrowed s'.
Proof.
  unfold RuntimeModule.all_borrowed. intros Ha Hk ->.
  eapply Forall_impl; [exact Ha|]. intros [k ref] (h & Hh & Hb). simpl in *.
  exact (Hk ref h Hh Hb).
Qed.

Lemma Forall_set {V} (P : string * V -> Prop) k (v : V) (m : list (string * V)) :
  Forall P m -> P (k, v) -> Forall P (JsMap.set k v m).
Proof.
  intros Hm Hkv. induction Hm as [|[k' v'] m Hx Hm IH]; simpl.
  - now constructor.
  - destruct (String.eqb k k'); constructor; assumption.
Qed.

Lemma all_borrowed_set s s' containerId ref h :
  RuntimeModule.all_borrowed s -> RuntimeModule.keeps_borrowed s s' ->
  RuntimeModule.containers s' = JsMap.set containerId ref (RuntimeModule.containers s) ->
  RuntimeModule.store s' !! ref = Some h -> Rust.borrowed h = true ->
  RuntimeModule.all_borrowed s'.
Proof.
  unfold RuntimeModule.all_borrowed. intros Ha Hk -> Hh Hb.
  apply Forall_set; [|now exists h].
  eapply Forall_impl; [exact Ha|]. intros [k ref0] (h0 & Hh0 & Hb0). simpl in *.
  exact (Hk ref0 h0 Hh0 Hb0).
Qed.

(** With every registered handle borrowed, [listContainers] returns the
    empty list when nothing is registered and throws otherwise;
    [getContainerLogs] throws for every registered id.  Neither
    changes the module. *)
Lemma listContainers_borrowed showAll s :
  RuntimeModule.all_borrowed s ->
  RuntimeModule.listContainers showAll s =
  match RuntimeModule.containers s with
  | [] => (Normal (Rust.ok (JArr [])), s)
  | _ :: _ => (Throw Rust.borrow_error, s)
  end.
Proof.
  intros Ha. unfold RuntimeModule.listContainers, bind, get.
  destruct (RuntimeModule.containers s) as [|[k ref] rest] eqn:Hc; simpl.
  - now destruct (Js.truthy (Js.default_arg showAll (JBool false))).
  - unfold RuntimeModule.all_borrowed in Ha. rewrite Hc in Ha.
    apply Forall_cons in Ha as [(h & Hh & Hb) _]. simpl in Hh.
    unfold bind. now rewrite (borrow_at_borrowed ref s h Hh Hb).
Qed.

Lemma getContainerLogs_borrowed containerId s ref :
  RuntimeModule.all_borrowed s ->
  JsMap.get containerId (RuntimeModule.containers s) = Some ref ->
  RuntimeModule.getContainerLogs (JStr containerId) s = (Throw Rust.borrow_error, s).
Proof.
  intros Ha Hget. unfold RuntimeModule.getContainerLogs, bind, get. simpl.
  rewrite Hget. apply get_Some_elem in Hget.
  unfold RuntimeModule.all_borrowed in Ha.
  destruct (proj1 (Forall_forall _ _) Ha _ Hget) as (h & Hh & Hb). simpl in Hh.
  unfold bind. now rewrite (borrow_at_borrowed ref s h Hh Hb).
Qed.

Lemma getContainerLogs_state containerId s :
  RuntimeModule.all_borrowed s -> (RuntimeModule.getContainerLogs containerId s).2 = s.
Proof.
  intros Ha. unfold RuntimeModule.getContainerLogs, bind, get. simpl.
  destruct (RuntimeModule.lookup_container containerId s) as [ref|] eqn:Hl; [|reflexivity].
  destruct containerId; try discriminate Hl. simpl in Hl.
  apply get_Some_elem in Hl. unfold RuntimeModule.all_borrowed in Ha.
  destruct (proj1 (Forall_forall _ _) Ha _ Hl) as (h & Hh & Hb). simpl in Hh.
  unfold bind. now rewrite (borrow_at_borrowed ref s h Hh Hb).
Qed.

Lemma listContainers_state showAll s :
  RuntimeModule.all_borrowed s -> (RuntimeModule.listContainers showAll s).2 = s.
Proof.
  intros Ha. rewrite (listContainers_borrowed showAll s Ha).
  now destruct (RuntimeModule.containers s).
Qed.

Lemma fire_frame t timer s : RuntimeModule.frame s (RuntimeModule.fire t timer s).
Proof. apply update_container_frame. intros c. split; reflexivity. Qed.

(** Every call keeps the registered handles borrowed, keeps the
    registered ids registered, and keeps [goEssence] as it is. *)
Lemma call_invariant (c : RuntimeModule.Call) s s' (containerId : string) :
  RuntimeModule.all_borrowed s ->
  RuntimeModule.call c s = Some s' ->
  RuntimeModule.all_borrowed s' /\
  RuntimeModule.goEssence s' = RuntimeModule.goEssence s /\
  (is_Some (JsMap.get containerId (RuntimeModule.containers s)) ->
   is_Some (JsMap.get containerId (RuntimeModule.containers s'))) /\
  (RuntimeModule.goEssence s = None ->
   RuntimeModule.containers s' = RuntimeModule.containers s).
Proof.
  intros Ha Hcall. destruct c as [w image command options|showAll|cid|t timer];
    simpl in Hcall.
  - pose proof (runContainer_cases w image command options s) as Hcases.
    cbv zeta in Hcases.
    destruct (RuntimeModule.new_container w _ image command _) as [record|e].
    + destruct Hcases as (r & s1 & h & Hrun & Hgo & Hkeep & Hh & Hb & Hor).
      rewrite Hrun in Hcall. simpl in Hcall. injection Hcall as <-.
      split; [|split; [exact Hgo|]].
      * destruct Hor as [(_ & _ & Hcont & _) | (_ & _ & _ & Hcont & _)].
        -- eapply all_borrowed_set; eassumption.
        -- eapply all_borrowed_keeps; eassumption.
      * destruct Hor as [(_ & Hsome & Hcont & _) | (_ & _ & _ & Hcont & _)];
          rewrite Hcont; split; try (intros; assumption || reflexivity).
        -- intros Hin.
           destruct (decide (RuntimeModule.generateContainerId w = containerId)) as [<-|Hne].
           ++ rewrite get_set_eq. eauto.
           ++ now rewrite get_set_ne.
        -- intros Hnone. congruence.
    + rewrite Hcases in Hcall. simpl in Hcall. injection Hcall as <-. auto.
  - injection Hcall as <-. rewrite (listContainers_state showAll s Ha). auto.
  - injection Hcall as <-. rewrite (getContainerLogs_state cid s Ha). auto.
  - injection Hcall as <-. pose proof (fire_frame t timer s) as Hf.
    split; [|split; [now destruct Hf as (_ & -> & _)|]].
    + eapply all_borrowed_keeps; [exact Ha | now apply frame_keeps_borrowed
                                 | now destruct Hf as (-> & _ & _)].
    + destruct Hf as (-> & _ & _). auto.
Qed.

Lemma calls_invariant history : forall s s' (containerId : string),
  RuntimeModule.all_borrowed s ->
  RuntimeModule.calls history s = Some s' ->
  RuntimeModule.all_borrowed s' /\
  RuntimeModule.goEssence s' = RuntimeModule.goEssence s /\
  (is_Some (JsMap.get containerId (RuntimeModule.containers s)) ->
   is_Some (JsMap.get containerId (RuntimeModule.containers s'))) /\
  (RuntimeModule.goEssence s = None ->
   RuntimeModule.containers s' = RuntimeModule.containers s).
Proof.
  induction history as [|c history IH]; intros s s' containerId Ha Hcalls;
    simpl in Hcalls.
  - injection Hcalls as <-. auto.
  - destruct (RuntimeModule.call c s) as [s1|] eqn:Hcall; [|discriminate].
    destruct (call_invariant c s s1 containerId Ha Hcall) as (Ha1 & Hg1 & Hin1 & Hn1).
    destruct (IH s1 s' containerId Ha1 Hcalls) as (Ha' & Hg' & Hin' & Hn').
    split; [exact Ha'|]. split; [congruence|]. split; [auto|].
    intros Hnone. rewrite Hn' by congruence. auto.
Qed.

(** Every call returns: no await of the runtime module stays
    pending. *)
Lemma call_returns (c : RuntimeModule.Call) s : is_Some (RuntimeModule.call c s).
Proof.
  destruct c as [w image command options|showAll|cid|t timer]; simpl; eauto.
  pose proof (runContainer_cases w image command options s) as Hcases.
  cbv zeta in Hcases.
  destruct (RuntimeModule.new_container w _ image command _).
  - destruct Hcases as (r & s1 & h & -> & _). simpl. eauto.
  - rewrite Hcases. simpl. eauto.
Qed.

End Runtime.

(** A runtime module made by the constructor never has [goEssence], so
    [run_container] never succeeds on it and nothing is ever
    registered. *)
Lemma constructed_runtime_registers_nothing (history : list RuntimeModule.Call)
    (s : RuntimeModule.State) :
  RuntimeModule.calls history RuntimeModule.new = Some s ->
  RuntimeModule.goEssence s = None /\ RuntimeModule.containers s = [].
Proof.
  intros Hcalls.
  destruct (calls_invariant history RuntimeModule.new s EmptyString
              ltac:(constructor) Hcalls) as (_ & Hgo & _ & Hcont).
  split; [exact Hgo | now apply Hcont].
Qed.

(** A failed [run_container] leaves a container marked [failed] with the
    reason on its record and returns a failure result, and the container
    is not in the [containers] map that [listContainers] reads. *)
Lemma failed_container_not_registered (w : Inputs) (image command options : JsVal)
    (s : RuntimeModule.State) r s' :
  RuntimeModule.runContainer w image command options s = Some (Normal r, s') ->
  Rust.isOk r = false ->
  RuntimeModule.containers s' = RuntimeModule.containers s /\
  exists h, RuntimeModule.store s' !! length (RuntimeModule.store s) = Some h /\
            RuntimeModule.status (Rust.resource h) = "failed" /\
            RuntimeModule.error (Rust.resource h) = Rust.error r.
Proof.
  intros Hrun Hfail.
  pose proof (runContainer_cases w image command options s) as Hcases. cbv zeta in Hcases.
  destruct (RuntimeModule.new_container w _ image command _) as [record|e].
  - destruct Hcases as (r1 & s1 & h & Hrun1 & _ & _ & Hh & _ & Hor).
    rewrite Hrun in Hrun1. injection Hrun1 as <- <-.
    destruct Hor as [(Hok & _) | (_ & _ & _ & Hcont & Hst & Her)]; [congruence|].
    split; [exact Hcont|]. now exists h.
  - rewrite Hcases in Hrun. discriminate Hrun.
Qed.

(** C2 meets two defects of the code.  On the module made by the
    constructor, [run_container] of image [alpine] returns a failure
    result (no exception) and marks the container [failed] with the
    reason, as claimed; but the reason is that [this.goEssence] is
    [undefined], before any setup task runs, and the failed container is
    registered nowhere: [listContainers(true)] returns the empty list,
    as [listContainers(false)] does. *)
Theorem run_container_failure_not_listed :
  exists r s' h,
    RuntimeModule.runContainer Samples.w0 (JStr "alpine") JUndefined JUndefined
      RuntimeModule.new = Some (Normal r, s') /\
    r = Rust.result JNull (Some "Cannot read properties of undefined (reading 'concurrent')") /\
    Rust.isErr r = true /\
    RuntimeModule.store s' = [h] /\
    RuntimeModule.status (Rust.resource h) = "failed" /\
    RuntimeModule.error (Rust.resource h)
    = Some "Cannot read properties of undefined (reading 'concurrent')" /\
    RuntimeModule.containers s' = [] /\
    RuntimeModule.listContainers (JBool true) s' = (Normal (Rust.ok (JArr [])), s') /\
    RuntimeModule.listContainers (JBool false) s' = (Normal (Rust.ok (JArr [])), s').
Proof.
  eexists _, _, _. split; [vm_compute; reflexivity|].
  repeat split.
Qed.

(** C4.  On a module whose registered handles are all borrowed, as the
    constructor leaves it and as every operation keeps it: after a
    [run_container] that returned an Ok result, and after any further
    history of calls (runs, listings, log reads, log timers), the id of
    the container is registered with a handle that is borrowed, no call
    having released it; [listContainers] throws the borrow error for
    either view and [logs_container] throws it for that container.  (A
    run returns Ok only on a module that has [goEssence].) *)
Theorem stored_handle_stays_borrowed (w : Inputs) (image command options : JsVal)
    (s : RuntimeModule.State) r s' :
  RuntimeModule.all_borrowed s ->
  RuntimeModule.runContainer w image command options s = Some (Normal r, s') ->
  Rust.isOk r = true ->
  forall history, exists s'',
    RuntimeModule.calls history s' = Some s'' /\
    (exists ref h,
       JsMap.get (RuntimeModule.generateContainerId w) (RuntimeModule.containers s'')
       = Some ref /\
       RuntimeModule.store s'' !! ref = Some h /\ Rust.borrowed h = true) /\
    (forall showAll,
       RuntimeModule.listContainers showAll s'' = (Throw Rust.borrow_error, s'')) /\
    RuntimeModule.getContainerLogs (JStr (RuntimeModule.generateContainerId w)) s''
    = (Throw Rust.borrow_error, s'').
Proof.
  intros Ha Hrun Hok history.
  pose proof (runContainer_cases w image command options s) as Hcases. cbv zeta in Hcases.
  destruct (RuntimeModule.new_container w _ image command _) as [record|e];
    [|rewrite Hcases in Hrun; discriminate Hrun].
  destruct Hcases as (r1 & s1 & h & Hrun1 & _ & Hkeep & Hh & Hb & Hor).
  rewrite Hrun in Hrun1. injection Hrun1 as <- <-.
  destruct Hor as [(_ & _ & Hcont & _) | (Hfail & _)]; [|congruence].
  assert (Ha' : RuntimeModule.all_borrowed s') by (eapply all_borrowed_set; eassumption).
  assert (Hin : is_Some (JsMap.get (RuntimeModule.generateContainerId w)
                                   (RuntimeModule.containers s'))).
  { rewrite Hcont, get_set_eq. eauto. }
  assert (Hsome : exists s'', RuntimeModule.calls history s' = Some s'').
  { clear -Ha'. revert s' Ha'. induction history as [|c history IH]; intros s' Ha'; simpl.
    - eauto.
    - destruct (call_returns c s') as [s1 Hs1]. rewrite Hs1.
      apply IH. now destruct (call_invariant c s' s1 EmptyString Ha' Hs1). }
  destruct Hsome as [s'' Hcalls]. exists s''. split; [exact Hcalls|].
  destruct (calls_invariant history s' s'' (RuntimeModule.generateContainerId w) Ha' Hcalls)
    as (Ha'' & _ & Hin'' & _).
  destruct (Hin'' Hin) as [ref Hget].
  pose proof (get_Some_elem _ _ _ Hget) as Helem.
  destruct (proj1 (Forall_forall _ _) Ha'' _ Helem) as (h'' & Hh'' & Hb''). simpl in Hh''.
  split; [now exists ref, h''|]. split.
  - intros showAll. rewrite (listContainers_borrowed showAll s'' Ha'').
    destruct (RuntimeModule.containers s''); [discriminate Hget | reflexivity].
  - now apply getContainerLogs_borrowed with (ref := ref).
Qed.

Lemma stored_handle_stays_borrowed_witness :
  exists s'',
    RuntimeModule.calls
      [RuntimeModule.list_containers (JBool true);
       RuntimeModule.timer_fires 1700000001000
         {| RuntimeModule.timer_container := 0;
            RuntimeModule.timer_message := "Container initialization complete";
            RuntimeModule.timer_delay := 1000 |};
       RuntimeModule.logs_container (JStr Samples.container_id)]
      (default Samples.runtime_with_go
         (snd <$> RuntimeModule.runContainer Samples.w0 (JStr "alpine") JUndefined JUndefined
                    Samples.runtime_with_go))
    = Some s'' /\
    (exists ref h,
       JsMap.get (RuntimeModule.generateContainerId Samples.w0) (RuntimeModule.containers s'')
       = Some ref /\
       RuntimeModule.store s'' !! ref = Some h /\ Rust.borrowed h = true) /\
    (forall showAll,
       RuntimeModule.listContainers showAll s'' = (Throw Rust.borrow_error, s'')) /\
    RuntimeModule.getContainerLogs (JStr (RuntimeModule.generateContainerId Samples.w0)) s''
    = (Throw Rust.borrow_error, s'').
Proof.
  eapply (stored_handle_stays_borrowed Samples.w0 (JStr "alpine") JUndefined JUndefined
            Samples.runtime_with_go).
  - constructor.
  - vm_compute. reflexivity.
  - reflexivity.
Defined.

(* --------------------------------------------------------------------- *)
(** ** The engine *)
(* --------------------------------------------------------------------- *)

(** C10.  A dispatch of an operation that the routing table does not
    name returns (no exception leaves [execute]) the failure outcome
    whose error is [No module found for operation: <operation>]; no
    module is called, so every module, its own operation counter
    included, is as before, and so is the table of per-module metrics.
    Only the engine's [commands] and [errors] counters move. *)
Theorem dispatch_unknown_operation (startTime endTime : Z) (w : Inputs) (op : string)
    (data options : JsVal) (s : DockerNexusEngine.State) :
  JsMap.get op DockerNexusEngine.operationMap = None ->
  exists s',
    DockerNexusEngine.execute startTime endTime w op data options s
    = Some ({| DockerNexusEngine.success := false;
               DockerNexusEngine.module := None;
               DockerNexusEngine.operation := op;
               DockerNexusEngine.result := None;
               DockerNexusEngine.error := Some ("No module found for operation: " +:+ op);
               DockerNexusEngine.executionTime := endTime - startTime |}, s') /\
    DockerNexusEngine.modules s' = DockerNexusEngine.modules s /\
    DockerNexusEngine.module_counters s' = DockerNexusEngine.module_counters s /\
    DockerNexusEngine.modules_metrics (DockerNexusEngine.metrics s')
    = DockerNexusEngine.modules_metrics (DockerNexusEngine.metrics s) /\
    DockerNexusEngine.metric_counters s' = DockerNexusEngine.metric_counters s /\
    DockerNexusEngine.commands (DockerNexusEngine.metrics s')
    = DockerNexusEngine.commands (DockerNexusEngine.metrics s) + 1 /\
    DockerNexusEngine.errors (DockerNexusEngine.metrics s')
    = DockerNexusEngine.errors (DockerNexusEngine.metrics s) + 1.
Proof.
  intros Hroute. unfold DockerNexusEngine.execute, DockerNexusEngine.selectModule.
  rewrite Hroute. eexists. split; [reflexivity|]. repeat split.
Qed.

Lemma dispatch_unknown_operation_witness :
  exists s',
    DockerNexusEngine.execute 1700000000100 1700000000101 Samples.w0 "not_a_real_op"
      (JObj []) JUndefined Samples.engine
    = Some ({| DockerNexusEngine.success := false;
               DockerNexusEngine.module := None;
               DockerNexusEngine.operation := "not_a_real_op";
               DockerNexusEngine.result := None;
               DockerNexusEngine.error :=
                 Some "No module found for operation: not_a_real_op";
               DockerNexusEngine.executionTime := 1 |}, s') /\
    DockerNexusEngine.modules s' = DockerNexusEngine.modules Samples.engine /\
    DockerNexusEngine.module_counters s' = DockerNexusEngine.module_counters Samples.engine /\
    DockerNexusEngine.modules_metrics (DockerNexusEngine.metrics s') = None /\
    DockerNexusEngine.metric_counters s' = [] /\
    DockerNexusEngine.commands (DockerNexusEngine.metrics s') = 1 /\
    DockerNexusEngine.errors (DockerNexusEngine.metrics s') = 1.
Proof.
  apply (dispatch_unknown_operation 1700000000100 1700000000101 Samples.w0 "not_a_real_op"
           (JObj []) JUndefined Samples.engine).
  reflexivity.
Defined.

(** The operations that the table routes to [webserver] find no module
    either: the constructor creates none under that key. *)
Lemma webserver_operations_unrouted (isolation image runtime network storage
    : DockerNexusEngine.ModuleObject) (t : Z) (op : string) :
  JsMap.get op DockerNexusEngine.operationMap = Some "webserver" ->
  DockerNexusEngine.selectModule op
    (DockerNexusEngine.new isolation image runtime network storage t) = None.
Proof. intros H. unfold DockerNexusEngine.selectModule. now rewrite H. Qed.

(** A dispatch that reaches the runtime module counts one operation
    there: on the sample engine, [run_container] fails inside the module
    and leaves [stats.operations] of the runtime module at 1. *)
Example dispatch_run_container_counts :
  (fun r => (DockerNexusEngine.success r.1,
             DockerNexusEngine.error r.1,
             DockerNexusEngine.module_counters r.2))
    <$> DockerNexusEngine.execute 1700000000100 1700000000101 Samples.w0 "run_container"
          (JObj [("image", JStr "alpine")]) JUndefined Samples.engine
  = Some (true, None,
          [("isolation", 0); ("image", 0); ("runtime", 1); ("network", 0); ("storage", 0)]).
Proof. vm_compute. reflexivity. Qed.

(* --------------------------------------------------------------------- *)
(** ** The models of the JavaScript library, on known values *)
(* --------------------------------------------------------------------- *)

Example sha256_abc :
  SHA256.sha256_hex "abc"
  = "ba7816bf8f01cfea414140de5dae2223b00361a396177a9cb410ff61f20015ad".
Proof. vm_compute. reflexivity. Qed.

Example sha256_two_blocks :
  SHA256.sha256_hex "abcdbcdecdefdefgefghfghighijhijkijkljklmklmnlmnomnopnopq"
  = "248d6a61d20638b8e5c026930c3e6039a33ce45964ff2167f6ecedd419db06c1".
Proof. vm_compute. reflexivity. Qed.

Example number_to_string_samples :
  List.map JsNumber.to_string
    [JsNumber.of_Z 104857600; JsNumber.Finite 1 (-1); JsNumber.Finite 3 (-2);
     JsNumber.div (JsNumber.of_Z 1) (JsNumber.of_Z 3);
     JsNumber.add (JsNumber.div (JsNumber.of_Z 1) (JsNumber.of_Z 10))
                  (JsNumber.div (JsNumber.of_Z 2) (JsNumber.of_Z 10));
     JsNumber.of_Z (10 ^ 21); JsNumber.of_Z (2 ^ 53 + 1);
     JsNumber.div (JsNumber.of_Z 1) (JsNumber.of_Z 10000000);
     JsNumber.div (JsNumber.of_Z 1) (JsNumber.of_Z 0); JsNumber.NaN]
  = ["104857600"; "0.5"; "0.75"; "0.3333333333333333"; "0.30000000000000004";
     "1e+21"; "9007199254740992"; "1e-7"; "Infinity"; "NaN"].
Proof. vm_compute. reflexivity. Qed.

Example time_value_in_template :
  JsNumber.to_string (JsNumber.of_Z 1700000000001) = pretty 1700000000001.
Proof. vm_compute. reflexivity. Qed.

Example parseInt_samples :
  List.map (fun s => JsNumber.to_string (JsString.parseInt s))
           ["8080"; " 8080/tcp"; "0x1F"; "-12abc"; "tcp"]
  = ["8080"; "8080"; "31"; "-12"; "NaN"].
Proof. vm_compute. reflexivity. Qed.

Example toISOString_samples :
  List.map JsDate.toISOString [0; 951782400000; 1700000000000]
  = ["1970-01-01T00:00:00.000Z"; "2000-02-29T00:00:00.000Z"; "2023-11-14T22:13:20.000Z"].
Proof. vm_compute. reflexivity. Qed.

Example stringify_sample :
  Js.stringify (JArr [JNum (JsNumber.of_Z 1); JNull; JUndefined; JBool true;
                      JObj [("a", JUndefined)]])
  = Some "[1,null,null,true,{}]".
Proof. vm_compute. reflexivity. Qed.

Example parseDockerfile_sample :
  ImageModule.parseDockerfile
    (Samples.line "# build" (Samples.line "from  node:20" (Samples.line EmptyString "  # note")))
  = [ {| ImageModule.command := "FROM"; ImageModule.args := " node:20";
         ImageModule.original := "from  node:20" |};
      {| ImageModule.command := "#"; ImageModule.args := "note";
         ImageModule.original := "# note" |} ].
Proof. vm_compute. reflexivity. Qed.

(* --------------------------------------------------------------------- *)
(** ** Channels *)
(* --------------------------------------------------------------------- *)

Section ChannelFacts.
Context {T : Type}.
Implicit Types (c : Channel.Chan T) (t : Channel.Trace T) (us : list (Channel.Use T)).

Lemma use_in_order u t : Channel.in_order t -> Channel.in_order (Channel.use u t).
Proof.
  unfold Channel.in_order. intros H. destruct u as [data| |]; simpl.
  - unfold Channel.send.
    destruct ((Z.of_nat (length (Channel.buffer (Channel.chan t))) <? Channel.maxSize (Channel.chan t))
              || (Channel.maxSize (Channel.chan t) =? 0)); simpl.
    + now rewrite app_assoc, H.
    + exact H.
  - unfold Channel.receive.
    destruct (Channel.buffer (Channel.chan t)) as [|data rest] eqn:E; simpl.
    + now rewrite E.
    + now rewrite <- app_assoc.
  - exact H.
Qed.

Lemma fold_use_in_order us : forall t,
  Channel.in_order t -> Channel.in_order (fold_left (fun t u => Channel.use u t) us t).
Proof.
  induction us as [|u us IH]; intros t H; simpl; [exact H|].
  apply IH. now apply use_in_order.
Qed.






End ChannelFacts.

(** X1.  A channel delivers what it accepted, once each and in the order of
    acceptance: after any sequence of [send], [receive] and [close] on a
    channel made by [go.channel], the values handed out by [receive]
    followed by the values still buffered are exactly the values whose
    [send] answered [true].  [receive] on an empty buffer hands out
    [undefined] and [close] stops nothing. *)
Theorem channel_delivers_in_order {T : Type} (us : list (Channel.Use T)) (size : Z) :
  let t := Channel.uses us (Channel.channel size) in
  Channel.received t ++ Channel.buffer (Channel.chan t) = Channel.accepted t.
Proof.
  cbv zeta. unfold Channel.uses. apply (fold_use_in_order us). reflexivity.
Qed.


(* --------------------------------------------------------------------- *)
(** ** Namespaces and control groups *)
(* --------------------------------------------------------------------- *)

Section LinuxFacts.
Implicit Types (ns : Linux.Namespace) (ps : list Z) (pid p : Z).

Lemma set_add_NoDup pid ps : NoDup ps -> NoDup (Linux.set_add pid ps).
Proof.
  intros H. unfold Linux.set_add. case_bool_decide as Hin; [exact H|].
  apply NoDup_app. split; [exact H|]. split.
  - intros x Hx ->%list_elem_of_singleton. contradiction.
  - apply NoDup_singleton.
Qed.

Lemma set_add_elem pid p ps : p ∈ Linux.set_add pid ps <-> p = pid \/ p ∈ ps.
Proof.
  unfold Linux.set_add. case_bool_decide as Hin.
  - split; [auto | intros [->|H]; assumption].
  - rewrite elem_of_app, list_elem_of_singleton. tauto.
Qed.

Lemma set_delete_elem pid p ps : p ∈ Linux.set_delete pid ps <-> p <> pid /\ p ∈ ps.
Proof. unfold Linux.set_delete. apply (list_elem_of_filter (fun q => q <> pid)). Qed.

Lemma set_delete_absent pid ps : pid ∉ ps -> Linux.set_delete pid ps = ps.
Proof.
  unfold Linux.set_delete. induction ps as [|q ps IH]; intros Hn; [reflexivity|].
  rewrite filter_cons. apply not_elem_of_cons in Hn as [Hq Hps].
  rewrite decide_True by congruence. now rewrite IH.
Qed.

Lemma move_keeps m ns :
  NoDup (Linux.list_processes ns) ->
  NoDup (Linux.list_processes (Namespaces.move m ns)) /\
  Linux.ns_type (Namespaces.move m ns) = Linux.ns_type ns /\
  Linux.ns_isolated (Namespaces.move m ns) = Linux.ns_isolated ns.
Proof.
  intros H. destruct m as [pid|pid]; simpl; (split; [|now split]).
  - now apply set_add_NoDup.
  - now apply NoDup_filter.
Qed.

Lemma moves_keep ms : forall ns,
  NoDup (Linux.list_processes ns) ->
  NoDup (Linux.list_processes (Namespaces.moves ms ns)) /\
  Linux.ns_type (Namespaces.moves ms ns) = Linux.ns_type ns /\
  Linux.ns_isolated (Namespaces.moves ms ns) = Linux.ns_isolated ns.
Proof.
  unfold Namespaces.moves.
  induction ms as [|m ms IH]; intros ns H; simpl; [now repeat split|].
  destruct (move_keeps m ns H) as (H1 & H2 & H3).
  destruct (IH _ H1) as (H1' & H2' & H3').
  split; [exact H1'|]. split; congruence.
Qed.

Lemma lookup_prop_absent k (props : list (string * JsVal)) :
  k ∉ props.*1 -> Js.lookup_prop k props = None.
Proof.
  induction props as [|[k0 v0] props IH]; simpl; [reflexivity|].
  intros Hn. apply not_elem_of_cons in Hn as [Hk Hrest].
  destruct (String.eqb_spec k k0); [contradiction | now apply IH].
Qed.

Lemma lookup_set_prop k k' v (props : list (string * JsVal)) :
  Js.lookup_prop k' (Js.set_prop k v props)
  = if String.eqb k' k then Some v else Js.lookup_prop k' props.
Proof.
  induction props as [|[k0 v0] props IH]; simpl.
  - reflexivity.
  - destruct (String.eqb_spec k k0) as [->|Hk]; simpl.
    + now destruct (String.eqb_spec k' k0).
    + destruct (String.eqb_spec k' k0) as [->|Hk'].
      * destruct (String.eqb_spec k0 k); [congruence | reflexivity].
      * exact IH.
Qed.

(** Spreading an object over another: the properties of the object
    spread win, the others stay. *)
Lemma lookup_spread k (own : list (string * JsVal)) : forall base,
  NoDup own.*1 ->
  Js.lookup_prop k (fold_left (fun acc kv => Js.set_prop kv.1 kv.2 acc) own base)
  = match Js.lookup_prop k own with
    | Some v => Some v
    | None => Js.lookup_prop k base
    end.
Proof.
  induction own as [|[k0 v0] own IH]; intros base Hnd; simpl; [reflexivity|].
  apply NoDup_cons in Hnd as [Hk0 Hnd]. rewrite IH by exact Hnd.
  rewrite lookup_set_prop.
  destruct (String.eqb_spec k k0) as [->|Hk].
  - now rewrite lookup_prop_absent.
  - reflexivity.
Qed.

Lemma lookup_prop_app k (l1 l2 : list (string * JsVal)) :
  Js.lookup_prop k (l1 ++ l2)
  = match Js.lookup_prop k l1 with
    | Some v => Some v
    | None => Js.lookup_prop k l2
    end.
Proof.
  induction l1 as [|[k0 v0] l1 IH]; simpl; [reflexivity|].
  now destruct (String.eqb k k0).
Qed.

Lemma lookup_insert_index k n kv sorted :
  Js.array_index kv.1 = Some n -> indexed_by_key sorted ->
  indexed_by_key (Js.insert_index n kv sorted) /\
  Js.lookup_prop k (List.map snd (Js.insert_index n kv sorted))
  = if String.eqb k kv.1 then Some kv.2
    else Js.lookup_prop k (List.map snd sorted).
Proof.
  intros Hn Hs. destruct kv as [k0 v0]. simpl in Hn |- *.
  induction Hs as [|[m [k1 v1]] sorted Hm Hs IH]; simpl.
  - split; [repeat constructor; exact Hn | reflexivity].
  - simpl in Hm. destruct (N.leb_spec n m) as [Hle|Hlt]; simpl.
    + split; [|reflexivity]. constructor; [exact Hn|]. now constructor.
    + destruct IH as [IH1 IH2]. split; [now constructor|].
      destruct (String.eqb_spec k k1) as [->|Hk].
      * destruct (String.eqb_spec k1 k0) as [->|_]; [|reflexivity].
        rewrite Hn in Hm. injection Hm as ->. lia.
      * exact IH2.
Qed.

(** The order in which an object lists its properties does not change
    what a property holds. *)
Lemma lookup_own_keys_order k (props : list (string * JsVal)) :
  Js.lookup_prop k (Js.own_keys_order props) = Js.lookup_prop k props.
Proof.
  unfold Js.own_keys_order. rewrite lookup_prop_app.
  set (ins := fun (kv : string * JsVal) sorted =>
                match Js.array_index kv.1 with
                | Some n => Js.insert_index n kv sorted
                | None => sorted
                end).
  set (other := fun kv : string * JsVal =>
                  match Js.array_index kv.1 with
                  | Some _ => false
                  | None => true
                  end).
  assert (H : indexed_by_key (foldr ins [] props) /\
              Js.lookup_prop k (List.map snd (foldr ins [] props))
              = match Js.array_index k with
                | Some _ => Js.lookup_prop k props
                | None => None
                end /\
              Js.lookup_prop k (List.filter other props)
              = match Js.array_index k with
                | Some _ => None
                | None => Js.lookup_prop k props
                end).
  { induction props as [|[k0 v0] props (IH1 & IH2 & IH3)]; simpl.
    - split; [constructor|]. now destruct (Js.array_index k).
    - unfold ins at 1 3, other at 1. simpl.
      destruct (Js.array_index k0) as [n|] eqn:Hk0.
      + destruct (lookup_insert_index k n (k0, v0) _ Hk0 IH1) as [H1 H2].
        split; [exact H1|]. rewrite H2, IH2, IH3. simpl.
        destruct (String.eqb_spec k k0) as [->|_]; [now rewrite Hk0|].
        split; reflexivity.
      + split; [exact IH1|]. rewrite IH2. simpl. rewrite IH3.
        destruct (String.eqb_spec k k0) as [->|_]; [now rewrite Hk0|].
        split; reflexivity. }
  destruct H as (_ & -> & ->). now destruct (Js.array_index k), (Js.lookup_prop k props).
Qed.

End LinuxFacts.

(** X3.  A namespace keeps its processes as a set.  After any sequence of
    [enter] and [leave] on a namespace made by [linux.namespace(type)]:
    [list()] has no process twice, and [type] and [isolated] are as at
    creation; [enter] adds exactly its process and doing it twice is
    doing it once; [leave] removes exactly its process, does nothing for
    a process that is not there, and undoes an [enter] of a process that
    was not there. *)
Theorem namespace_membership (ms : list Namespaces.Move) (type : string) (pid p : Z) :
  let ns := Namespaces.moves ms (Linux.namespace type) in
  NoDup (Linux.list_processes ns) /\
  Linux.ns_type ns = type /\ Linux.ns_isolated ns = true /\
  (p ∈ Linux.list_processes (Linux.enter pid ns) <-> p = pid \/ p ∈ Linux.list_processes ns) /\
  (p ∈ Linux.list_processes (Linux.leave pid ns) <-> p <> pid /\ p ∈ Linux.list_processes ns) /\
  Linux.enter pid (Linux.enter pid ns) = Linux.enter pid ns /\
  (pid ∉ Linux.list_processes ns ->
   Linux.leave pid ns = ns /\ Linux.leave pid (Linux.enter pid ns) = ns).
Proof.
  cbv zeta.
  destruct (moves_keep ms (Linux.namespace type) ltac:(constructor)) as (Hnd & Hty & His).
  set (ns := Namespaces.moves ms (Linux.namespace type)) in *.
  split; [exact Hnd|]. split; [exact Hty|]. split; [exact His|].
  split; [apply set_add_elem|]. split; [apply set_delete_elem|]. split.
  - unfold Linux.enter. simpl. f_equal.
    unfold Linux.set_add at 1. rewrite bool_decide_eq_true_2; [reflexivity|].
    apply set_add_elem. now left.
  - intros Hn. unfold Linux.leave, Linux.enter, Linux.list_processes in *. simpl.
    rewrite (set_delete_absent pid _ Hn).
    unfold Linux.set_add. rewrite bool_decide_eq_false_2 by exact Hn.
    unfold Linux.set_delete at 1. rewrite filter_app.
    fold (Linux.set_delete pid (Linux.ns_processes ns)).
    rewrite (set_delete_absent pid _ Hn).
    rewrite filter_cons, decide_False by (intros H; now apply H).
    rewrite filter_nil, app_nil_r. now destruct ns.
Qed.

(** X4.  The limits of a control group: [linux.cgroup(name, limits)] starts
    from [{ memory: '512m', cpu: '1.0' }] and lets every property of
    [limits] override it.  [createCgroup] stores that control group under
    [name], whatever was stored there before, and always answers with an
    Ok result, which echoes [limits] as given, without the defaults. *)
Theorem createCgroup_limits (name : string) (props : list (string * JsVal)) (k : string)
    (s : IsolationModule.State) :
  NoDup props.*1 ->
  exists r s' cg,
    IsolationModule.createCgroup name (JObj props) s = (Normal r, s') /\
    Rust.isOk r = true /\
    Js.get_prop (Rust.value r) "limits" = Normal (JObj props) /\
    IsolationModule.cgroups_map s' !! name = Some cg /\
    Linux.cg_name cg = name /\ Linux.cg_processes cg = [] /\
    Js.lookup_prop k (Linux.cg_limits cg)
    = match Js.lookup_prop k props with
      | Some v => Some v
      | None => if String.eqb k "memory" then Some (JStr "512m")
                else if String.eqb k "cpu" then Some (JStr "1.0")
                else None
      end /\
    (forall name', name' <> name ->
       IsolationModule.cgroups_map s' !! name' = IsolationModule.cgroups_map s !! name') /\
    IsolationModule.namespaces_map s' = IsolationModule.namespaces_map s /\
    IsolationModule.containers s' = IsolationModule.containers s.
Proof.
  intros Hnd. eexists _, _, _. split; [reflexivity|]. cbn [snd fst].
  split; [reflexivity|]. split; [reflexivity|].
  split; [apply lookup_insert_eq|]. split; [reflexivity|]. split; [reflexivity|].
  split; [|split; [|split; reflexivity]].
  - unfold Linux.cgroup, Js.spread. cbn [Linux.cg_limits].
    rewrite lookup_own_keys_order, lookup_spread by exact Hnd. reflexivity.
  - intros name' Hne. cbn. now rewrite lookup_insert_ne.
Qed.

Lemma createCgroup_limits_witness :
  exists r s' cg,
    IsolationModule.createCgroup "web" (JObj [("memory", JStr "1g")]) IsolationModule.new
    = (Normal r, s') /\
    Rust.isOk r = true /\
    Js.get_prop (Rust.value r) "limits" = Normal (JObj [("memory", JStr "1g")]) /\
    IsolationModule.cgroups_map s' !! "web" = Some cg /\
    Linux.cg_name cg = "web" /\ Linux.cg_processes cg = [] /\
    Js.lookup_prop "cpu" (Linux.cg_limits cg) = Some (JStr "1.0") /\
    (forall name', name' <> "web" ->
       IsolationModule.cgroups_map s' !! name'
       = IsolationModule.cgroups_map IsolationModule.new !! name') /\
    IsolationModule.namespaces_map s' = IsolationModule.namespaces_map IsolationModule.new /\
    IsolationModule.containers s' = IsolationModule.containers IsolationModule.new.
Proof.
  apply (createCgroup_limits "web" [("memory", JStr "1g")] "cpu" IsolationModule.new).
  repeat constructor. set_solver.
Defined.

(* --------------------------------------------------------------------- *)
(** ** [DockerModule.process] *)
(* --------------------------------------------------------------------- *)

Section GoKeeps.
Context {St V : Type} (R : St -> St -> Prop).
Hypothesis R_refl : forall s, R s s.
Hypothesis R_trans : forall s1 s2 s3, R s1 s2 -> R s2 s3 -> R s1 s3.
Implicit Types (tasks : list (Go.Task St V)).

Lemma step_keeps tasks ev (r : Go.Run St V) :
  Forall (fun t => forall s, R s (t s).2) tasks ->
  R (Go.shared r) (Go.shared (Go.step tasks ev r)).
Proof using R_refl.
  intros Hall. destruct ev as [i|i]; simpl.
  - destruct (tasks !! i) as [t|] eqn:Ht; [|apply R_refl].
    pose proof (proj1 (Forall_lookup _ _) Hall i t Ht (Go.shared r)) as Hk.
    unfold Go.goroutine. now destruct (t (Go.shared r)).
  - destruct (Go.settled_as r !! i) as [[c|]|]; apply R_refl.
Qed.

Lemma run_keeps tasks evs :
  Forall (fun t => forall s, R s (t s).2) tasks ->
  forall r : Go.Run St V, R (Go.shared r) (Go.shared (Go.run tasks evs r).1).
Proof using R_refl R_trans.
  intros Hall. induction evs as [|ev evs IH]; intros r; simpl.
  - destruct (Go.outcome (Go.all r)); apply R_refl.
  - destruct (Go.outcome (Go.all r)); [apply R_refl|].
    eapply R_trans; [apply step_keeps; exact Hall | apply IH].
Qed.

(** A relation kept by every task is kept by [go.concurrent]. *)
Lemma concurrent_keeps tasks evs s :
  Forall (fun t => forall s, R s (t s).2) tasks ->
  R s (Go.concurrent evs tasks s).1.2.
Proof using R_refl R_trans.
  intros Hall. unfold Go.concurrent.
  pose proof (run_keeps tasks evs Hall (Go.run_init (length tasks) s)) as H.
  now destruct (Go.run tasks evs (Go.run_init (length tasks) s)).
Qed.

End GoKeeps.

Section RuntimeBase.
Implicit Types (w : Inputs) (s : RuntimeModule.State) (ref : nat).

Lemma same_base_refl s : same_base s s.
Proof. reflexivity. Qed.

Lemma same_base_trans s1 s2 s3 : same_base s1 s2 -> same_base s2 s3 -> same_base s1 s3.
Proof. unfold same_base. congruence. Qed.

Lemma update_container_base ref f s :
  same_base s (RuntimeModule.update_container ref f s).
Proof. reflexivity. Qed.

Lemma startupTasks_base w containerId options ref :
  Forall (fun t : Go.Task RuntimeModule.State JsVal => forall s, same_base s (t s).2)
         (RuntimeModule.startupTasks w containerId options ref).
Proof.
  constructor; [|constructor; [|constructor; [|constructor]]]; intros s.
  - unfold RuntimeModule.setupContainerNetwork, bind, lift_completion.
    now destruct (Js.get_prop options "ports").
  - rewrite setupContainerVolumes_frame. reflexivity.
  - unfold RuntimeModule.startContainerProcess.
    now destruct (RuntimeModule.store s !! ref).
Qed.

Lemma failed_base ref e s : same_base s (RuntimeModule.failed ref e s).2.
Proof. reflexivity. Qed.

Lemma running_base w containerId image options ref s :
  same_base s (RuntimeModule.running w containerId image options ref s).2.
Proof.
  unfold RuntimeModule.running, RuntimeModule.attachToContainer,
    bind, modify, get, lift_completion, ret, throw.
  destruct (Js.get_prop options "interactive") as [interactive|e]; [|reflexivity].
  destruct (Js.truthy interactive); cbv beta iota.
  - match goal with |- context [JsMap.get ?k ?m] => destruct (JsMap.get k m) end;
      [|reflexivity].
    match goal with |- context [match ?l !! ref with _ => _ end] => destruct (l !! ref) end;
      reflexivity.
  - match goal with |- context [match ?l !! ref with _ => _ end] => destruct (l !! ref) end;
      reflexivity.
Qed.

Lemma runContainer_base w image command options s c s' :
  RuntimeModule.runContainer w image command options s = Some (c, s') ->
  same_base s s'.
Proof.
  unfold RuntimeModule.runContainer.
  destruct (RuntimeModule.new_container w _ image command _) as [record|e];
    [|intros [= _ <-]; reflexivity].
  cbn [Rust.borrow Rust.own_scoped Rust.own Rust.borrowed Rust.dropped orb
       Rust.resource Rust.lifetime].
  set (s0 := RuntimeModule.set_store _ s).
  assert (B0 : same_base s s0) by reflexivity.
  destruct (RuntimeModule.goEssence s0) as [[]|].
  - set (tasks := RuntimeModule.startupTasks w _ _ _).
    pose proof (concurrent_keeps same_base same_base_refl same_base_trans tasks
                  (Go.sync_schedule (length tasks)) s0
                  (startupTasks_base _ _ _ _)) as Hc.
    destruct (Go.concurrent (Go.sync_schedule (length tasks)) tasks s0)
      as [[[[results|e]|] s1] rest]; cbn [fst snd] in Hc; [| |discriminate].
    + unfold try_catch.
      pose proof (running_base w (RuntimeModule.generateContainerId w) image
                    (Js.default_arg options (JObj []))
                    (length (RuntimeModule.store s)) s1) as Hr.
      destruct (RuntimeModule.running w _ image _ _ s1) as [[r|e] s2]; cbn [snd] in Hr.
      * intros [= _ <-].
        eapply same_base_trans; [exact B0|]. eapply same_base_trans; [exact Hc|].
        eapply same_base_trans; [exact Hr|].
        apply (background_keeps same_base same_base_refl same_base_trans).
        apply startupTasks_base.
      * pose proof (failed_base (length (RuntimeModule.store s)) e s2) as Hf.
        destruct (RuntimeModule.failed _ e s2) as [cf sf]. cbn [snd] in Hf.
        intros [= _ <-].
        eapply same_base_trans; [exact B0|]. eapply same_base_trans; [exact Hc|].
        eapply same_base_trans; [exact Hr|]. eapply same_base_trans; [exact Hf|].
        apply (background_keeps same_base same_base_refl same_base_trans).
        apply startupTasks_base.
    + pose proof (failed_base (length (RuntimeModule.store s)) e s1) as Hf.
      destruct (RuntimeModule.failed _ e s1) as [cf sf]. cbn [snd] in Hf.
      intros [= _ <-].
      eapply same_base_trans; [exact B0|]. eapply same_base_trans; [exact Hc|].
      eapply same_base_trans; [exact Hf|].
      apply (background_keeps same_base same_base_refl same_base_trans).
      apply startupTasks_base.
  - intros [= _ <-]. reflexivity.
Qed.

Lemma borrow_at_base ref s : same_base s (RuntimeModule.borrow_at ref s).2.
Proof.
  unfold RuntimeModule.borrow_at.
  destruct (RuntimeModule.store s !! ref) as [h|]; [|reflexivity].
  now destruct (Rust.borrow h).
Qed.

Lemma summaries_base refs : forall s, same_base s (RuntimeModule.summaries refs s).2.
Proof.
  induction refs as [|ref refs IH]; intros s; simpl; [reflexivity|].
  unfold bind. pose proof (borrow_at_base ref s) as Hb.
  destruct (RuntimeModule.borrow_at ref s) as [[c|e] s1]; cbn [snd] in *; [|exact Hb].
  specialize (IH s1).
  destruct (RuntimeModule.summaries refs s1) as [[cs|e] s2]; cbn [snd] in *;
    eapply same_base_trans; eassumption.
Qed.

Lemma listContainers_base showAll s :
  same_base s (RuntimeModule.listContainers showAll s).2.
Proof.
  unfold RuntimeModule.listContainers, bind, get.
  pose proof (summaries_base (JsMap.values (RuntimeModule.containers s)) s) as H.
  now destruct (RuntimeModule.summaries _ s) as [[cs|e] s1].
Qed.

Lemma getContainerLogs_base containerId s :
  same_base s (RuntimeModule.getContainerLogs containerId s).2.
Proof.
  unfold RuntimeModule.getContainerLogs, bind, get.
  destruct (RuntimeModule.lookup_container containerId s) as [ref|]; [|reflexivity].
  pose proof (borrow_at_base ref s) as H.
  now destruct (RuntimeModule.borrow_at ref s) as [[c|e] s1].
Qed.

(** [_handleOperation] of the runtime module leaves the inherited
    fields alone, and always settles. *)
Lemma runtime_handleOperation_base w operation data options s :
  exists c s', RuntimeDispatch.handleOperation w operation data options s = Some (c, s') /\
               same_base s s'.
Proof.
  unfold RuntimeDispatch.handleOperation, RuntimeDispatch.undefined_method,
    RuntimeDispatch.sync.
  repeat match goal with
         | |- context [if String.eqb operation ?x then _ else _] =>
             destruct (String.eqb operation x)
         end.
  - destruct (Js.get_prop data "image") as [image|]; [|eexists _, _; split; reflexivity].
    destruct (Js.get_prop data "command") as [command|]; [|eexists _, _; split; reflexivity].
    destruct (Js.get_prop data "options") as [opts|]; [|eexists _, _; split; reflexivity].
    destruct (call_returns (RuntimeModule.run_container w image command opts) s) as [s1 Hs1].
    simpl in Hs1.
    destruct (RuntimeModule.runContainer w image command opts s) as [[c s']|] eqn:E;
      [|discriminate].
    exists c, s'. split; [reflexivity|]. eapply runContainer_base; exact E.
  - destruct (Js.get_prop data "containerId"); eexists _, _; split; reflexivity.
  - destruct (Js.get_prop data "containerId"); eexists _, _; split; reflexivity.
  - destruct (Js.get_prop data "all") as [all|]; [|eexists _, _; split; reflexivity].
    eexists _, _. split; [apply f_equal, surjective_pairing|]. apply listContainers_base.
  - destruct (Js.get_prop data "containerId"), (Js.get_prop data "command");
      eexists _, _; split; reflexivity.
  - destruct (Js.get_prop data "containerId") as [cid|]; [|eexists _, _; split; reflexivity].
    eexists _, _. split; [apply f_equal, surjective_pairing|]. apply getContainerLogs_base.
  - eexists _, _; split; reflexivity.
Qed.

End RuntimeBase.

(** X5.  A module that was shut down stays shut down: [process] throws
    [Module <name> is not active] before it counts or runs anything, and
    the module is left as it is, so that every later call does the same.
    (For every subclass whose state holds the inherited fields.) *)
Theorem shutdown_is_final {St R : Type} {I : DockerModule.Impl St R}
    (w : Inputs) (operation : string) (data options : JsVal) (s : St) :
  (forall b s0, DockerModule.base (DockerModule.set_base b s0) = b) ->
  DockerModule.process w operation data options (shutdown_module s)
  = Some (Throw (Error ("Module " +:+ DockerModule.name (DockerModule.base s)
                        +:+ " is not active")),
          shutdown_module s).
Proof.
  intros Hlaw. unfold DockerModule.process, shutdown_module. rewrite Hlaw. reflexivity.
Qed.

Lemma shutdown_is_final_witness :
  DockerModule.process Samples.w0 "list_containers" (JObj []) JUndefined
    (shutdown_module RuntimeModule.new)
  = Some (Throw (Error "Module Runtime is not active"), shutdown_module RuntimeModule.new).
Proof.
  exact (shutdown_is_final Samples.w0 "list_containers" (JObj []) JUndefined
           RuntimeModule.new (fun b s0 => eq_refl)).
Defined.

(** X6.  What one [process] call does to the counters of an active module
    whose [_handleOperation] leaves the inherited fields alone: it
    returns or throws exactly what [_handleOperation] returns or throws,
    called with the operation already counted; [stats.operations] has
    gone up by one, [stats.errors] by one exactly when the call throws,
    [stats.lastOperation] is the operation, and the module is still
    active under the same name. *)
Theorem process_counts {St R : Type} {I : DockerModule.Impl St R}
    (w : Inputs) (operation : string) (data options : JsVal) (s : St)
    (c : Completion R) (s' : St) :
  (forall b s0, DockerModule.base (DockerModule.set_base b s0) = b) ->
  (forall w0 op d o s0 c0 s1,
     DockerModule.handleOperation w0 op d o s0 = Some (c0, s1) ->
     DockerModule.base s1 = DockerModule.base s0) ->
  DockerModule.isActive (DockerModule.base s) = true ->
  DockerModule.process w operation data options s = Some (c, s') ->
  (exists s1,
     DockerModule.handleOperation w operation data (Js.default_arg options (JObj []))
       (DockerModule.set_base
          (DockerModule.count_operation operation (DockerModule.base s)) s)
     = Some (c, s1)) /\
  DockerModule.name (DockerModule.base s') = DockerModule.name (DockerModule.base s) /\
  DockerModule.isActive (DockerModule.base s') = true /\
  DockerModule.operations (DockerModule.stats (DockerModule.base s'))
  = DockerModule.operations (DockerModule.stats (DockerModule.base s)) + 1 /\
  DockerModule.errors (DockerModule.stats (DockerModule.base s'))
  = DockerModule.errors (DockerModule.stats (DockerModule.base s))
    + (if is_normal c then 0 else 1) /\
  DockerModule.lastOperation (DockerModule.stats (DockerModule.base s')) = Some operation.
Proof.
  intros Hlaw Hkeep Hactive. unfold DockerModule.process. rewrite Hactive. cbn [negb].
  set (s0 := DockerModule.set_base _ s).
  destruct (DockerModule.handleOperation w operation data _ s0) as [[[r|e] s1]|] eqn:E;
    [| |discriminate]; intros [= <- <-]; (split; [now exists s1|]);
    pose proof (Hkeep _ _ _ _ _ _ _ E) as Hb; unfold s0 in Hb; rewrite Hlaw in Hb.
  - rewrite Hb. cbn. rewrite Hactive. repeat split; lia.
  - rewrite Hlaw, Hb. cbn. rewrite Hactive. repeat split; lia.
Qed.

Lemma process_counts_witness :
  exists c s',
    DockerModule.process Samples.w0 "start_container" (JObj []) JUndefined RuntimeModule.new
    = Some (c, s') /\
    c = Throw (TypeError "this.startContainer is not a function") /\
    DockerModule.operations (DockerModule.stats (RuntimeModule.base s')) = 1 /\
    DockerModule.errors (DockerModule.stats (RuntimeModule.base s')) = 1 /\
    DockerModule.lastOperation (DockerModule.stats (RuntimeModule.base s'))
    = Some "start_container".
Proof.
  eexists _, _. split; [vm_compute; reflexivity|]. split; [reflexivity|].
  destruct (process_counts (I := RuntimeModule_Impl)
              Samples.w0 "start_container" (JObj []) JUndefined
              RuntimeModule.new _ _
              ltac:(intros b s0; reflexivity)
              ltac:(intros w0 op d o s0 c0 s1 E;
                    destruct (runtime_handleOperation_base w0 op d o s0)
                      as (c1 & s2 & E1 & Hb);
                    simpl in E; rewrite E1 in E; injection E as <- <-; exact Hb)
              ltac:(reflexivity) ltac:(vm_compute; reflexivity))
    as (_ & _ & _ & Hops & Herr & Hlast).
  split; [exact Hops|]. split; [exact Herr | exact Hlast].
Defined.

(* --------------------------------------------------------------------- *)
(** ** The runtime module as the constructor makes it *)
(* --------------------------------------------------------------------- *)

Section RuntimeEdges.
Implicit Types (w : Inputs) (s : RuntimeModule.State).

Lemma calls_return history : forall s, is_Some (RuntimeModule.calls history s).
Proof.
  induction history as [|c history IH]; intros s; simpl; [eauto|].
  destruct (call_returns c s) as [s1 ->]. apply IH.
Qed.

(** Reading the options of a run throws for [null] only. *)
Lemma new_container_normal w containerId image command options :
  options <> JNull ->
  exists record,
    RuntimeModule.new_container w containerId image command
      (Js.default_arg options (JObj [])) = Normal record.
Proof.
  intros Hnull. destruct options; try contradiction; eexists; reflexivity.
Qed.

(** Without [goEssence], a run whose record could be built fails at
    [this.goEssence.concurrent], inside [try]. *)
Lemma runContainer_without_go w image command options s record :
  RuntimeModule.goEssence s = None ->
  RuntimeModule.new_container w (RuntimeModule.generateContainerId w) image command
    (Js.default_arg options (JObj [])) = Normal record ->
  exists s',
    RuntimeModule.runContainer w image command options s
    = Some (Normal (Rust.result JNull
                      (Some "Cannot read properties of undefined (reading 'concurrent')")),
            s') /\
    RuntimeModule.containers s' = RuntimeModule.containers s /\
    RuntimeModule.goEssence s' = None.
Proof.
  intros Hgo Hrec. unfold RuntimeModule.runContainer. rewrite Hrec.
  cbn [Rust.borrow Rust.own_scoped Rust.own Rust.borrowed Rust.dropped orb
       Rust.resource Rust.lifetime RuntimeModule.goEssence RuntimeModule.set_store].
  rewrite Hgo. rewrite failed_spec. eexists. split; [reflexivity|].
  split; [reflexivity | exact Hgo].
Qed.

End RuntimeEdges.

(** X13.  A runtime module made by the constructor never runs a container.
    After any history of calls on it (runs, listings, log reads, log
    timers; every one of them returns): [listContainers] answers with the
    empty list for either view, [getContainerLogs] answers
    [Container not found] for every id, and [runContainer] with options
    other than [null] answers with the failure
    [Cannot read properties of undefined (reading 'concurrent')]: the
    constructor defines no [goEssence].  None of the three registers
    anything. *)
Theorem constructed_runtime_stays_empty (history : list RuntimeModule.Call)
    (w : Inputs) (image command options showAll containerId : JsVal) :
  exists s,
    RuntimeModule.calls history RuntimeModule.new = Some s /\
    RuntimeModule.listContainers showAll s = (Normal (Rust.ok (JArr [])), s) /\
    RuntimeModule.getContainerLogs containerId s
    = (Normal (Rust.result JNull (Some "Container not found")), s) /\
    (options <> JNull ->
     exists s',
       RuntimeModule.runContainer w image command options s
       = Some (Normal (Rust.result JNull
                         (Some "Cannot read properties of undefined (reading 'concurrent')")),
               s') /\
       RuntimeModule.containers s' = []).
Proof.
  destruct (calls_return history RuntimeModule.new) as [s Hs].
  destruct (constructed_runtime_registers_nothing history s Hs) as [Hgo Hcont].
  exists s. split; [exact Hs|]. split; [|split].
  - unfold RuntimeModule.listContainers, bind, get. rewrite Hcont. simpl.
    now destruct (Js.truthy (Js.default_arg showAll (JBool false))).
  - unfold RuntimeModule.getContainerLogs, bind, get, RuntimeModule.lookup_container.
    rewrite Hcont. now destruct containerId.
  - intros Hnull.
    destruct (new_container_normal w (RuntimeModule.generateContainerId w)
                image command options Hnull) as [record Hrec].
    destruct (runContainer_without_go w image command options s record Hgo Hrec)
      as (s' & Hrun & Hc & _).
    exists s'. split; [exact Hrun | congruence].
Qed.

(** X14.  [runContainer] with [null] for options does not answer with a
    failure result: [options.ports] is read before [try], so the call
    throws a [TypeError] (the promise is rejected), and nothing is
    created, not even a container marked failed.  Through [process] the
    exception is counted as an error of the module. *)
Theorem runContainer_null_options_throws (w : Inputs) (image command : JsVal)
    (s : RuntimeModule.State) :
  RuntimeModule.runContainer w image command JNull s
  = Some (Throw (TypeError "Cannot read properties of null (reading 'ports')"), s) /\
  (DockerModule.isActive (RuntimeModule.base s) = true ->
   DockerModule.process w "run_container"
     (JObj [("image", image); ("command", command); ("options", JNull)]) JUndefined s
   = Some (Throw (TypeError "Cannot read properties of null (reading 'ports')"),
           RuntimeDispatch.set_base
             (DockerModule.count_error
                (DockerModule.count_operation "run_container" (RuntimeModule.base s))) s)).
Proof.
  split; [reflexivity|].
  intros Hactive. unfold DockerModule.process. cbn [DockerModule.base RuntimeModule_Impl].
  rewrite Hactive. reflexivity.
Qed.

(** X15.  Three operations that the runtime module lists among its
    capabilities and routes in [_handleOperation] call methods the class
    does not define.  On an active module, [process] of
    [start_container], [stop_container] or [exec_container] with a
    payload object throws [this.<method> is not a function]; the call is
    counted as an operation and as an error, and nothing else of the
    module changes. *)
Theorem runtime_operations_without_method (w : Inputs) (props : list (string * JsVal))
    (options : JsVal) (s : RuntimeModule.State) (operation method : string) :
  (operation, method) ∈ [("start_container", "startContainer");
                         ("stop_container", "stopContainer");
                         ("exec_container", "execInContainer")] ->
  DockerModule.isActive (RuntimeModule.base s) = true ->
  operation ∈ Capabilities.runtime /\
  DockerModule.process w operation (JObj props) options s
  = Some (Throw (TypeError ("this." +:+ method +:+ " is not a function")),
          RuntimeDispatch.set_base
            (DockerModule.count_error
               (DockerModule.count_operation operation (RuntimeModule.base s))) s).
Proof.
  intros Hop Hactive.
  unfold DockerModule.process. cbn [DockerModule.base RuntimeModule_Impl].
  rewrite Hactive. cbn [negb].
  repeat (apply elem_of_cons in Hop as [[= -> ->]|Hop]); [| | |now apply elem_of_nil in Hop];
    (split; [set_solver|reflexivity]).
Qed.

Lemma runtime_operations_without_method_witness :
  "stop_container" ∈ Capabilities.runtime /\
  DockerModule.process Samples.w0 "stop_container" (JObj [("containerId", JStr "abc")])
    JUndefined RuntimeModule.new
  = Some (Throw (TypeError "this.stopContainer is not a function"),
          RuntimeDispatch.set_base
            (DockerModule.count_error
               (DockerModule.count_operation "stop_container"
                  (RuntimeModule.base RuntimeModule.new))) RuntimeModule.new).
Proof.
  apply (runtime_operations_without_method Samples.w0 [("containerId", JStr "abc")]
           JUndefined RuntimeModule.new "stop_container" "stopContainer").
  - set_solver.
  - reflexivity.
Defined.

(* --------------------------------------------------------------------- *)
(** ** The engine: counters, routes, and the web server *)
(* --------------------------------------------------------------------- *)

Section EngineFacts.
Implicit Types (s : DockerNexusEngine.State) (w : Inputs).
Implicit Types (table : list (string * DockerNexusEngine.ModuleMetrics)).

Lemma get_absent {V} k (m : list (string * V)) : k ∉ m.*1 -> JsMap.get k m = None.
Proof.
  induction m as [|[k0 v0] m IH]; simpl; [reflexivity|].
  intros Hn. apply not_elem_of_cons in Hn as [Hk Hrest].
  destruct (String.eqb_spec k k0); [contradiction | now apply IH].
Qed.

Lemma set_present_keys {V} k (v v' : V) (m : list (string * V)) :
  JsMap.get k m = Some v -> (JsMap.set k v' m).*1 = m.*1.
Proof.
  induction m as [|[k0 v0] m IH]; simpl; [discriminate|].
  destruct (String.eqb_spec k k0) as [->|Hk]; [reflexivity|].
  intros H. cbn. f_equal. now apply IH.
Qed.

Lemma counted_set name table total avg :
  let old := default {| DockerNexusEngine.operations := 0;
                        DockerNexusEngine.totalTime := 0;
                        DockerNexusEngine.avgTime := JsNumber.of_Z 0 |}
                     (JsMap.get name table) in
  foldr (fun entry acc => DockerNexusEngine.operations entry.2 + acc) 0
    (JsMap.set name {| DockerNexusEngine.operations := DockerNexusEngine.operations old + 1;
                       DockerNexusEngine.totalTime := total;
                       DockerNexusEngine.avgTime := avg |} table)
  = foldr (fun entry acc => DockerNexusEngine.operations entry.2 + acc) 0 table + 1.
Proof.
  cbv zeta. induction table as [|[k0 v0] table IH]; simpl; [reflexivity|].
  destruct (String.eqb_spec name k0) as [->|Hk]; simpl; [lia|].
  rewrite IH. lia.
Qed.

Lemma timed_set name table ops avg (elapsed : Z) :
  let old := default {| DockerNexusEngine.operations := 0;
                        DockerNexusEngine.totalTime := 0;
                        DockerNexusEngine.avgTime := JsNumber.of_Z 0 |}
                     (JsMap.get name table) in
  foldr (fun entry acc => DockerNexusEngine.totalTime entry.2 + acc) 0
    (JsMap.set name {| DockerNexusEngine.operations := ops;
                       DockerNexusEngine.totalTime :=
                         DockerNexusEngine.totalTime old + elapsed;
                       DockerNexusEngine.avgTime := avg |} table)
  = foldr (fun entry acc => DockerNexusEngine.totalTime entry.2 + acc) 0 table + elapsed.
Proof.
  cbv zeta. induction table as [|[k0 v0] table IH]; simpl; [lia|].
  destruct (String.eqb_spec name k0) as [->|Hk]; simpl; [lia|].
  rewrite IH. lia.
Qed.

(** What one [execute] does to the counters of the engine. *)
Lemma execute_step startTime endTime w op data options s out s' :
  DockerNexusEngine.execute startTime endTime w op data options s = Some (out, s') ->
  DockerNexusEngine.commands (DockerNexusEngine.metrics s')
  = DockerNexusEngine.commands (DockerNexusEngine.metrics s) + 1 /\
  DockerNexusEngine.uptime (DockerNexusEngine.metrics s')
  = DockerNexusEngine.uptime (DockerNexusEngine.metrics s) /\
  (DockerNexusEngine.modules s').*1 = (DockerNexusEngine.modules s).*1 /\
  DockerNexusEngine.operation out = op /\
  DockerNexusEngine.executionTime out = endTime - startTime /\
  if DockerNexusEngine.success out
  then DockerNexusEngine.errors (DockerNexusEngine.metrics s')
       = DockerNexusEngine.errors (DockerNexusEngine.metrics s) /\
       EngineApi.counted_operations s' = EngineApi.counted_operations s + 1 /\
       EngineApi.counted_time s' = EngineApi.counted_time s + (endTime - startTime) /\
       is_Some (DockerNexusEngine.result out) /\ DockerNexusEngine.error out = None
  else DockerNexusEngine.errors (DockerNexusEngine.metrics s')
       = DockerNexusEngine.errors (DockerNexusEngine.metrics s) + 1 /\
       EngineApi.counted_operations s' = EngineApi.counted_operations s /\
       EngineApi.counted_time s' = EngineApi.counted_time s /\
       DockerNexusEngine.result out = None /\ is_Some (DockerNexusEngine.error out).
Proof.
  unfold DockerNexusEngine.execute, DockerNexusEngine.selectModule, DockerNexusEngine.route.
  destruct (JsMap.get op DockerNexusEngine.operationMap) as [key|] eqn:Hroute.
  - cbn [DockerNexusEngine.modules].
    destruct (JsMap.get key (DockerNexusEngine.modules s)) as [m|] eqn:Hm.
    + destruct (DockerNexusEngine.module_process w op data _ m) as [[[r|e] m']|];
        [| |discriminate]; intros [= <- <-];
        unfold EngineApi.counted_operations, EngineApi.counted_time; engine_fields;
        rewrite (set_present_keys key m m' _ Hm).
      * rewrite counted_set, timed_set. repeat split; eauto.
      * repeat split; eauto.
    + intros [= <- <-].
      unfold EngineApi.counted_operations, EngineApi.counted_time; engine_fields.
      repeat split; eauto.
  - intros [= <- <-].
    unfold EngineApi.counted_operations, EngineApi.counted_time; engine_fields.
    repeat split; eauto.
Qed.

Lemma filter_success_cons (out : DockerNexusEngine.Outcome) outs :
  Z.of_nat (length (EngineApi.succeeded (out :: outs)))
  = (if DockerNexusEngine.success out then 1 else 0)
    + Z.of_nat (length (EngineApi.succeeded outs)) /\
  Z.of_nat (length (EngineApi.failed (out :: outs)))
  = (if DockerNexusEngine.success out then 0 else 1)
    + Z.of_nat (length (EngineApi.failed outs)).
Proof.
  unfold EngineApi.succeeded, EngineApi.failed. simpl.
  destruct (DockerNexusEngine.success out); simpl; lia.
Qed.

(** The counters after a history of calls. *)
Lemma executes_counts rs : forall s outs s',
  EngineApi.executes rs s = Some (outs, s') ->
  length outs = length rs /\
  List.map DockerNexusEngine.operation outs = List.map EngineApi.req_operation rs /\
  (DockerNexusEngine.modules s').*1 = (DockerNexusEngine.modules s).*1 /\
  DockerNexusEngine.uptime (DockerNexusEngine.metrics s')
  = DockerNexusEngine.uptime (DockerNexusEngine.metrics s) /\
  DockerNexusEngine.commands (DockerNexusEngine.metrics s')
  = DockerNexusEngine.commands (DockerNexusEngine.metrics s) + Z.of_nat (length rs) /\
  DockerNexusEngine.errors (DockerNexusEngine.metrics s')
  = DockerNexusEngine.errors (DockerNexusEngine.metrics s)
    + Z.of_nat (length (EngineApi.failed outs)) /\
  EngineApi.counted_operations s'
  = EngineApi.counted_operations s + Z.of_nat (length (EngineApi.succeeded outs)) /\
  EngineApi.counted_time s'
  = EngineApi.counted_time s
    + foldr (fun out acc => DockerNexusEngine.executionTime out + acc) 0
            (EngineApi.succeeded outs).
Proof.
  induction rs as [|r rs IH]; intros s outs s'; simpl.
  - intros [= <- <-]. cbn. repeat split; lia.
  - unfold EngineApi.serve.
    destruct (DockerNexusEngine.execute _ _ _ _ _ _ s) as [[out s1]|] eqn:E; [|discriminate].
    destruct (EngineApi.executes rs s1) as [[outs1 s2]|] eqn:E1; [|discriminate].
    intros [= <- <-].
    destruct (execute_step _ _ _ _ _ _ _ _ _ E) as (Hc & Hu & Hk & Hop & Ht & Hs).
    destruct (IH _ _ _ E1) as (Hl' & Hops' & Hk' & Hu' & Hc' & He' & Hn' & Ht').
    destruct (filter_success_cons out outs1) as [Fs Ff].
    split; [simpl; congruence|]. split; [simpl; congruence|].
    split; [congruence|]. split; [congruence|].
    split; [lia|].
    rewrite He', Hn', Ht', Fs, Ff.
    unfold EngineApi.succeeded in *. simpl.
    destruct (DockerNexusEngine.success out); destruct Hs as (He & Hn & Htm & _);
      simpl; rewrite ?Ht; repeat split; lia.
Qed.

End EngineFacts.

(** X20.  The counters of the engine balance.  After any history of
    [execute] calls on an engine made by the constructor, each awaited
    before the next, with any five modules: [metrics.commands] is the
    number of calls; [metrics.errors] is the number of failure outcomes;
    the operations counted in [metrics.modules] add up to the number of
    success outcomes, and the times counted there to the execution times
    of those outcomes; so [commands] is [errors] plus the operations
    counted per module.  [metrics.uptime] still holds the time of
    construction, and [this.modules] has the five keys of the
    constructor. *)
Theorem engine_counters_balance
    (isolation image runtime network storage : DockerNexusEngine.ModuleObject) (t : Z)
    (rs : list EngineApi.Request) (outs : list DockerNexusEngine.Outcome)
    (s : DockerNexusEngine.State) :
  EngineApi.executes rs (DockerNexusEngine.new isolation image runtime network storage t)
  = Some (outs, s) ->
  List.map DockerNexusEngine.operation outs = List.map EngineApi.req_operation rs /\
  DockerNexusEngine.commands (DockerNexusEngine.metrics s) = Z.of_nat (length rs) /\
  DockerNexusEngine.errors (DockerNexusEngine.metrics s)
  = Z.of_nat (length (EngineApi.failed outs)) /\
  EngineApi.counted_operations s = Z.of_nat (length (EngineApi.succeeded outs)) /\
  EngineApi.counted_time s
  = foldr (fun out acc => DockerNexusEngine.executionTime out + acc) 0
          (EngineApi.succeeded outs) /\
  DockerNexusEngine.commands (DockerNexusEngine.metrics s)
  = DockerNexusEngine.errors (DockerNexusEngine.metrics s) + EngineApi.counted_operations s /\
  DockerNexusEngine.uptime (DockerNexusEngine.metrics s) = t /\
  (DockerNexusEngine.modules s).*1 = ["isolation"; "image"; "runtime"; "network"; "storage"].
Proof.
  intros H.
  destruct (executes_counts rs _ _ _ H) as (Hl & Hops & Hk & Hu & Hc & He & Hn & Ht).
  cbn in Hk, Hu, Hc, He, Hn, Ht.
  assert (Hsplit : Z.of_nat (length rs)
                   = Z.of_nat (length (EngineApi.failed outs))
                     + Z.of_nat (length (EngineApi.succeeded outs))).
  { rewrite <- Hl. clear. induction outs as [|out outs IH]; [reflexivity|].
    destruct (filter_success_cons out outs) as [-> ->].
    simpl length. destruct (DockerNexusEngine.success out); lia. }
  repeat split; try assumption; lia.
Qed.

Lemma engine_counters_balance_witness :
  exists outs s,
    EngineApi.executes Scenarios.requests
      (DockerNexusEngine.new (Samples.bare "Isolation") (Samples.bare "Image")
         (Scenarios.echo "Runtime") (Samples.bare "Network") (Samples.bare "Storage")
         1700000000000)
    = Some (outs, s) /\
    List.map DockerNexusEngine.success outs = [true; true; false] /\
    DockerNexusEngine.commands (DockerNexusEngine.metrics s) = 3 /\
    DockerNexusEngine.errors (DockerNexusEngine.metrics s) = 1 /\
    EngineApi.counted_operations s = 2 /\
    EngineApi.counted_time s = 10.
Proof.
  eexists _, _. split; [vm_compute; reflexivity|]. split; [reflexivity|].
  destruct (engine_counters_balance
              (Samples.bare "Isolation") (Samples.bare "Image")
              (Scenarios.echo "Runtime")
              (Samples.bare "Network") (Samples.bare "Storage") 1700000000000
              Scenarios.requests _ _ ltac:(vm_compute; reflexivity))
    as (_ & Hc & He & Hn & Ht & _).
  split; [exact Hc|]. split; [exact He|]. split; [exact Hn | exact Ht].
Defined.

(** X22.  The engine has no web server.  The constructor puts no module under
    the key [webserver] and [execute] never adds a key, so after any
    history of calls: [startWebServer()] and [stopWebServer()] throw a
    [TypeError] for reading [process] of [undefined], outside any
    [catch]; and [execute] of an operation that the table routes to
    [webserver] answers with the failure
    [No module found for operation: <operation>]. *)
Theorem engine_has_no_web_server
    (isolation image runtime network storage : DockerNexusEngine.ModuleObject) (t : Z)
    (rs : list EngineApi.Request) (outs : list DockerNexusEngine.Outcome)
    (s : DockerNexusEngine.State)
    (startTime endTime : Z) (w : Inputs) (op : string) (data options : JsVal) :
  EngineApi.executes rs (DockerNexusEngine.new isolation image runtime network storage t)
  = Some (outs, s) ->
  EngineApi.startWebServer w s
  = Some (Throw (TypeError "Cannot read properties of undefined (reading 'process')"), s) /\
  EngineApi.stopWebServer w s
  = Some (Throw (TypeError "Cannot read properties of undefined (reading 'process')"), s) /\
  (op ∈ Capabilities.webserver ->
   DockerNexusEngine.route op = Some "webserver" /\
   exists s',
     DockerNexusEngine.execute startTime endTime w op data options s
     = Some ({| DockerNexusEngine.success := false;
                DockerNexusEngine.module := None;
                DockerNexusEngine.operation := op;
                DockerNexusEngine.result := None;
                DockerNexusEngine.error := Some ("No module found for operation: " +:+ op);
                DockerNexusEngine.executionTime := endTime - startTime |}, s') /\
     DockerNexusEngine.modules s' = DockerNexusEngine.modules s).
Proof.
  intros H.
  destruct (executes_counts rs _ _ _ H) as (_ & _ & Hk & _).
  assert (Hnone : JsMap.get "webserver" (DockerNexusEngine.modules s) = None).
  { apply get_absent. rewrite Hk. cbn. not_in_list. }
  unfold EngineApi.startWebServer, EngineApi.stopWebServer, EngineApi.webserver_process.
  rewrite Hnone. split; [reflexivity|]. split; [reflexivity|].
  intros Hop.
  assert (Hroute : JsMap.get op DockerNexusEngine.operationMap = Some "webserver").
  { repeat (apply elem_of_cons in Hop as [->|Hop]); [reflexivity..|].
    now apply elem_of_nil in Hop. }
  split; [exact Hroute|].
  unfold DockerNexusEngine.execute, DockerNexusEngine.selectModule.
  rewrite Hroute. cbn [DockerNexusEngine.modules]. rewrite Hnone.
  eexists. split; reflexivity.
Qed.

Lemma engine_has_no_web_server_witness :
  exists s,
    EngineApi.startWebServer Samples.w0 s
    = Some (Throw (TypeError "Cannot read properties of undefined (reading 'process')"), s) /\
    DockerNexusEngine.commands (DockerNexusEngine.metrics s) = 3.
Proof.
  eexists.
  destruct (engine_has_no_web_server
              (Samples.bare "Isolation") (Samples.bare "Image")
              (Scenarios.echo "Runtime")
              (Samples.bare "Network") (Samples.bare "Storage") 1700000000000
              Scenarios.requests _ _ 0 1 Samples.w0 "start_server" (JObj []) JUndefined
              ltac:(vm_compute; reflexivity))
    as (Hstart & _).
  split; [exact Hstart | reflexivity].
Defined.

(** X21.  [execute] reports the failure of a run as a success.  On an engine
    whose runtime module is active and, as the constructor leaves it,
    without [goEssence], [engine.runContainer(image, command, options)]
    with options other than [null] answers with [success: true], the
    module's name, and as [result] the module's failure result
    [Cannot read properties of undefined (reading 'concurrent')]; the
    engine's [errors] counter does not move and the call is counted as
    a command. *)
Theorem engine_reports_failed_run_as_success
    (startTime endTime : Z) (w : Inputs) (image command options : JsVal)
    (s : DockerNexusEngine.State) (this : RuntimeModule.State) :
  JsMap.get "runtime" (DockerNexusEngine.modules s)
  = Some {| DockerNexusEngine.mod_state := RuntimeModule.State;
            DockerNexusEngine.mod_impl := RuntimeModule_Impl;
            DockerNexusEngine.mod_this := this |} ->
  RuntimeModule.goEssence this = None ->
  DockerModule.isActive (RuntimeModule.base this) = true ->
  options <> JNull ->
  exists out s',
    EngineApi.runContainer startTime endTime w image command options s = Some (out, s') /\
    DockerNexusEngine.success out = true /\
    DockerNexusEngine.module out = Some (DockerModule.name (RuntimeModule.base this)) /\
    DockerNexusEngine.error out = None /\
    DockerNexusEngine.result out
    = Some (Rust.result JNull
              (Some "Cannot read properties of undefined (reading 'concurrent')")) /\
    (Rust.isErr <$> DockerNexusEngine.result out) = Some true /\
    DockerNexusEngine.errors (DockerNexusEngine.metrics s')
    = DockerNexusEngine.errors (DockerNexusEngine.metrics s) /\
    DockerNexusEngine.commands (DockerNexusEngine.metrics s')
    = DockerNexusEngine.commands (DockerNexusEngine.metrics s) + 1.
Proof.
  intros Hget Hgo Hactive Hnull.
  set (this1 := RuntimeDispatch.set_base
                  (DockerModule.count_operation "run_container" (RuntimeModule.base this))
                  this).
  destruct (new_container_normal w (RuntimeModule.generateContainerId w)
              image command options Hnull) as [record Hrec].
  destruct (runContainer_without_go w image command options this1 record Hgo Hrec)
    as (this2 & Hrun & _ & _).
  pose proof (runContainer_base _ _ _ _ _ _ _ Hrun) as Hbase.
  unfold EngineApi.runContainer, DockerNexusEngine.execute, DockerNexusEngine.selectModule.
  change (JsMap.get "run_container" DockerNexusEngine.operationMap) with (Some "runtime").
  cbn [DockerNexusEngine.modules]. rewrite Hget.
  unfold DockerNexusEngine.module_process, DockerModule.process.
  cbn [DockerNexusEngine.mod_impl DockerNexusEngine.mod_this DockerNexusEngine.mod_state
       DockerModule.base DockerModule.set_base DockerModule.handleOperation
       RuntimeModule_Impl].
  rewrite Hactive. cbn [negb]. fold this1.
  unfold RuntimeDispatch.handleOperation.
  rewrite String.eqb_refl.
  set (payload := JObj [("image", image); ("command", command); ("options", options)]).
  change (Js.get_prop payload "image") with (Normal image).
  change (Js.get_prop payload "command") with (Normal command).
  change (Js.get_prop payload "options") with (Normal options).
  cbv iota beta. rewrite Hrun.
  change (DockerNexusEngine.route "run_container") with (Some "runtime").
  eexists _, _. split; [reflexivity|]. engine_fields.
  unfold DockerNexusEngine.module_base.
  cbn [DockerNexusEngine.mod_impl DockerNexusEngine.mod_this DockerModule.base
       RuntimeModule_Impl].
  rewrite Hbase. repeat split.
Qed.

Lemma engine_reports_failed_run_as_success_witness :
  exists out s',
    EngineApi.runContainer 1700000000100 1700000000107 Samples.w0 (JStr "alpine")
      JUndefined JUndefined Samples.engine = Some (out, s') /\
    DockerNexusEngine.success out = true /\
    DockerNexusEngine.module out = Some "Runtime" /\
    DockerNexusEngine.error out = None /\
    DockerNexusEngine.result out
    = Some (Rust.result JNull
              (Some "Cannot read properties of undefined (reading 'concurrent')")) /\
    (Rust.isErr <$> DockerNexusEngine.result out) = Some true /\
    DockerNexusEngine.errors (DockerNexusEngine.metrics s') = 0 /\
    DockerNexusEngine.commands (DockerNexusEngine.metrics s') = 1.
Proof.
  exact (engine_reports_failed_run_as_success 1700000000100 1700000000107 Samples.w0
           (JStr "alpine") JUndefined JUndefined Samples.engine RuntimeModule.new
           eq_refl eq_refl eq_refl ltac:(discriminate)).
Defined.

(** X23.  The routing table against the capabilities of the modules.  Every
    operation that [selectModule] routes to one of the five modules is
    among the capabilities of that module.  The converse fails for five
    capabilities: [create_namespace], [create_cgroup],
    [disconnect_container], [port_forward] and [mount_volume] are in no
    entry of the table, so [selectModule] finds no module for them on
    any engine; every other capability is routed to its module. *)
Theorem capabilities_and_routes (key op : string) (s : DockerNexusEngine.State) :
  (DockerNexusEngine.route op = Some key ->
   key = "webserver" \/ op ∈ Capabilities.of_module key) /\
  (op ∈ Capabilities.of_module key ->
   if bool_decide (op ∈ unrouted_capabilities)
   then DockerNexusEngine.route op = None /\ DockerNexusEngine.selectModule op s = None
   else DockerNexusEngine.route op = Some key).
Proof.
  split.
  - unfold DockerNexusEngine.route. intros H. apply get_Some_elem in H.
    vm_compute in H.
    repeat (apply elem_of_cons in H as [[= -> ->]|H]);
      try (now left); try (right; vm_compute; in_list).
  - unfold Capabilities.of_module.
    repeat match goal with
           | |- context [String.eqb key ?k] => destruct (String.eqb_spec key k) as [->|_]
           end;
      intros H; try (now apply elem_of_nil in H);
      repeat (apply elem_of_cons in H as [->|H]);
      try (now apply elem_of_nil in H);
      vm_compute; try reflexivity; split; reflexivity.
Qed.

(* --------------------------------------------------------------------- *)
(** ** Build files and the image store *)
(* --------------------------------------------------------------------- *)

Section StringFacts.
Implicit Types (s t u cur : string) (c sep : ascii).

Lemma app_cons c s t : String c s +:+ t = String c (s +:+ t).
Proof. reflexivity. Qed.

Lemma app_empty_l s : EmptyString +:+ s = s.
Proof. reflexivity. Qed.

Lemma app_empty_r s : s +:+ EmptyString = s.
Proof. induction s as [|c s IH]; [reflexivity | now rewrite app_cons, IH]. Qed.

Lemma app_string_assoc s t u : (s +:+ t) +:+ u = s +:+ (t +:+ u).
Proof. induction s as [|c s IH]; [reflexivity | now rewrite !app_cons, IH]. Qed.

Lemma rev_app_spec s : forall t, String.rev_app s t = String.rev s +:+ t.
Proof.
  unfold String.rev. induction s as [|c s IH]; intros t; simpl; [reflexivity|].
  rewrite (IH (String c t)), (IH (String c EmptyString)).
  rewrite app_string_assoc. reflexivity.
Qed.

Lemma rev_cons c s : String.rev (String c s) = String.rev s +:+ String c EmptyString.
Proof. unfold String.rev at 1. simpl. apply rev_app_spec. Qed.

Lemma rev_snoc s c : String.rev (s +:+ String c EmptyString) = String c (String.rev s).
Proof.
  unfold String.rev.
  enough (forall acc, String.rev_app (s +:+ String c EmptyString) acc
                      = String c (String.rev_app s acc)) as H by apply H.
  induction s as [|a s IH]; intros acc; [reflexivity|].
  rewrite app_cons. simpl. apply IH.
Qed.

(** What [trimStart] leaves is empty or starts with a character that
    is not white space. *)
Lemma trim_start_head s :
  JsString.trim_start s = EmptyString \/
  exists c r, JsString.trim_start s = String c r /\ JsString.is_white c = false.
Proof.
  induction s as [|c s IH]; simpl; [now left|].
  destruct (JsString.is_white c) eqn:E; [exact IH|]. right. now exists c, s.
Qed.

Lemma trim_start_snoc s c :
  JsString.is_white c = false ->
  exists v, JsString.trim_start (s +:+ String c EmptyString) = v +:+ String c EmptyString.
Proof.
  intros Hc. induction s as [|a s IH].
  - rewrite app_empty_l. simpl. rewrite Hc. now exists EmptyString.
  - rewrite app_cons. simpl. destruct (JsString.is_white a); [exact IH|].
    now exists (String a s).
Qed.

(** A trimmed string is empty or starts with a character that is not
    white space. *)
Lemma trim_head s :
  JsString.trim s = EmptyString \/
  exists c r, JsString.trim s = String c r /\ JsString.is_white c = false.
Proof.
  unfold JsString.trim, JsString.trim_end.
  destruct (trim_start_head s) as [->|(c & r & -> & Hc)]; [now left|].
  right. rewrite rev_cons.
  destruct (trim_start_snoc (String.rev r) c Hc) as [v ->].
  rewrite rev_snoc. now exists c, (String.rev v).
Qed.

Lemma split_go_head sep s : forall cur,
  exists cur' pieces,
    JsString.split_go sep cur s = String.rev cur' :: pieces /\
    (cur <> EmptyString -> cur' <> EmptyString).
Proof.
  induction s as [|c s IH]; intros cur; simpl.
  - now exists cur, [].
  - destruct (Ascii.eqb c sep).
    + now exists cur, (JsString.split_go sep EmptyString s).
    + destruct (IH (String c cur)) as (cur' & pieces & -> & Hne).
      exists cur', pieces. split; [reflexivity|]. intros _. now apply Hne.
Qed.

Lemma rev_nonempty s : s <> EmptyString -> String.rev s <> EmptyString.
Proof.
  destruct s as [|c s]; [congruence|]. intros _. rewrite rev_cons.
  now destruct (String.rev s).
Qed.

(** Cutting a string at a separator and joining the pieces with it
    gives the string back. *)
Lemma join_split_go sep s : forall cur,
  JsString.join (String sep EmptyString) (JsString.split_go sep cur s)
  = String.rev cur +:+ s.
Proof.
  induction s as [|c s IH]; intros cur.
  - cbn [JsString.split_go JsString.join]. now rewrite app_empty_r.
  - cbn [JsString.split_go]. destruct (Ascii.eqb_spec c sep) as [->|Hne].
    + specialize (IH EmptyString).
      destruct (JsString.split_go sep EmptyString s) as [|p ps] eqn:E.
      * destruct (split_go_head sep s EmptyString) as (? & ? & E' & _). congruence.
      * change (JsString.join (String sep EmptyString) (String.rev cur :: p :: ps))
          with (String.rev cur +:+ String sep EmptyString
                +:+ JsString.join (String sep EmptyString) (p :: ps)).
        rewrite IH. reflexivity.
    + rewrite IH, rev_cons, app_string_assoc. reflexivity.
Qed.

Lemma join_split sep s :
  JsString.join (String sep EmptyString) (JsString.split sep s) = s.
Proof. unfold JsString.split. now rewrite join_split_go. Qed.

Lemma code_char z : 0 <= z < 256 -> JsString.code (JsString.char z) = z.
Proof.
  intros Hz. unfold JsString.code, JsString.char.
  rewrite N_ascii_embedding by lia. lia.
Qed.

Lemma upper_char_idem c : JsString.upper_char (JsString.upper_char c) = JsString.upper_char c.
Proof.
  unfold JsString.upper_char.
  destruct ((97 <=? JsString.code c) && (JsString.code c <=? 122)) eqn:E.
  - apply andb_true_iff in E as [E1 E2]. apply Z.leb_le in E1, E2.
    rewrite code_char by lia.
    destruct (Z.leb_spec 97 (JsString.code c - 32)); [lia | reflexivity].
  - now rewrite E.
Qed.

Lemma toUpperCase_idem s :
  JsString.toUpperCase (JsString.toUpperCase s) = JsString.toUpperCase s.
Proof.
  induction s as [|c s IH]; simpl; [reflexivity|]. now rewrite upper_char_idem, IH.
Qed.

Lemma toUpperCase_nonempty s : s <> EmptyString -> JsString.toUpperCase s <> EmptyString.
Proof. destruct s; [congruence | discriminate]. Qed.

End StringFacts.

Section ParseFacts.
Implicit Types (line content : string).

(** A line that passes the filter of [parseDockerfile] gives an
    instruction whose verb is its first word. *)
Lemma parse_line_shape line :
  ImageModule.is_instruction_line line = true ->
  let ins := ImageModule.parse_line line in
  exists raw pieces,
    JsString.split " " (ImageModule.original ins) = raw :: pieces /\
    raw <> EmptyString /\
    ImageModule.command ins = JsString.toUpperCase raw /\
    ImageModule.args ins = JsString.join " " pieces /\
    ImageModule.original ins = JsString.join " " (raw :: pieces).
Proof.
  unfold ImageModule.is_instruction_line. intros H.
  apply andb_true_iff in H as [Hne _]. apply negb_true_iff in Hne.
  cbv zeta. unfold ImageModule.parse_line.
  cbn [ImageModule.original ImageModule.command ImageModule.args].
  destruct (trim_head line) as [E|(c & r & E & Hc)].
  { rewrite E in Hne. discriminate Hne. }
  pose proof (join_split " " (JsString.trim line)) as Hjoin.
  rewrite E in *. unfold JsString.split in *. cbn [JsString.split_go] in *.
  destruct (Ascii.eqb_spec c " ") as [->|Hsp]; [discriminate Hc|].
  destruct (split_go_head " " r (String c EmptyString)) as (cur' & pieces & Es & Hcur).
  rewrite Es in *. exists (String.rev cur'), pieces.
  split; [reflexivity|]. split; [apply rev_nonempty, Hcur; discriminate|].
  split; [reflexivity|]. split; [reflexivity|]. now rewrite Hjoin.
Qed.

End ParseFacts.

(** X8.  What [parseDockerfile] returns.  Every instruction comes from a line
    that is not blank and does not start with [#]; its [original] is
    that line trimmed, and cutting [original] at its spaces gives the
    words [raw :: pieces]: [command] is the first word in upper case,
    never empty and unchanged by a further [toUpperCase], [args] is the
    other words joined by spaces, and the words joined by spaces give
    [original] back, so [original] is [raw] alone or [raw], a space and
    [args].  An empty build file has no instruction. *)
Theorem parseDockerfile_instructions (content : string) :
  Forall (fun ins =>
            (exists line,
               line ∈ JsString.split ImageModule.newline content /\
               JsString.startsWith line "#" = false /\
               JsString.trim line <> EmptyString /\
               ins = ImageModule.parse_line line /\
               ImageModule.original ins = JsString.trim line) /\
            ImageModule.command ins <> EmptyString /\
            JsString.toUpperCase (ImageModule.command ins) = ImageModule.command ins /\
            exists raw pieces,
              JsString.split " " (ImageModule.original ins) = raw :: pieces /\
              ImageModule.command ins = JsString.toUpperCase raw /\
              ImageModule.args ins = JsString.join " " pieces /\
              ImageModule.original ins
              = match pieces with
                | [] => raw
                | _ :: _ => raw +:+ " " +:+ ImageModule.args ins
                end)
         (ImageModule.parseDockerfile content) /\
  ImageModule.parseDockerfile EmptyString = [].
Proof.
  split; [|reflexivity].
  unfold ImageModule.parseDockerfile. apply Forall_forall. intros ins Hin.
  apply list_elem_of_fmap in Hin as (line & -> & Hline).
  apply list_elem_of_In, filter_In in Hline as [Hline Hok].
  apply list_elem_of_In in Hline.
  destruct (parse_line_shape line Hok) as (raw & pieces & Hs & Hraw & Hc & Ha & Ho).
  split; [|split; [|split]].
  - exists line. split; [exact Hline|].
    unfold ImageModule.is_instruction_line in Hok.
    apply andb_true_iff in Hok as [Hne Hst].
    apply negb_true_iff in Hne, Hst. split; [exact Hst|]. split; [|now split].
    intros E. rewrite E in Hne. discriminate Hne.
  - rewrite Hc. now apply toUpperCase_nonempty.
  - rewrite Hc. apply toUpperCase_idem.
  - exists raw, pieces. split; [exact Hs|]. split; [exact Hc|]. split; [exact Ha|].
    rewrite Ho, Ha. now destruct pieces.
Qed.

Section StoreFacts.
Context {V : Type}.
Implicit Types (m : list (string * V)).

Lemma set_length k (v : V) m :
  length (JsMap.set k v m) = if JsMap.has k m then length m else S (length m).
Proof.
  unfold JsMap.has. induction m as [|[k0 v0] m IH]; simpl; [reflexivity|].
  destruct (String.eqb_spec k k0) as [->|Hk]; simpl; [reflexivity|].
  rewrite IH. now destruct (JsMap.get k m).
Qed.

Lemma has_set k k' (v : V) m :
  JsMap.has k' (JsMap.set k v m) = String.eqb k k' || JsMap.has k' m.
Proof.
  unfold JsMap.has. destruct (String.eqb_spec k k') as [->|Hne].
  - now rewrite get_set_eq.
  - now rewrite get_set_ne.
Qed.

End StoreFacts.

(** X11.  [pullImage] never fails and always writes the store: the image it
    makes, of one [base] layer and 200 MiB, is what the store holds under
    [<name>:<tag>] afterwards, in place of whatever was there (a built
    image of that name and tag is replaced); the other entries are
    untouched, and the store grows by one entry exactly when the key is
    new. *)
Theorem pullImage_replaces (w : Inputs) (name tag : string) (s : ImageModule.State) :
  exists r s' image,
    ImageModule.pullImage w name tag s = (Normal r, s') /\
    Rust.isOk r = true /\
    Js.get_prop (Rust.value r) "imageId" = Normal (JStr (ImageModule.id image)) /\
    JsMap.get (name +:+ ":" +:+ tag) (ImageModule.images s') = Some image /\
    ImageModule.name image = name /\ ImageModule.tag image = tag /\
    ImageModule.id image = ImageModule.generateImageId (now w 0) name [] /\
    List.map ImageModule.layer_type (ImageModule.layers image) = [Some (JStr "base")] /\
    JsNumber.to_string (ImageModule.size image) = "209715200" /\
    (forall key, key <> name +:+ ":" +:+ tag ->
       JsMap.get key (ImageModule.images s') = JsMap.get key (ImageModule.images s)) /\
    length (ImageModule.images s')
    = (if JsMap.has (name +:+ ":" +:+ tag) (ImageModule.images s)
       then length (ImageModule.images s) else S (length (ImageModule.images s))) /\
    ImageModule.base s' = ImageModule.base s.
Proof.
  eexists _, _, _. split; [reflexivity|]. cbn [snd fst ImageModule.set_images ImageModule.images].
  split; [reflexivity|]. split; [reflexivity|]. split; [apply get_set_eq|].
  split; [reflexivity|]. split; [reflexivity|]. split; [reflexivity|].
  split; [reflexivity|]. split; [vm_compute; reflexivity|].
  split; [|split; [apply set_length | reflexivity]].
  intros key Hne. apply get_set_ne. congruence.
Qed.

(** X12.  A pull after a build: [pullImage(name, 'latest')] on a store that
    holds the image built as [name] leaves one image under
    [<name>:latest], the pulled one; the layers of the build are gone
    and the number of images is the same. *)
Theorem pull_overwrites_build (w w' : Inputs) (name dockerfile content : string)
    (s : ImageModule.State) :
  readFile w dockerfile = Normal content ->
  let s1 := (ImageModule.buildImage w name dockerfile s).2 in
  let s2 := (ImageModule.pullImage w' name "latest" s1).2 in
  (exists built,
     JsMap.get (name +:+ ":latest") (ImageModule.images s1) = Some built /\
     length (ImageModule.layers built) = length (ImageModule.parseDockerfile content)) /\
  (exists pulled,
     JsMap.get (name +:+ ":latest") (ImageModule.images s2) = Some pulled /\
     length (ImageModule.layers pulled) = 1%nat /\
     ImageModule.id pulled = ImageModule.generateImageId (now w' 0) name []) /\
  length (ImageModule.images s2) = length (ImageModule.images s1).
Proof.
  intros Hread. cbv zeta. rewrite buildImage_spec, Hread.
  cbn [snd ImageModule.pullImage bind modify ret ImageModule.set_images ImageModule.images].
  split; [|split].
  - eexists. split; [apply get_set_eq|]. simpl. now rewrite length_imap.
  - eexists. split; [apply (get_set_eq (name +:+ ":latest"))|]. split; reflexivity.
  - change (name +:+ ":" +:+ "latest") with (name +:+ ":latest").
    rewrite set_length. unfold JsMap.has. now rewrite get_set_eq.
Qed.

Lemma pull_overwrites_build_witness :
  (exists built,
     JsMap.get "app:latest"
       (ImageModule.images (ImageModule.buildImage Samples.w0 "app" "Dockerfile"
                              ImageModule.new).2) = Some built /\
     length (ImageModule.layers built) = 3%nat) /\
  (exists pulled,
     JsMap.get "app:latest"
       (ImageModule.images
          (ImageModule.pullImage Samples.w1 "app" "latest"
             (ImageModule.buildImage Samples.w0 "app" "Dockerfile" ImageModule.new).2).2)
     = Some pulled /\
     length (ImageModule.layers pulled) = 1%nat /\
     ImageModule.id pulled = ImageModule.generateImageId (now Samples.w1 0) "app" []) /\
  length (ImageModule.images
            (ImageModule.pullImage Samples.w1 "app" "latest"
               (ImageModule.buildImage Samples.w0 "app" "Dockerfile" ImageModule.new).2).2)
  = length (ImageModule.images
              (ImageModule.buildImage Samples.w0 "app" "Dockerfile" ImageModule.new).2).
Proof.
  exact (pull_overwrites_build Samples.w0 Samples.w1 "app" "Dockerfile" Samples.dockerfile
           ImageModule.new eq_refl).
Defined.

(* --------------------------------------------------------------------- *)
(** ** Identifiers made by SHA-256 *)
(* --------------------------------------------------------------------- *)

Section DigestFacts.
Implicit Types (s t : string) (st h block : list Z).

Lemma length_app_string s t : String.length (s +:+ t) = (String.length s + String.length t)%nat.
Proof. induction s as [|c s IH]; [reflexivity|]. rewrite app_cons. simpl. now rewrite IH. Qed.

Lemma chars_app s t :
  list_ascii_of_string (s +:+ t) = list_ascii_of_string s ++ list_ascii_of_string t.
Proof. induction s as [|c s IH]; [reflexivity|]. rewrite app_cons. simpl. now rewrite IH. Qed.

Lemma hex_text_app (n m : nat) s t : hex_text n s -> hex_text m t -> hex_text (n + m) (s +:+ t).
Proof.
  intros [Hn Hs] [Hm Ht]. split.
  - rewrite length_app_string. congruence.
  - rewrite chars_app, forallb_app, Hs, Ht. reflexivity.
Qed.

Lemma hex_digit_lower z : 0 <= z < 16 -> lower_hex (Js.hex_digit z) = true.
Proof.
  intros Hz.
  assert (H : z = 0 \/ z = 1 \/ z = 2 \/ z = 3 \/ z = 4 \/ z = 5 \/ z = 6 \/ z = 7 \/
              z = 8 \/ z = 9 \/ z = 10 \/ z = 11 \/ z = 12 \/ z = 13 \/ z = 14 \/ z = 15)
    by lia.
  repeat (destruct H as [->|H]; [reflexivity|]). now subst.
Qed.

Lemma nibble_range x : 0 <= Z.land x 15 < 16.
Proof.
  change 15 with (Z.ones 4). rewrite Z.land_ones by lia.
  apply Z.mod_pos_bound. reflexivity.
Qed.

Lemma hex32_text x : hex_text 8 (SHA256.hex32 x).
Proof.
  split; [reflexivity|].
  unfold SHA256.hex32. cbn [seq fold_right list_ascii_of_string forallb].
  rewrite !hex_digit_lower by apply nibble_range. reflexivity.
Qed.

Lemma round_length st kw : length st = 8%nat -> length (SHA256.round st kw) = 8%nat.
Proof.
  intros H. do 9 (destruct st as [|? st]; try discriminate H). reflexivity.
Qed.

Lemma rounds_length kws : forall st,
  length st = 8%nat -> length (fold_left SHA256.round kws st) = 8%nat.
Proof.
  induction kws as [|kw kws IH]; intros st H; simpl; [exact H|].
  apply IH. now apply round_length.
Qed.

Lemma compress_length h block : length h = 8%nat -> length (SHA256.compress h block) = 8%nat.
Proof.
  intros H. unfold SHA256.compress.
  rewrite length_zip_with, rounds_length by exact H. rewrite H. reflexivity.
Qed.

Lemma digest_length msg : length (SHA256.digest msg) = 8%nat.
Proof.
  unfold SHA256.digest.
  generalize (SHA256.blocks (length (SHA256.words (SHA256.pad msg)))
                            (SHA256.words (SHA256.pad msg))) as bs.
  assert (H0 : length SHA256.H0 = 8%nat) by reflexivity.
  revert H0. generalize SHA256.H0 as h.
  intros h Hh bs. revert h Hh.
  induction bs as [|b bs IH]; intros h Hh; simpl; [exact Hh|].
  apply IH. now apply compress_length.
Qed.

Lemma words_text (ws : list Z) :
  hex_text (8 * length ws)
    (fold_right (fun w acc => SHA256.hex32 w +:+ acc) EmptyString ws).
Proof.
  induction ws as [|w ws IH]; [now split|].
  replace (8 * length (w :: ws))%nat with (8 + 8 * length ws)%nat by (simpl; lia).
  cbn [fold_right]. apply hex_text_app; [apply hex32_text | exact IH].
Qed.

(** A SHA-256 digest in hexadecimal is 64 characters of [0-9a-f]. *)
Lemma sha256_hex_text s : hex_text 64 (SHA256.sha256_hex s).
Proof.
  unfold SHA256.sha256_hex.
  pose proof (words_text (SHA256.digest (SHA256.bytes_of s))) as H.
  now rewrite digest_length in H.
Qed.

Lemma substring0_text (n m : nat) s :
  (n <= m)%nat -> hex_text m s -> hex_text n (JsString.substring0 n s).
Proof.
  unfold JsString.substring0, hex_text. revert m s.
  induction n as [|n IH]; intros m s Hle [Hlen Hall].
  - now destruct s.
  - destruct s as [|c s]; simpl in Hlen; [lia|].
    simpl in Hall. apply andb_true_iff in Hall as [Hc Hall].
    destruct (IH (pred m) s ltac:(lia) ltac:(split; [lia | exact Hall])) as [Hl Ha].
    simpl. rewrite Hl, Hc, Ha. now split.
Qed.

End DigestFacts.

(** X10.  The id of an image, built or pulled, is 64 characters of [0-9a-f],
    whatever the name, the layers and the clock; the short id that
    [listImages] and the build message show, its first 12 characters,
    is 12 characters of [0-9a-f]. *)
Theorem image_id_format (t : Z) (name : string) (layers : list JsVal) :
  let imageId := ImageModule.generateImageId t name layers in
  hex_text 64 imageId /\ hex_text 12 (JsString.substring0 12 imageId).
Proof.
  cbv zeta. unfold ImageModule.generateImageId. split.
  - apply sha256_hex_text.
  - apply (substring0_text 12 64); [lia | apply sha256_hex_text].
Qed.

(* --------------------------------------------------------------------- *)
(** ** The network module *)
(* --------------------------------------------------------------------- *)

Section MapFacts.
Context {V : Type}.
Implicit Types (m : list (string * V)).

Lemma get_None_keys k m : JsMap.get k m = None -> k ∉ m.*1.
Proof.
  induction m as [|[k0 v0] m IH]; simpl; [intros _; apply not_elem_of_nil|].
  destruct (String.eqb_spec k k0) as [->|Hk]; [discriminate|].
  intros H. apply not_elem_of_cons. split; [exact Hk | now apply IH].
Qed.

Lemma set_absent k (v : V) m : JsMap.get k m = None -> JsMap.set k v m = m ++ [(k, v)].
Proof.
  induction m as [|[k0 v0] m IH]; simpl; [reflexivity|].
  destruct (String.eqb_spec k k0) as [->|Hk]; [discriminate|].
  intros H. now rewrite IH.
Qed.

Lemma has_false k m : JsMap.has k m = false -> JsMap.get k m = None.
Proof. unfold JsMap.has. now destruct (JsMap.get k m). Qed.

Lemma has_true_keys k m : JsMap.has k m = true <-> k ∈ m.*1.
Proof.
  unfold JsMap.has. split.
  - destruct (JsMap.get k m) as [v|] eqn:E; [|discriminate]. intros _.
    apply get_Some_elem in E. apply list_elem_of_fmap. now exists (k, v).
  - intros Hin. destruct (JsMap.get k m) eqn:E; [reflexivity|].
    now apply get_None_keys in E.
Qed.

End MapFacts.

Section NetworkFacts.
Implicit Types (w : Inputs) (s : NetworkModule.State) (t : Z).

(** A name that is a key of [networks] is refused. *)
Lemma createNetwork_taken w name driver options s :
  JsMap.has name (NetworkModule.networks s) = true ->
  NetworkModule.createNetwork w name driver options s
  = (Normal (Rust.result JNull (Some ("Network " +:+ name +:+ " already exists"))), s).
Proof. intros H. unfold NetworkModule.createNetwork. now rewrite H. Qed.

(** What [createNetwork] does with a free name. *)
Lemma createNetwork_free w name driver options s :
  JsMap.has name (NetworkModule.networks s) = false ->
  (exists e, NetworkModule.createNetwork w name driver options s = (Throw e, s)) \/
  (exists r network,
     NetworkModule.createNetwork w name driver options s
     = (Normal r,
        NetworkModule.set_networks (fun m => m ++ [(name, network)]) s) /\
     Rust.isOk r = true /\
     NetworkModule.name network = name /\
     NetworkModule.containers network = [] /\
     NetworkModule.driver network = Js.default_arg driver (JStr "bridge")).
Proof.
  intros H. unfold NetworkModule.createNetwork. rewrite H.
  destruct (Js.get_prop (Js.default_arg options (JObj [])) "subnet") as [sub|e];
    [|left; now exists e].
  destruct (Js.get_prop (Js.default_arg options (JObj [])) "gateway") as [gw|e];
    [|left; now exists e].
  destruct (if Js.truthy gw then _ else _) as [gateway|e]; [|left; now exists e].
  right. eexists _, _. split.
  - unfold NetworkModule.set_networks. rewrite (set_absent name _ _ (has_false _ _ H)).
    reflexivity.
  - repeat split.
Qed.

End NetworkFacts.

Section NetworkHistory.
Implicit Types (w : Inputs) (s : NetworkModule.State) (t : Z).

Lemma create_keeps_shape t c s :
  networks_shape t s -> networks_shape t (NetworkModule.create c s).
Proof.
  intros (rest & Hn & Hnd & Hall). unfold NetworkModule.create.
  destruct (JsMap.has (NetworkModule.cr_name c) (NetworkModule.networks s)) eqn:Hhas.
  - rewrite createNetwork_taken by exact Hhas. now exists rest.
  - destruct (createNetwork_free (NetworkModule.cr_inputs c) (NetworkModule.cr_name c)
                (NetworkModule.cr_driver c) (NetworkModule.cr_options c) s Hhas)
      as [[e ->]|(r & network & -> & _ & Hname & Hcont & _)]; [now exists rest|].
    exists (rest ++ [(NetworkModule.cr_name c, network)]).
    cbn [snd NetworkModule.set_networks NetworkModule.networks].
    split; [now rewrite Hn|]. split.
    + apply has_false, get_None_keys in Hhas. rewrite Hn in Hhas.
      rewrite fmap_app.
      apply (NoDup_app ("bridge" :: rest.*1) [NetworkModule.cr_name c]).
      split; [exact Hnd|]. split; [|apply NoDup_singleton].
      intros k Hk ->%list_elem_of_singleton. contradiction.
    + apply Forall_app. split; [exact Hall|]. now repeat constructor.
Qed.

Lemma creations_keep_shape t cs : forall s,
  networks_shape t s -> networks_shape t (NetworkModule.creations cs s).
Proof.
  unfold NetworkModule.creations.
  induction cs as [|c cs IH]; intros s H; simpl; [exact H|].
  apply IH. now apply create_keeps_shape.
Qed.

Lemma new_shape t : networks_shape t (NetworkModule.new t).
Proof.
  exists []. split; [reflexivity|]. split; [|constructor].
  apply NoDup_singleton.
Qed.

End NetworkHistory.

(** X16.  The default bridge and the names of networks.  After any history of
    [createNetwork] calls on a module made by the constructor: the
    [networks] map holds the default bridge, whose name is
    [docker-nexus0], under the key [bridge], followed by the networks
    created, each under its own name, no key twice and no network with a
    container; [listNetworks] lists them in that order.  The guard of
    [createNetwork] looks at keys: the name [bridge] is always refused
    with [Network bridge already exists], while on a new module the name
    [docker-nexus0] is free, and creating it gives two listed networks
    of that name. *)
Theorem network_keys_and_names (t : Z) (cs : list NetworkModule.Creation)
    (w : Inputs) (driver options : JsVal) :
  let s := NetworkModule.creations cs (NetworkModule.new t) in
  (exists rest,
     NetworkModule.networks s = ("bridge", NetworkModule.defaultBridge t) :: rest /\
     NoDup ("bridge" :: rest.*1) /\
     Forall (fun entry => NetworkModule.name entry.2 = entry.1 /\
                          NetworkModule.containers entry.2 = []) rest /\
     Rust.value (NetworkModule.listNetworks s)
     = JArr (NetworkModule.summary (NetworkModule.defaultBridge t)
             :: List.map NetworkModule.summary (JsMap.values rest))) /\
  NetworkModule.createNetwork w "bridge" driver options s
  = (Normal (Rust.result JNull (Some "Network bridge already exists")), s) /\
  List.map NetworkModule.name
    (JsMap.values
       (NetworkModule.networks
          (NetworkModule.createNetwork w "docker-nexus0" driver JUndefined
             (NetworkModule.new t)).2))
  = ["docker-nexus0"; "docker-nexus0"].
Proof.
  cbv zeta.
  destruct (creations_keep_shape t cs _ (new_shape t)) as (rest & Hn & Hnd & Hall).
  split; [|split].
  - exists rest. split; [exact Hn|]. split; [exact Hnd|]. split; [exact Hall|].
    unfold NetworkModule.listNetworks. now rewrite Hn.
  - apply createNetwork_taken. now rewrite Hn.
  - reflexivity.
Qed.

(** X17.  [createNetwork] with a free name and options that name no gateway.
    Without a subnet in the options (or with a falsy one), the network
    gets the subnet [172.<n>.0.0/16] drawn by [generateSubnet] and the
    gateway [172.17.0.1]: the gateway is computed from the option, not
    from the subnet drawn.  With a subnet that is a non-empty string, the
    network keeps it and its gateway is the first two dot-separated
    parts of it followed by [.0.1].  With any other subnet the call
    throws [subnet.split is not a function] and registers nothing.  A
    network that is registered goes to the end of the map, the result is
    Ok with an id of 12 characters of [0-9a-f], and the name is refused
    from then on. *)
Theorem createNetwork_subnet_and_gateway (w : Inputs) (name : string) (driver : JsVal)
    (props : list (string * JsVal)) (s : NetworkModule.State) :
  JsMap.has name (NetworkModule.networks s) = false ->
  Js.lookup_prop "gateway" props = None ->
  let registered := fun subnet gateway =>
    exists r networkId,
      let s' :=
        NetworkModule.set_networks
          (fun m => m ++ [(name,
                           {| NetworkModule.name := name;
                              NetworkModule.driver := Js.default_arg driver (JStr "bridge");
                              NetworkModule.subnet := subnet;
                              NetworkModule.gateway := JStr gateway;
                              NetworkModule.containers := [];
                              NetworkModule.created := JsDate.toISOString (now w 0);
                              NetworkModule.options := Some (JObj props) |})]) s in
      NetworkModule.createNetwork w name driver (JObj props) s = (Normal r, s') /\
      Rust.isOk r = true /\
      Js.get_prop (Rust.value r) "networkId" = Normal (JStr networkId) /\
      hex_text 12 networkId /\
      Js.get_prop (Rust.value r) "subnet" = Normal subnet /\
      forall w' driver' options',
        NetworkModule.createNetwork w' name driver' options' s'
        = (Normal (Rust.result JNull (Some ("Network " +:+ name +:+ " already exists"))),
           s') in
  let subnet := default JUndefined (Js.lookup_prop "subnet" props) in
  if Js.truthy subnet then
    match subnet with
    | JStr text =>
        registered subnet
          (NetworkModule.part (JsString.split "." text) 0 +:+ "." +:+
           NetworkModule.part (JsString.split "." text) 1 +:+ ".0.1")
    | _ =>
        NetworkModule.createNetwork w name driver (JObj props) s
        = (Throw (TypeError "subnet.split is not a function"), s)
    end
  else registered (JStr (NetworkModule.generateSubnet w)) "172.17.0.1".
Proof.
  intros Hfree Hgw. cbv zeta.
  assert (Hreg : forall subnet gateway,
    NetworkModule.createNetwork w name driver (JObj props) s
    = (Normal (Rust.ok (JObj
         [("networkId",
           JStr (JsString.substring0 12 (SHA256.sha256_hex (name +:+ pretty (now w 1)))));
          ("name", JStr name);
          ("driver", Js.default_arg driver (JStr "bridge"));
          ("subnet", subnet)])),
       NetworkModule.set_networks
         (JsMap.set name
            {| NetworkModule.name := name;
               NetworkModule.driver := Js.default_arg driver (JStr "bridge");
               NetworkModule.subnet := subnet;
               NetworkModule.gateway := JStr gateway;
               NetworkModule.containers := [];
               NetworkModule.created := JsDate.toISOString (now w 0);
               NetworkModule.options := Some (JObj props) |}) s) ->
    exists r networkId,
      NetworkModule.createNetwork w name driver (JObj props) s
      = (Normal r,
         NetworkModule.set_networks
           (fun m => m ++ [(name,
                            {| NetworkModule.name := name;
                               NetworkModule.driver := Js.default_arg driver (JStr "bridge");
                               NetworkModule.subnet := subnet;
                               NetworkModule.gateway := JStr gateway;
                               NetworkModule.containers := [];
                               NetworkModule.created := JsDate.toISOString (now w 0);
                               NetworkModule.options := Some (JObj props) |})]) s) /\
      Rust.isOk r = true /\
      Js.get_prop (Rust.value r) "networkId" = Normal (JStr networkId) /\
      hex_text 12 networkId /\
      Js.get_prop (Rust.value r) "subnet" = Normal subnet /\
      forall w' driver' options',
        NetworkModule.createNetwork w' name driver' options'
          (NetworkModule.set_networks
             (fun m => m ++ [(name,
                              {| NetworkModule.name := name;
                                 NetworkModule.driver := Js.default_arg driver (JStr "bridge");
                                 NetworkModule.subnet := subnet;
                                 NetworkModule.gateway := JStr gateway;
                                 NetworkModule.containers := [];
                                 NetworkModule.created := JsDate.toISOString (now w 0);
                                 NetworkModule.options := Some (JObj props) |})]) s)
        = (Normal (Rust.result JNull (Some ("Network " +:+ name +:+ " already exists"))),
           NetworkModule.set_networks
             (fun m => m ++ [(name,
                              {| NetworkModule.name := name;
                                 NetworkModule.driver := Js.default_arg driver (JStr "bridge");
                                 NetworkModule.subnet := subnet;
                                 NetworkModule.gateway := JStr gateway;
                                 NetworkModule.containers := [];
                                 NetworkModule.created := JsDate.toISOString (now w 0);
                                 NetworkModule.options := Some (JObj props) |})]) s)).
  { intros subnet gateway ->. eexists _, _. split.
    - unfold NetworkModule.set_networks.
      rewrite (set_absent name _ _ (has_false _ _ Hfree)). reflexivity.
    - split; [reflexivity|]. split; [reflexivity|].
      split; [apply (substring0_text 12 64); [lia | apply sha256_hex_text]|].
      split; [reflexivity|].
      intros w' driver' options'. apply createNetwork_taken.
      apply has_true_keys. cbn [NetworkModule.networks NetworkModule.set_networks].
      rewrite fmap_app. apply elem_of_app. right. apply list_elem_of_here. }
  assert (Hrun : NetworkModule.createNetwork w name driver (JObj props) s
    = let subnet := default JUndefined (Js.lookup_prop "subnet" props) in
      match (if negb (Js.truthy JUndefined) then
               match NetworkModule.generateGateway subnet with
               | Normal text => Normal (JStr text)
               | Throw e => Throw e
               end
             else Normal JUndefined) with
      | Throw e => (Throw e, s)
      | Normal gateway =>
          (Normal (Rust.ok (JObj
             [("networkId",
               JStr (JsString.substring0 12 (SHA256.sha256_hex (name +:+ pretty (now w 1)))));
              ("name", JStr name);
              ("driver", Js.default_arg driver (JStr "bridge"));
              ("subnet", if Js.truthy subnet then subnet
                         else JStr (NetworkModule.generateSubnet w))])),
           NetworkModule.set_networks
             (JsMap.set name
                {| NetworkModule.name := name;
                   NetworkModule.driver := Js.default_arg driver (JStr "bridge");
                   NetworkModule.subnet :=
                     if Js.truthy subnet then subnet
                     else JStr (NetworkModule.generateSubnet w);
                   NetworkModule.gateway := gateway;
                   NetworkModule.containers := [];
                   NetworkModule.created := JsDate.toISOString (now w 0);
                   NetworkModule.options := Some (JObj props) |}) s)
      end).
  { unfold NetworkModule.createNetwork. rewrite Hfree.
    cbn [Js.default_arg Js.get_prop]. rewrite Hgw. reflexivity. }
  cbv zeta in Hrun. cbn [Js.truthy negb] in Hrun.
  unfold NetworkModule.generateGateway in Hrun.
  destruct (Js.truthy (default JUndefined (Js.lookup_prop "subnet" props))) eqn:Htruthy;
    cbn [negb] in Hrun.
  - destruct (default JUndefined (Js.lookup_prop "subnet" props)) as [| |b|n|text|items|obj];
      try exact Hrun; try discriminate Htruthy.
    apply Hreg. exact Hrun.
  - apply Hreg. exact Hrun.
Qed.

Lemma createNetwork_subnet_and_gateway_witness :
  exists r networkId,
    let s' :=
      NetworkModule.set_networks
        (fun m => m ++ [("backend",
                         {| NetworkModule.name := "backend";
                            NetworkModule.driver := JStr "bridge";
                            NetworkModule.subnet := JStr "10.1.2.0/24";
                            NetworkModule.gateway := JStr "10.1.0.1";
                            NetworkModule.containers := [];
                            NetworkModule.created := JsDate.toISOString (now Samples.w0 0);
                            NetworkModule.options :=
                              Some (JObj [("subnet", JStr "10.1.2.0/24")]) |})])
        (NetworkModule.new 1700000000000) in
    NetworkModule.createNetwork Samples.w0 "backend" JUndefined
      (JObj [("subnet", JStr "10.1.2.0/24")]) (NetworkModule.new 1700000000000)
    = (Normal r, s') /\
    Rust.isOk r = true /\
    Js.get_prop (Rust.value r) "networkId" = Normal (JStr networkId) /\
    hex_text 12 networkId /\
    Js.get_prop (Rust.value r) "subnet" = Normal (JStr "10.1.2.0/24") /\
    forall w' driver' options',
      NetworkModule.createNetwork w' "backend" driver' options' s'
      = (Normal (Rust.result JNull (Some "Network backend already exists")), s').
Proof.
  exact (createNetwork_subnet_and_gateway Samples.w0 "backend" JUndefined
           [("subnet", JStr "10.1.2.0/24")] (NetworkModule.new 1700000000000)
           eq_refl eq_refl).
Defined.

(* --------------------------------------------------------------------- *)
(** ** The storage module *)
(* --------------------------------------------------------------------- *)

Section StorageFacts.
Implicit Types (fs : FileSystem) (w : Inputs) (s : StorageModule.State).

(** What [createVolume] does, case by case. *)
Lemma createVolume_spec fs w name options s :
  StorageModule.createVolume fs w name options s =
  if JsMap.has name (StorageModule.volumes s) then
    (Normal (Rust.result JNull (Some ("Volume " +:+ name +:+ " already exists"))), s)
  else
    match mkdir fs (volumePath fs name) with
    | Throw e =>
        (Normal (Rust.result JNull (Some ("Failed to create volume: " +:+ message e))), s)
    | Normal _ =>
        match Js.get_prop (Js.default_arg options (JObj [])) "driver",
              Js.get_prop (Js.default_arg options (JObj [])) "labels" with
        | Normal optionsDriver, Normal optionsLabels =>
            (Normal (Rust.ok (JObj
               [("name", JStr name);
                ("driver", Js.or optionsDriver (JStr "local"));
                ("mountpoint", JStr (volumePath fs name));
                ("created", JStr (JsDate.toISOString (now w 0)))])),
             StorageModule.set_volumes
               (fun m => m ++ [(name,
                  {| StorageModule.name := name;
                     StorageModule.driver := Js.or optionsDriver (JStr "local");
                     StorageModule.mountpoint := volumePath fs name;
                     StorageModule.created := JsDate.toISOString (now w 0);
                     StorageModule.labels := Js.or optionsLabels (JObj []);
                     StorageModule.options := Js.default_arg options (JObj []) |})]) s)
        | Throw e, _ | _, Throw e =>
            (Normal (Rust.result JNull (Some ("Failed to create volume: " +:+ message e))),
             s)
        end
    end.
Proof.
  unfold StorageModule.createVolume.
  destruct (JsMap.has name (StorageModule.volumes s)) eqn:Hhas; [reflexivity|].
  unfold try_catch, StorageModule.register. unfold bind, lift_completion, modify, ret.
  destruct (mkdir fs (volumePath fs name)) as [[]|e]; [|reflexivity].
  destruct (Js.get_prop (Js.default_arg options (JObj [])) "driver") as [d|e];
    [|reflexivity].
  destruct (Js.get_prop (Js.default_arg options (JObj [])) "labels") as [l|e];
    [|reflexivity].
  cbv beta iota. unfold StorageModule.set_volumes.
  rewrite (set_absent name _ _ (has_false _ _ Hhas)). reflexivity.
Qed.

Lemma failure_is_error (text detail : string) :
  text <> EmptyString ->
  Rust.isErr (Rust.result JNull (Some (text +:+ detail))) = true /\
  Rust.isOk (Rust.result JNull (Some (text +:+ detail))) = false.
Proof. destruct text; [congruence|]. intros _. now split. Qed.

Lemma create_keeps_volumes c s : volumes_shape s -> volumes_shape (StorageModule.create c s).
Proof.
  intros [Hnd Hall]. unfold StorageModule.create. rewrite createVolume_spec.
  destruct (JsMap.has _ (StorageModule.volumes s)) eqn:Hhas; [now split|].
  destruct (mkdir _ _) as [[]|e]; [|now split].
  destruct (Js.get_prop _ "driver") as [d|e]; [|now split].
  destruct (Js.get_prop _ "labels") as [l|e]; [|now split].
  unfold volumes_shape. cbn [snd StorageModule.set_volumes StorageModule.volumes]. split.
  - rewrite fmap_app. apply NoDup_app. split; [exact Hnd|].
    split; [|apply NoDup_singleton].
    intros k Hk ->%list_elem_of_singleton.
    apply has_false, get_None_keys in Hhas. contradiction.
  - apply Forall_app. split; [exact Hall|]. now repeat constructor.
Qed.

Lemma creations_keep_volumes cs : forall s,
  volumes_shape s -> volumes_shape (StorageModule.creations cs s).
Proof.
  unfold StorageModule.creations.
  induction cs as [|c cs IH]; intros s H; simpl; [exact H|].
  apply IH. now apply create_keeps_volumes.
Qed.

End StorageFacts.

(** X18.  [createVolume] always answers with a result, and registers a volume
    only with an Ok result.  A name that is taken gives the failure
    [Volume <name> already exists]; a [mkdir] that throws, or options
    that are [null], give a failure starting with
    [Failed to create volume: ]; each failure has [isErr] set and leaves
    the module as it was (in the [null] case the directory has been
    made all the same).  Otherwise the volume goes to the end of
    [volumes] under its name, with the path made by the platform as
    mount point and the driver of the options, or [local] when they name
    none, and the name is refused from then on. *)
Theorem createVolume_outcomes (fs : FileSystem) (w : Inputs) (name : string)
    (options : JsVal) (s : StorageModule.State) :
  exists r s',
    StorageModule.createVolume fs w name options s = (Normal r, s') /\
    (Rust.isOk r = false ->
     Rust.isErr r = true /\ Rust.value r = JNull /\ s' = s) /\
    if JsMap.has name (StorageModule.volumes s) then
      Rust.error r = Some ("Volume " +:+ name +:+ " already exists") /\ Rust.isOk r = false
    else
      match mkdir fs (volumePath fs name) with
      | Throw e =>
          Rust.error r = Some ("Failed to create volume: " +:+ message e) /\
          Rust.isOk r = false
      | Normal _ =>
          match options with
          | JNull =>
            Rust.error r
            = Some "Failed to create volume: Cannot read properties of null (reading 'driver')"
            /\ Rust.isOk r = false
          | _ =>
            exists volume optionsDriver,
              Rust.isOk r = true /\
              StorageModule.volumes s' = StorageModule.volumes s ++ [(name, volume)] /\
              StorageModule.name volume = name /\
              StorageModule.mountpoint volume = volumePath fs name /\
              Js.get_prop (Rust.value r) "mountpoint" = Normal (JStr (volumePath fs name)) /\
              Js.get_prop (Js.default_arg options (JObj [])) "driver" = Normal optionsDriver /\
              StorageModule.driver volume = Js.or optionsDriver (JStr "local") /\
              forall fs' w' options',
                StorageModule.createVolume fs' w' name options' s'
                = (Normal (Rust.result JNull
                             (Some ("Volume " +:+ name +:+ " already exists"))), s')
          end
      end.
Proof.
  rewrite createVolume_spec.
  destruct (JsMap.has name (StorageModule.volumes s)) eqn:Hhas.
  { eexists _, _. split; [reflexivity|].
    destruct (failure_is_error "Volume " (name +:+ " already exists") ltac:(discriminate))
      as [He Ho].
    split; [now intros _ | now split]. }
  destruct (mkdir fs (volumePath fs name)) as [[]|e] eqn:Hmk.
  2:{ eexists _, _. split; [reflexivity|].
      destruct (failure_is_error "Failed to create volume: " (message e) ltac:(discriminate))
        as [He Ho].
      split; [now intros _ | now split]. }
  assert (Htaken : forall m volume fs' w' options',
            StorageModule.createVolume fs' w' name options'
              (StorageModule.set_volumes (fun _ => m ++ [(name, volume)]) s)
            = (Normal (Rust.result JNull (Some ("Volume " +:+ name +:+ " already exists"))),
               StorageModule.set_volumes (fun _ => m ++ [(name, volume)]) s)).
  { intros m volume fs' w' options'. rewrite createVolume_spec.
    cbn [StorageModule.volumes StorageModule.set_volumes].
    replace (JsMap.has name (m ++ [(name, volume)])) with true; [reflexivity|].
    symmetry. apply has_true_keys. rewrite fmap_app. apply elem_of_app. right.
    apply list_elem_of_here. }
  destruct options as [| |b|n|text|items|props];
    cbn [Js.default_arg Js.get_prop Js.describe];
    (eexists _, _; split; [reflexivity|]);
    try (split; [now intros _ | now split]);
    (split; [intros H; discriminate H|]);
    (eexists _, _; split; [reflexivity|]; split; [reflexivity|]; split; [reflexivity|];
     split; [reflexivity|]; split; [reflexivity|]; split; [reflexivity|];
     split; [reflexivity|]; apply Htaken).
Qed.

(** X19.  Volumes and their names.  After any history of [createVolume] calls
    on a module made by the constructor, whatever the platform answered:
    every volume is registered under its own name and no name is
    registered twice, so [listVolumes] lists each volume once. *)
Theorem volume_names_unique (cs : list StorageModule.Creation) :
  let s := StorageModule.creations cs StorageModule.new in
  NoDup (StorageModule.volumes s).*1 /\
  Forall (fun entry => StorageModule.name entry.2 = entry.1) (StorageModule.volumes s) /\
  List.map StorageModule.name (JsMap.values (StorageModule.volumes s))
  = (StorageModule.volumes s).*1 /\
  exists listed,
    Rust.value (StorageModule.listVolumes s) = JArr listed /\
    List.map (fun v => Js.get_prop v "name") listed
    = List.map (fun k => Normal (JStr k)) (StorageModule.volumes s).*1.
Proof.
  cbv zeta.
  assert (H0 : volumes_shape StorageModule.new) by (split; constructor).
  destruct (creations_keep_volumes cs StorageModule.new H0) as [Hnd Hall].
  split; [exact Hnd|]. split; [exact Hall|].
  assert (Hnames : List.map StorageModule.name
                     (JsMap.values (StorageModule.volumes
                                      (StorageModule.creations cs StorageModule.new)))
                   = (StorageModule.volumes
                        (StorageModule.creations cs StorageModule.new)).*1).
  { unfold JsMap.values. revert Hall. clear.
    generalize (StorageModule.volumes (StorageModule.creations cs StorageModule.new)) as m.
    induction m as [|[k v] m IH]; intros Hall; [reflexivity|].
    apply Forall_cons in Hall as [Hkv Hall]. cbn in *. now rewrite Hkv, IH. }
  split; [exact Hnames|].
  eexists. split; [reflexivity|].
  rewrite <- Hnames. rewrite !List.map_map. reflexivity.
Qed.

(* --------------------------------------------------------------------- *)
(** ** The isolation module: a container that is isolated *)
(* --------------------------------------------------------------------- *)

(** X7.  [isolateContainer] when [config.resources] can be read.  The call
    returns an Ok result that counts three namespaces.  Afterwards the
    three namespaces [<id>_pid], [<id>_net], [<id>_mnt] are in the
    namespace table, each new and empty; the control group of the
    container is in the control-group table under the id, with the
    limits of [config.resources] over the defaults; and the container is
    registered under its id, in place of whatever was registered there,
    with a handle of lifetime [container_lifetime] whose record holds
    the three namespace results and the control-group result.  The
    handle is stored borrowed and [isolateContainer] never releases it:
    a [borrow()] on the stored handle throws. *)
Theorem isolateContainer_registers (h : Host) (containerId : string)
    (config resources : JsVal) (s : IsolationModule.State) :
  Js.get_prop config "resources" = Normal resources ->
  exists r s' handle,
    IsolationModule.isolateContainer h containerId config s = Some (Normal r, s') /\
    Rust.isOk r = true /\
    Js.get_prop (Rust.value r) "namespaces" = Normal (JNum (JsNumber.of_Z 3)) /\
    IsolationModule.namespaces_map s' !! (containerId +:+ "_pid") = Some (Linux.namespace "pid") /\
    IsolationModule.namespaces_map s' !! (containerId +:+ "_net") = Some (Linux.namespace "net") /\
    IsolationModule.namespaces_map s' !! (containerId +:+ "_mnt") = Some (Linux.namespace "mnt") /\
    IsolationModule.cgroups_map s' !! containerId
    = Some (Linux.cgroup containerId (Js.or resources (JObj []))) /\
    IsolationModule.containers s' !! containerId = Some handle /\
    Rust.lifetime handle = "container_lifetime" /\
    Rust.borrowed handle = true /\ Rust.dropped handle = false /\
    (Rust.borrow handle).1 = Throw Rust.borrow_error /\
    IsolationModule.id (Rust.resource handle) = containerId /\
    IsolationModule.config (Rust.resource handle) = config /\
    List.map (fun result => Js.get_prop result "type")
             (IsolationModule.namespaces (Rust.resource handle))
    = [Normal (JStr "pid"); Normal (JStr "net"); Normal (JStr "mnt")] /\
    List.map (fun result => Js.get_prop result "cgroup")
             (IsolationModule.cgroups (Rust.resource handle))
    = [Normal (JStr containerId)] /\
    IsolationModule.base s' = IsolationModule.base s.
Proof.
  intros Hres.
  pose proof (isolationTasks_spawn h containerId config s) as Hs. cbv zeta in Hs.
  rewrite Hres in Hs.
  unfold IsolationModule.isolateContainer.
  set (tasks := IsolationModule.isolationTasks h containerId config) in *.
  change (length tasks) with 4%nat.
  destruct (concurrent_settles (Go.sync_schedule 4) tasks s _ _ Hs sync_schedule_4)
    as [Hc _]. rewrite Hc. clear Hc.
  rewrite !createNamespace_spec.
  cbn [Go.first_rejection Go.sync_schedule flat_map seq app lookup list_lookup
       Go.resume fst snd IsolationModule.createCgroup omap list_omap Go.fulfilled
       Go.background].
  unfold IsolationModule.register, IsolationModule.containerResource.
  cbn [Rust.borrow Rust.own Rust.borrowed Rust.dropped orb Rust.resource Rust.lifetime
       take mapM_completion Rust.unwrap Rust.ok Rust.result Rust.isErr Rust.isOk
       Rust.truthy_message Rust.value Rust.error negb lookup list_lookup Rust.update
       IsolationModule.containers IsolationModule.namespaces_map IsolationModule.cgroups_map
       IsolationModule.base IsolationModule.id IsolationModule.config].
  eexists _, _, _. split; [reflexivity|].
  cbn [IsolationModule.containers IsolationModule.namespaces_map IsolationModule.cgroups_map
       IsolationModule.base].
  split; [reflexivity|]. split; [reflexivity|].
  split.
  { rewrite lookup_insert_ne by (apply suffix_ne; discriminate).
    rewrite lookup_insert_ne by (apply suffix_ne; discriminate).
    apply lookup_insert_eq. }
  split.
  { rewrite lookup_insert_ne by (apply suffix_ne; discriminate).
    apply lookup_insert_eq. }
  split; [apply lookup_insert_eq|].
  split; [apply lookup_insert_eq|].
  split; [apply lookup_insert_eq|].
  repeat split.
Qed.

Lemma isolateContainer_registers_witness :
  exists r s' handle,
    IsolationModule.isolateContainer Samples.host0 "c1" (JObj []) IsolationModule.new
    = Some (Normal r, s') /\
    Rust.isOk r = true /\
    Js.get_prop (Rust.value r) "namespaces" = Normal (JNum (JsNumber.of_Z 3)) /\
    IsolationModule.namespaces_map s' !! "c1_pid" = Some (Linux.namespace "pid") /\
    IsolationModule.namespaces_map s' !! "c1_net" = Some (Linux.namespace "net") /\
    IsolationModule.namespaces_map s' !! "c1_mnt" = Some (Linux.namespace "mnt") /\
    IsolationModule.cgroups_map s' !! "c1" = Some (Linux.cgroup "c1" (JObj [])) /\
    IsolationModule.containers s' !! "c1" = Some handle /\
    Rust.lifetime handle = "container_lifetime" /\
    Rust.borrowed handle = true /\ Rust.dropped handle = false /\
    (Rust.borrow handle).1 = Throw Rust.borrow_error /\
    IsolationModule.id (Rust.resource handle) = "c1" /\
    IsolationModule.config (Rust.resource handle) = JObj [] /\
    List.map (fun result => Js.get_prop result "type")
             (IsolationModule.namespaces (Rust.resource handle))
    = [Normal (JStr "pid"); Normal (JStr "net"); Normal (JStr "mnt")] /\
    List.map (fun result => Js.get_prop result "cgroup")
             (IsolationModule.cgroups (Rust.resource handle))
    = [Normal (JStr "c1")] /\
    IsolationModule.base s' = IsolationModule.base IsolationModule.new.
Proof.
  exact (isolateContainer_registers Samples.host0 "c1" (JObj []) JUndefined
           IsolationModule.new eq_refl).
Defined.

(* --------------------------------------------------------------------- *)
(** ** The fields of a layer *)
(* --------------------------------------------------------------------- *)

Section SplitFacts.
Implicit Types (s a b cur : string) (sep : ascii).

Lemma free_of_cons sep c a : free_of sep (String c a) -> c <> sep /\ free_of sep a.
Proof.
  unfold free_of. simpl. intros H. apply not_elem_of_cons in H as [H1 H2].
  split; [congruence | exact H2].
Qed.

(** The piece before the first separator. *)
Lemma split_go_prefix sep a b : forall cur,
  free_of sep a ->
  JsString.split_go sep cur (a +:+ String sep b)
  = (String.rev cur +:+ a) :: JsString.split_go sep EmptyString b.
Proof.
  induction a as [|c a IH]; intros cur Hfree.
  - rewrite app_empty_l. cbn [JsString.split_go]. rewrite Ascii.eqb_refl.
    now rewrite app_empty_r.
  - apply free_of_cons in Hfree as [Hc Hfree]. rewrite app_cons.
    cbn [JsString.split_go]. destruct (Ascii.eqb_spec c sep); [contradiction|].
    rewrite IH by exact Hfree. rewrite rev_cons, app_string_assoc. reflexivity.
Qed.

Lemma split_go_whole sep a : forall cur,
  free_of sep a -> JsString.split_go sep cur a = [String.rev cur +:+ a].
Proof.
  induction a as [|c a IH]; intros cur Hfree.
  - cbn [JsString.split_go]. now rewrite app_empty_r.
  - apply free_of_cons in Hfree as [Hc Hfree].
    cbn [JsString.split_go]. destruct (Ascii.eqb_spec c sep); [contradiction|].
    rewrite IH by exact Hfree. rewrite rev_cons, app_string_assoc. reflexivity.
Qed.

End SplitFacts.

(** X9.  The layer of an [ENV] instruction keeps one [=]-separated piece as
    the value.  For arguments [<key>=<value>=<more>], with no [=] in the
    key and the value, the layer has variable [<key>] and value
    [<value>]: what follows the second [=] is dropped.  For
    [<key>=<value>] the value is whole, and for arguments with no [=]
    the value is the empty string. *)
Theorem env_value_cut (w : Inputs) (index : nat) (key value more original : string) :
  free_of "=" key -> free_of "=" value ->
  let layer := fun args =>
    ImageModule.layer w {| ImageModule.command := "ENV"; ImageModule.args := args;
                           ImageModule.original := original |} index in
  (Js.get_prop (layer (key +:+ "=" +:+ value +:+ "=" +:+ more)) "variable"
   = Normal (JStr key) /\
   Js.get_prop (layer (key +:+ "=" +:+ value +:+ "=" +:+ more)) "value"
   = Normal (JStr value)) /\
  (Js.get_prop (layer (key +:+ "=" +:+ value)) "variable" = Normal (JStr key) /\
   Js.get_prop (layer (key +:+ "=" +:+ value)) "value" = Normal (JStr value)) /\
  (Js.get_prop (layer key) "variable" = Normal (JStr key) /\
   Js.get_prop (layer key) "value" = Normal (JStr EmptyString)).
Proof.
  intros Hkey Hvalue. cbv zeta.
  assert (H3 : JsString.split "=" (key +:+ "=" +:+ value +:+ "=" +:+ more)
               = key :: value :: JsString.split "=" more).
  { unfold JsString.split. rewrite !(app_cons "="), !app_empty_l.
    rewrite (split_go_prefix "=" key _ EmptyString Hkey).
    now rewrite (split_go_prefix "=" value _ EmptyString Hvalue). }
  assert (H2 : JsString.split "=" (key +:+ "=" +:+ value) = [key; value]).
  { unfold JsString.split. rewrite !(app_cons "="), !app_empty_l.
    rewrite (split_go_prefix "=" key _ EmptyString Hkey).
    now rewrite (split_go_whole "=" value EmptyString Hvalue). }
  assert (H1 : JsString.split "=" key = [key]).
  { unfold JsString.split. now rewrite (split_go_whole "=" key EmptyString Hkey). }
  unfold ImageModule.layer.
  cbn [ImageModule.command ImageModule.args].
  change (String.eqb "ENV" "FROM") with false.
  change (String.eqb "ENV" "RUN") with false.
  change (String.eqb "ENV" "COPY") with false.
  change (String.eqb "ENV" "ADD") with false.
  change (String.eqb "ENV" "ENV") with true.
  cbn [orb]. cbv iota. rewrite H3, H2, H1. repeat split.
Qed.

Lemma env_value_cut_witness :
  let layer := fun args =>
    ImageModule.layer Samples.w0
      {| ImageModule.command := "ENV"; ImageModule.args := args;
         ImageModule.original := "ENV " +:+ args |} 1 in
  Js.get_prop (layer "JAVA_OPTS=-Xmx1g=strict") "variable" = Normal (JStr "JAVA_OPTS") /\
  Js.get_prop (layer "JAVA_OPTS=-Xmx1g=strict") "value" = Normal (JStr "-Xmx1g").
Proof.
  refine (proj1 (env_value_cut Samples.w0 1 "JAVA_OPTS" "-Xmx1g" "strict"
                   "ENV JAVA_OPTS=-Xmx1g=strict" _ _)).
  - unfold free_of. cbn. not_in_list.
  - unfold free_of. cbn. not_in_list.
Defined.
